(** * Shallow embedding of [scouting_reports_scrape.py]

    The script fetches one scouting-report page per player, reads the
    position blocks and the percentile tables out of it, folds the tables
    into one statistic-keyed mapping and collects one record per player.

    What the embedding takes as given:
    - the network: [fetch] maps a player id and a name slug to the page
      that [requests.get] returned;
    - HTML parsing: a page is given by the [id] attributes of its [div]
      elements (all that [soup.find_all] looks at) and by the frames that
      [pd.read_html] returns for its tables.  A frame records whether its
      header is two-level and what its cells hold after the type
      inference of [pd.read_html]: text, a number, or nothing.  Frames
      with a two-level header have the leaf columns Statistic / Per 90 /
      Percentile, the first a column of text; a column holds text (and
      missing cells) or numbers (and missing cells), never both;
    - two functions of Python and pandas, collected in [Library]:
      [str.isdigit], and what [json.loads] reads back from the float that
      [to_json] writes;
    - text is the UTF-8 text of the Python strings;
    - [df.T.to_json()] followed by [json.loads] keeps the statistics and
      their order on a frame whose row labels are distinct; [to_json]
      raises [ValueError] on a frame with a repeated label;
    - the frame of the index that the loop of [__main__] runs over is
      given by its rows, each with its label and with the cells as
      [df.loc] hands them out: text, a float for a missing cell, or an
      integer of numpy for a cell of an integer column;
    - the file system: opening and writing the output file succeed. *)

From Stdlib Require Import List String Ascii Bool Arith ZArith QArith Lia.
Import ListNotations.
Close Scope Q_scope.
Local Open Scope string_scope.
Local Open Scope nat_scope.
Local Open Scope list_scope.
Set Warnings "-register-all".

(** ** Exceptions and the result monad *)

Inductive exn : Type :=
  | ValueError
  | IndexError
  | KeyError (key : string)
  | TypeError
  | AttributeError.

Inductive result (A : Type) : Type :=
  | Ok (a : A)
  | Raise (e : exn).
Arguments Ok {A} a.
Arguments Raise {A} e.

Definition bind {A B : Type} (m : result A) (k : A -> result B) : result B :=
  match m with
  | Ok a => k a
  | Raise e => Raise e
  end.

Notation "x <- m ;; k" := (bind m (fun x => k))
  (at level 61, m at next level, right associativity).

(** ** Python values that the script stores in its dictionaries

    [PyNaN] is the float that stands for a missing cell; [NpInt64] is the
    integer that a frame with an integer column hands out, which is no
    Python [int]. *)

Inductive pyval : Type :=
  | PyNone
  | PyStr (s : string)
  | PyInt (z : Z)
  | PyFloat (q : Q)
  | PyNaN
  | NpInt64 (z : Z)
  | PyDict (d : list (string * pyval)).

(** ** Dictionaries: insertion-ordered, keyed by strings *)

Definition dict (V : Type) : Type := list (string * V).

Definition keys {V : Type} (d : dict V) : list string := map fst d.

Fixpoint dict_get {V : Type} (k : string) (d : dict V) : option V :=
  match d with
  | [] => None
  | (k', v) :: rest => if String.eqb k k' then Some v else dict_get k rest
  end.

(** [d[k]]: a missing key raises [KeyError]. *)
Definition getitem {V : Type} (d : dict V) (k : string) : result V :=
  match dict_get k d with
  | Some v => Ok v
  | None => Raise (KeyError k)
  end.

(** [d[k] = v]: an existing key keeps its place, a new key goes last. *)
Fixpoint dict_set {V : Type} (k : string) (v : V) (d : dict V) : dict V :=
  match d with
  | [] => [(k, v)]
  | (k', v') :: rest =>
      if String.eqb k k' then (k', v) :: rest
      else (k', v') :: dict_set k v rest
  end.

(** [l[i]] for [0 <= i]: out of range raises [IndexError]. *)
Definition list_index {A : Type} (l : list A) (i : nat) : result A :=
  match nth_error l i with
  | Some a => Ok a
  | None => Raise IndexError
  end.

(** [enumerate(l)]. *)
Fixpoint enumerate_from {A : Type} (i : nat) (l : list A) : list (nat * A) :=
  match l with
  | [] => []
  | a :: rest => (i, a) :: enumerate_from (S i) rest
  end.

Definition enumerate {A : Type} (l : list A) : list (nat * A) :=
  enumerate_from 0 l.

(** ** String methods *)

Fixpoint all_chars (p : ascii -> bool) (s : string) : bool :=
  match s with
  | EmptyString => true
  | String c rest => p c && all_chars p rest
  end.

(** [s.split(sep)] for a one-character separator: never empty, and
    neighbouring separators give empty pieces. *)
Fixpoint split (sep : ascii) (s : string) : list string :=
  match s with
  | EmptyString => [EmptyString]
  | String c rest =>
      if Ascii.eqb c sep then EmptyString :: split sep rest
      else match split sep rest with
           | [] => [String c EmptyString]
           | w :: ws => String c w :: ws
           end
  end.

(** [sep.join(l)]. *)
Definition join (sep : string) (l : list string) : string :=
  String.concat sep l.

(** [l[-1]]. *)
Definition last_item {A : Type} (l : list A) : result A :=
  match rev l with
  | [] => Raise IndexError
  | a :: _ => Ok a
  end.

(** [l[-2:]]. *)
Definition last_two {A : Type} (l : list A) : list A :=
  skipn (List.length l - 2) l.

(** ** What is taken from Python and pandas *)

Class Library : Type := {
  (** [s.isdigit()]: true of the non-empty strings all of whose
      characters are digits, those of other scripts included. *)
  isdigit : string -> bool;
  (** The float that [json.loads] reads back from what [to_json] writes
      for a float; [to_json] writes ten decimals. *)
  json_float : Q -> Q
}.

(** [str.isdigit] on text without characters beyond ASCII. *)
Definition is_digit_char (c : ascii) : bool :=
  let n := nat_of_ascii c in Nat.leb 48 n && Nat.leb n 57.

Definition isdigit_ascii (s : string) : bool :=
  match s with
  | EmptyString => false
  | _ => all_chars is_digit_char s
  end.

(** The library of the examples: it agrees with Python on text without
    characters beyond ASCII and on floats that ten decimals write
    exactly. *)
#[global] Instance plain_library : Library := {|
  isdigit := isdigit_ascii;
  json_float := fun q => q
|}.

(** ** Pages *)

(** A cell of a column of text: text, or [None] for a missing cell. *)
Definition cell : Type := option string.

(** A cell of a column whose type is inferred: missing, text, or a
    number of an integer or of a float column.  A float is given by a
    fraction that equals it. *)
Inductive scalar : Type :=
  | NaN
  | Text (s : string)
  | Int64 (z : Z)
  | Float64 (q : Q).

Module raw.
Record t : Type := mk { Statistic : cell; Per_90 : scalar; Percentile : scalar }.
End raw.

Record Table : Type := mkTable {
  multi_header : bool;      (* isinstance(df.columns, pd.MultiIndex) *)
  body : list raw.t
}.

Record Page : Type := mkPage {
  div_ids : list string;    (* the id attribute of every div of the page *)
  tables : list Table       (* the tables of the page, in document order *)
}.

(** ** Position blocks (lines 57-59) *)

Definition pos_list : list string := ["GK"; "CB"; "FB"; "MF"; "AM"; "FW"].

(** [soup.find_all('div', {"id": i})]. *)
Definition find_all_div (soup : Page) (i : string) : list string :=
  filter (String.eqb i) (div_ids soup).

(** Truth value of a list: non-empty. *)
Definition truthy {A : Type} (l : list A) : bool :=
  match l with
  | [] => false
  | _ :: _ => true
  end.

Definition scout_div (p : string) : string := ("div_scout_full_" ++ p)%string.

Definition pos (soup : Page) : list string :=
  filter (fun p => truthy (find_all_div soup (scout_div p))) pos_list.

(** ** Percentile tables (lines 61-71) *)

(** [pd.read_html] never returns an empty list: without a table it
    raises [ValueError]. *)
Definition read_html (doc : Page) : result (list Table) :=
  match tables doc with
  | [] => Raise ValueError
  | dfs => Ok dfs
  end.

Definition cell_eqb (a b : cell) : bool :=
  match a, b with
  | Some x, Some y => String.eqb x y
  | None, None => true
  | _, _ => false
  end.

(** Equality of cells as [drop_duplicates] sees it: missing cells are
    equal, numbers are compared by value. *)
Definition scalar_eqb (a b : scalar) : bool :=
  match a, b with
  | NaN, NaN => true
  | Text x, Text y => String.eqb x y
  | Int64 x, Int64 y => Z.eqb x y
  | Float64 x, Float64 y => Qeq_bool x y
  | _, _ => false
  end.

Definition row_eqb (r r' : raw.t) : bool :=
  cell_eqb (raw.Statistic r) (raw.Statistic r')
  && scalar_eqb (raw.Per_90 r) (raw.Per_90 r')
  && scalar_eqb (raw.Percentile r) (raw.Percentile r').

(** [df.drop_duplicates()]: of equal rows the first one stays. *)
Fixpoint drop_duplicates (l : list raw.t) : list raw.t :=
  match l with
  | [] => []
  | r :: rest => r :: filter (fun r' => negb (row_eqb r r')) (drop_duplicates rest)
  end.

(** A row of a frame after [dropna] and [set_index('Statistic')]: its
    label and the two remaining columns. *)
Module indexed.
Record t : Type := mk { label : string; Per_90 : scalar; Percentile : scalar }.
End indexed.

Definition notna (c : scalar) : bool :=
  match c with
  | NaN => false
  | _ => true
  end.

(** [df.dropna()]: rows with a missing cell go. *)
Definition dropna (l : list raw.t) : list raw.t :=
  filter (fun r => match raw.Statistic r with
                   | Some _ => notna (raw.Per_90 r) && notna (raw.Percentile r)
                   | None => false
                   end) l.

(** [df.set_index('Statistic')] on a frame without missing cells. *)
Definition set_index_Statistic (l : list raw.t) : list indexed.t :=
  flat_map (fun r => match raw.Statistic r with
                     | Some s =>
                         if notna (raw.Per_90 r) && notna (raw.Percentile r)
                         then [indexed.mk s (raw.Per_90 r) (raw.Percentile r)]
                         else []
                     | None => []
                     end) l.

Definition is_text (c : scalar) : bool :=
  match c with
  | Text _ => true
  | _ => false
  end.

(** Whether [pd.read_html] made a column of text (dtype object) of the
    cells: a column without rows is one, and so is a column with a cell
    that is no number; a column of numbers and missing cells only is a
    numeric column. *)
Definition is_object (column : list scalar) : bool :=
  match column with
  | [] => true
  | _ :: _ => existsb is_text column
  end.

Fixpoint is_unique (l : list string) : bool :=
  match l with
  | [] => true
  | x :: rest => negb (existsb (String.eqb x) rest) && is_unique rest
  end.

(** A position table as [json.loads] returns it: statistic -> fields. *)
Definition PositionTable : Type := dict (dict pyval).

Section Extraction.

Context {lib : Library}.

(** Line 68: the row mask, on a column of text. *)
Definition keep_row (r : indexed.t) : bool :=
  match indexed.Percentile r with
  | Text s => isdigit s
  | _ => false
  end
  && negb (String.eqb (indexed.label r) "Passes Blocked").

(** What [json.loads] gives for a cell that [to_json] wrote. *)
Definition json_value (c : scalar) : pyval :=
  match c with
  | NaN => PyNone
  | Text s => PyStr s
  | Int64 z => PyInt z
  | Float64 q => PyFloat (json_float (Qred q))
  end.

Definition to_entry (r : indexed.t) : string * dict pyval :=
  (indexed.label r,
   [("Per 90", json_value (indexed.Per_90 r));
    ("Percentile", json_value (indexed.Percentile r))]).

(** [df.T.to_json()], read back by [json.loads]: [to_json] refuses a
    frame with a repeated label. *)
Definition T_to_json (l : list indexed.t) : result PositionTable :=
  if is_unique (map indexed.label l) then Ok (map to_entry l)
  else Raise ValueError.

(** Lines 65-70 for one table.  The [.str] of line 68 is there for a
    column of text only: on a numeric column it raises
    [AttributeError]. *)
Definition percentile_df (df : Table) : result PositionTable :=
  let df1 := dropna (drop_duplicates (body df)) in
  let df2 := set_index_Statistic df1 in
  if is_object (map raw.Percentile (body df)) then
    let df3 := filter keep_row df2 in
    T_to_json df3
  else Raise AttributeError.

(** Lines 62-71. *)
Fixpoint percentile_dfs (dfs : list Table) : result (list PositionTable) :=
  match dfs with
  | [] => Ok []
  | df :: rest =>
      if multi_header df then
        t <- percentile_df df ;;
        ts <- percentile_dfs rest ;;
        Ok (t :: ts)
      else percentile_dfs rest
  end.

End Extraction.

(** ** Merging (lines 73-78) *)

(** [json.loads(percentile_dfs[i])[stat]['Percentile']]: every use parses
    the stored text again, so it reads the table as it was extracted. *)
Definition percentile_at (pdfs : list PositionTable) (i : nat) (stat : string)
  : result pyval :=
  t <- list_index pdfs i ;;
  e <- getitem t stat ;;
  getitem e "Percentile".

(** The inner loop (lines 77-78); [pct] is [data[stat]['Percentile']]. *)
Fixpoint copy_percentiles (pdfs : list PositionTable) (stat : string)
  (ips : list (nat * string)) (pct : dict pyval) : result (dict pyval) :=
  match ips with
  | [] => Ok pct
  | (i, p) :: rest =>
      v <- percentile_at pdfs i stat ;;
      copy_percentiles pdfs stat rest (dict_set p v pct)
  end.

(** One round of the outer loop: [data[stat]] is the entry of the first
    table with its [Percentile] field replaced by the mapping that the
    inner loop fills. *)
Definition merge_stat (pdfs : list PositionTable) (positions : list string)
  (df : PositionTable) (stat : string) : result (dict pyval) :=
  entry <- getitem df stat ;;
  pct <- copy_percentiles pdfs stat (enumerate positions) [] ;;
  Ok (dict_set "Percentile" (PyDict pct) entry).

Fixpoint merge_loop (pdfs : list PositionTable) (positions : list string)
  (df : PositionTable) (stats : list string) (data : dict (dict pyval))
  : result (dict (dict pyval)) :=
  match stats with
  | [] => Ok data
  | stat :: rest =>
      e <- merge_stat pdfs positions df stat ;;
      merge_loop pdfs positions df rest (dict_set stat e data)
  end.

Definition merge (pdfs : list PositionTable) (positions : list string)
  : result (dict (dict pyval)) :=
  df <- list_index pdfs 0 ;;
  merge_loop pdfs positions df (keys df) [].

(** ** [get_scouting_report] *)

Module report.
Record t : Type := mk {
  data : dict (dict pyval);
  positions : list string;
  id : string
}.
End report.

(** The record that [__main__] stores per player. *)
Module player.
Record t : Type := mk {
  name : pyval;
  positions : list string;
  mins : pyval;
  team : pyval;
  nation : string;
  league : string;
  age : pyval;
  profile : string;
  data : dict (dict pyval)
}.
End player.

(** A label of the index of the frame: the Rk cell of a row, text or an
    integer. *)
Inductive label : Type :=
  | LabelStr (s : string)
  | LabelInt (z : Z).

Definition label_eqb (a b : label) : bool :=
  match a, b with
  | LabelStr x, LabelStr y => String.eqb x y
  | LabelInt x, LabelInt y => Z.eqb x y
  | _, _ => false
  end.

(** A row of the index frame of [__main__]: its label and the cells as
    [df.loc] hands them out. *)
Module row.
Record t : Type := mk {
  Rk : label;
  Player : pyval;
  Min : pyval;
  Squad : pyval;
  Nation : pyval;
  Comp : pyval;
  Age : pyval;
  href : string
}.
End row.

(** [v.split(sep)]: only a [str] has the method. *)
Definition str_split (v : pyval) (sep : ascii) : result (list string) :=
  match v with
  | PyStr s => Ok (split sep s)
  | _ => Raise AttributeError
  end.

(** What [json.dump] can write: everything but the integers of a
    frame. *)
Fixpoint dumpable (v : pyval) : bool :=
  match v with
  | NpInt64 _ => false
  | PyDict d => forallb (fun kv => dumpable (snd kv)) d
  | _ => true
  end.

Definition data_dumpable (data : dict (dict pyval)) : bool :=
  forallb (fun ke => forallb (fun kv => dumpable (snd kv)) (snd ke)) data.

Definition record_dumpable (rec : player.t) : bool :=
  dumpable (player.name rec) && dumpable (player.mins rec)
  && dumpable (player.team rec) && dumpable (player.age rec)
  && data_dumpable (player.data rec).

(** The file [scouting_reports.json] after the run: written to the end
    with the records, or broken off in the middle. *)
Inductive file : Type :=
  | Complete (reports : dict player.t)
  | Truncated.

(** What the run leaves behind: the file, when line 123 was reached, and
    the exception that ended the run, if any. *)
Record Outcome : Type := mkOutcome {
  outfile : option file;
  uncaught : option exn
}.

(** Lines 123-124: the file is opened and [json.dump] writes piece by
    piece; at a value it cannot write it raises [TypeError] and leaves
    what it wrote so far. *)
Definition json_dump (reports : dict player.t) : Outcome :=
  if forallb (fun kr => record_dumpable (snd kr)) reports
  then mkOutcome (Some (Complete reports)) None
  else mkOutcome (Some Truncated) (Some TypeError).

(** [df.loc[idx]]: the rows that carry the label. *)
Definition loc (df : list row.t) (idx : label) : list row.t :=
  filter (fun y => label_eqb (row.Rk y) idx) df.

(** Whether the label of the row [x] of [df] is the label of no other
    row: then [df.loc[idx, column]] is the cell of [x], otherwise it is
    a Series. *)
Definition unique_label (df : list row.t) (x : row.t) : bool :=
  Nat.eqb (List.length (loc df (row.Rk x))) 1.

Section Scrape.

Context {lib : Library}.

(** The page that [requests.get] returns for a player id and name. *)
Variable fetch : string -> string -> Page.

Definition get_scouting_report (idx name : string) : result report.t :=
  let doc := fetch idx name in
  let positions := pos doc in
  dfs <- read_html doc ;;
  pdfs <- percentile_dfs dfs ;;
  data <- merge pdfs positions ;;
  Ok (report.mk data positions idx).

(** The call of line 107, its two arguments unpacked from a list. *)
Definition call_get_scouting_report (args : list string) : result report.t :=
  match args with
  | [idx; name] => get_scouting_report idx name
  | _ => Raise TypeError
  end.

(** The body of the [try] (lines 106-119) for a row whose cells
    [df.loc] finds. *)
Definition try_body (reports : dict player.t) (x : row.t)
  : result (dict player.t) :=
  r <- call_get_scouting_report (last_two (split "/" (row.href x))) ;;
  nation_parts <- str_split (row.Nation x) " " ;;
  nation <- last_item nation_parts ;;
  league_parts <- str_split (row.Comp x) " " ;;
  Ok (dict_set (report.id r)
        (player.mk (row.Player x) (report.positions r) (row.Min x)
           (row.Squad x) nation (join " " (tl league_parts)) (row.Age x)
           ("https://fbref.com" ++ row.href x)%string (report.data r))
        reports).

(** [try: ... except ValueError: pass] for the row [x] of the frame
    [df].  When the label of [x] is the label of another row too, the
    [href] of line 106 is a Series, and the [split] of line 107 raises
    [AttributeError] before anything is fetched. *)
Definition collect (df : list row.t) (reports : dict player.t) (x : row.t)
  : result (dict player.t) :=
  if unique_label df x then
    match try_body reports x with
    | Raise ValueError => Ok reports
    | r => r
    end
  else Raise AttributeError.

(** The loop of line 104 over the rows [rows] of the frame [df]. *)
Fixpoint collect_all (df rows : list row.t) (reports : dict player.t)
  : result (dict player.t) :=
  match rows with
  | [] => Ok reports
  | x :: rest =>
      reports' <- collect df reports x ;;
      collect_all df rest reports'
  end.

(** Lines 103-124: the file is written after the loop, so an
    exception that leaves the loop leaves no file. *)
Definition main (df : list row.t) : Outcome :=
  match collect_all df df [] with
  | Ok reports => json_dump reports
  | Raise e => mkOutcome None (Some e)
  end.

End Scrape.
(** ** The shape of the two merge loops

    Both loops of the merge have one shape: for every item compute a
    value, which may raise, and store it under the item's key. *)

Fixpoint fill_dict {X V : Type} (key : X -> string) (f : X -> result V)
  (items : list X) (d : dict V) : result (dict V) :=
  match items with
  | [] => Ok d
  | x :: rest => v <- f x ;; fill_dict key f rest (dict_set (key x) v d)
  end.

(** What the extraction guarantees of a table: distinct statistics, never
    the excluded one, and the two fields, the percentile being a string
    that [isdigit] accepts. *)
Definition digit_entry {lib : Library} (e : dict pyval) : Prop :=
  exists v b, e = [("Per 90", v); ("Percentile", PyStr b)]
              /\ dumpable v = true
              /\ isdigit b = true.

Definition extracted {lib : Library} (t : PositionTable) : Prop :=
  NoDup (keys t)
  /\ forall stat e, In (stat, e) t -> stat <> "Passes Blocked" /\ digit_entry e.

(** Order-keeping sublists. *)
Inductive subsequence {A : Type} : list A -> list A -> Prop :=
  | subsequence_nil : subsequence [] []
  | subsequence_skip a l l' : subsequence l l' -> subsequence l (a :: l')
  | subsequence_keep a l l' : subsequence l l' -> subsequence (a :: l) (a :: l').

(** ** Readings of the specification that the code is compared with *)

Definition digit_value (c : ascii) : Z := Z.of_nat (nat_of_ascii c - 48).

Fixpoint int_of_digits (acc : Z) (s : string) : Z :=
  match s with
  | EmptyString => acc
  | String c rest => int_of_digits (10 * acc + digit_value c) rest
  end.

(** The integer that a stored value stands for: an [int], or the number
    that a string of the digits 0 to 9 spells. *)
Definition as_integer (v : pyval) : option Z :=
  match v with
  | PyInt z => Some z
  | PyStr s => if isdigit_ascii s then Some (int_of_digits 0 s) else None
  | _ => None
  end.

(** "Every percentile that is present is an integer in [0,100]." *)
Definition percentiles_in_range (r : report.t) : Prop :=
  forall stat e pct p v,
    dict_get stat (report.data r) = Some e ->
    dict_get "Percentile" e = Some (PyDict pct) ->
    In p (report.positions r) ->
    dict_get p pct = Some v ->
    exists z, as_integer v = Some z /\ (0 <= z <= 100)%Z.

(** "A percentile is copied under a position if and only if that
    position's table has the statistic." *)
Definition copies_iff_present (pdfs : list PositionTable)
  (positions : list string) (data : dict (dict pyval)) : Prop :=
  forall stat e pct i p t,
    dict_get stat data = Some e ->
    dict_get "Percentile" e = Some (PyDict pct) ->
    nth_error positions i = Some p ->
    nth_error pdfs i = Some t ->
    (In p (keys pct) <-> In stat (keys t)).

(** "... and a statistic that a later table lacks raises no error." *)
Definition merges_conditionally (pdfs : list PositionTable)
  (positions : list string) : Prop :=
  exists data, merge pdfs positions = Ok data
               /\ copies_iff_present pdfs positions data.

(** Whitespace as [str.split()] without an argument understands it. *)
Definition is_space (c : ascii) : bool :=
  let n := nat_of_ascii c in
  Nat.eqb n 32 || (Nat.leb 9 n && Nat.leb n 13) || (Nat.leb 28 n && Nat.leb n 31).

Fixpoint split_where (p : ascii -> bool) (s : string) : list string :=
  match s with
  | EmptyString => [EmptyString]
  | String c rest =>
      if p c then EmptyString :: split_where p rest
      else match split_where p rest with
           | [] => [String c EmptyString]
           | w :: ws => String c w :: ws
           end
  end.

(** The whitespace-separated tokens of a string. *)
Definition tokens (s : string) : list string :=
  filter (fun w => negb (String.eqb w "")) (split_where is_space s).

(** "The last whitespace-separated token." *)
Definition last_token (s : string) : string := last (tokens s) "".

(** "The string with its first whitespace-separated token removed." *)
Definition without_first_token (s : string) : string :=
  join " " (tl (tokens s)).

(** The record builder as the specification words it. *)
Definition built_from_tokens (x : row.t) (nation_text league_text : string)
  (rec : player.t) : Prop :=
  player.nation rec = last_token nation_text
  /\ player.league rec = without_first_token league_text
  /\ player.name rec = row.Player x
  /\ player.mins rec = row.Min x
  /\ player.team rec = row.Squad x
  /\ player.age rec = row.Age x.

(** A string without the character [c]. *)
Definition free_of (c : ascii) (s : string) : Prop :=
  all_chars (fun c' => negb (Ascii.eqb c' c)) s = true.

(** ** Sample pages and rows

    The tables of the report pages repeat their header inside the body,
    which makes their columns columns of text. *)

Definition header_row : raw.t :=
  raw.mk (Some "Statistic") (Text "Per 90") (Text "Percentile").

Definition blank_row : raw.t := raw.mk None NaN NaN.

Definition text_row (stat per90 pct : string) : raw.t :=
  raw.mk (Some stat) (Text per90) (Text pct).

(** A table with a one-level header, such as a biography panel. *)
Definition flat_table : Table :=
  mkTable false [text_row "Born" "June 28, 1991" "Drongen, Belgium"].

Definition CB_table : Table :=
  mkTable true
    [text_row "Tackles" "2.10" "70"; blank_row; header_row;
     text_row "Clearances" "4.00" "55"; text_row "Passes Blocked" "1.00" "40";
     text_row "Tackles" "2.10" "70"; text_row "Aerials won" "3.20" "-"].

Definition FB_table : Table :=
  mkTable true
    [text_row "Tackles" "2.10" "64"; header_row;
     text_row "Clearances" "4.00" "48"; text_row "Crosses" "0.40" "12"].

Definition FB_table_short : Table :=
  mkTable true [text_row "Tackles" "2.10" "64"; header_row;
                text_row "Crosses" "0.40" "12"].


Definition FW_table_150 : Table :=
  mkTable true [header_row; text_row "Goals" "0.50" "150"].

(** Tables whose columns are columns of numbers. *)
Definition number_row (stat : string) (per90 : Q) (pct : Z) : raw.t :=
  raw.mk (Some stat) (Float64 per90) (Int64 pct).

Definition numeric_table : Table :=
  mkTable true [number_row "Tackles" 2.1 64; number_row "Crosses" 0.4 12].

(** A table with one statistic on two rows that differ. *)
Definition conflicting_table : Table :=
  mkTable true [header_row; text_row "Tackles" "2.10" "70";
                text_row "Tackles" "2.10" "70"; text_row "Tackles" "1.90" "64"].

Definition aligned_page : Page :=
  mkPage ["meta"; "div_scout_full_CB"; "div_scout_full_FB"]
         [flat_table; CB_table; FB_table].

Definition missing_stat_page : Page :=
  mkPage ["div_scout_full_CB"; "div_scout_full_FB"] [CB_table; FB_table_short].

Definition out_of_range_page : Page :=
  mkPage ["div_scout_full_FW"] [FW_table_150].

Definition flat_only_page : Page :=
  mkPage ["meta"] [flat_table].



Definition always (doc : Page) : string -> string -> Page := fun _ _ => doc.

(** A site that serves [doc] for the player [special] and [other] for
    everybody else. *)
Definition site (special : string) (doc other : Page) : string -> string -> Page :=
  fun idx _ => if String.eqb idx special then doc else other.

Definition sample_row : row.t :=
  row.mk (LabelStr "1") (PyStr "Kevin De Bruyne") (PyStr "2196") (PyStr "Manchester City")
         (PyStr "be BEL") (PyStr "eng Premier League") (PyStr "31")
         "/en/players/e46012d4/Kevin-De-Bruyne".

Definition other_row : row.t :=
  row.mk (LabelStr "2") (PyStr "Erling Haaland") (PyStr "2767") (PyStr "Manchester City")
         (PyStr "no NOR") (PyStr "eng Premier League") (PyStr "22")
         "/en/players/1f44ac21/Erling-Haaland".

Definition tab : string := String (ascii_of_nat 9) EmptyString.

(** A row whose nation and league cells separate the prefix by a tab. *)
Definition tabbed_row : row.t :=
  row.mk (LabelStr "1") (PyStr "Kevin De Bruyne") (PyStr "2196") (PyStr "Manchester City")
         (PyStr ("be" ++ tab ++ "BEL")%string)
         (PyStr ("eng" ++ tab ++ "Premier League")%string) (PyStr "31")
         "/en/players/e46012d4/Kevin-De-Bruyne".

(** The two tables of the end-to-end example of the specification and the
    mapping it expects. *)
Definition table_A : PositionTable :=
  [("Goals", [("Per 90", PyFloat (1 # 2)); ("Percentile", PyStr "80")]);
   ("Assists", [("Per 90", PyFloat (3 # 10)); ("Percentile", PyStr "60")])].

Definition table_B : PositionTable :=
  [("Goals", [("Per 90", PyFloat (1 # 2)); ("Percentile", PyStr "70")]);
   ("Key Passes", [("Per 90", PyFloat (6 # 5)); ("Percentile", PyStr "90")])].

Definition expected_data : dict (dict pyval) :=
  [("Goals", [("Per 90", PyFloat (1 # 2));
              ("Percentile", PyDict [("FW", PyInt 80); ("AM", PyInt 70)])]);
   ("Assists", [("Per 90", PyFloat (3 # 10));
                ("Percentile", PyDict [("FW", PyInt 60)])])].

(** A document of the example: the block of FW and the block of AM, and
    the two tables, Table A before Table B.  The rates are numbers and
    the percentiles are text, as the example has them; a row without a
    rank is what makes the Percentile column a column of text. *)
Definition rate_row (stat : string) (per90 : Q) (pct : string) : raw.t :=
  raw.mk (Some stat) (Float64 per90) (Text pct).

Definition example_table_A : Table :=
  mkTable true [rate_row "Goals" 0.5 "80"; rate_row "Assists" 0.3 "60";
                rate_row "Penalties" 0.1 "-"].

Definition example_table_B : Table :=
  mkTable true [rate_row "Goals" 0.5 "70"; rate_row "Key Passes" 1.2 "90";
                rate_row "Penalties" 0.1 "-"].

Definition example_page : Page :=
  mkPage ["div_scout_full_FW"; "div_scout_full_AM"]
         [example_table_A; example_table_B].



(** The sample tables as the extraction leaves them. *)
Definition CB_extracted : PositionTable :=
  [("Tackles", [("Per 90", PyStr "2.10"); ("Percentile", PyStr "70")]);
   ("Clearances", [("Per 90", PyStr "4.00"); ("Percentile", PyStr "55")])].

Definition FB_extracted : PositionTable :=
  [("Tackles", [("Per 90", PyStr "2.10"); ("Percentile", PyStr "64")]);
   ("Clearances", [("Per 90", PyStr "4.00"); ("Percentile", PyStr "48")]);
   ("Crosses", [("Per 90", PyStr "0.40"); ("Percentile", PyStr "12")])].

Definition FB_short_extracted : PositionTable :=
  [("Tackles", [("Per 90", PyStr "2.10"); ("Percentile", PyStr "64")]);
   ("Crosses", [("Per 90", PyStr "0.40"); ("Percentile", PyStr "12")])].

(** What [get_scouting_report] returns on three of the pages. *)
Definition aligned_report : report.t :=
  report.mk
    [("Tackles", [("Per 90", PyStr "2.10");
                  ("Percentile", PyDict [("CB", PyStr "70"); ("FB", PyStr "64")])]);
     ("Clearances", [("Per 90", PyStr "4.00");
                     ("Percentile", PyDict [("CB", PyStr "55"); ("FB", PyStr "48")])])]
    ["CB"; "FB"] "e46012d4".

Definition out_of_range_report : report.t :=
  report.mk
    [("Goals", [("Per 90", PyStr "0.50");
                ("Percentile", PyDict [("FW", PyStr "150")])])]
    ["FW"] "e46012d4".


(** The records that [__main__] stores for the sample rows on the
    aligned page. *)
Definition sample_record : player.t :=
  player.mk (PyStr "Kevin De Bruyne") ["CB"; "FB"] (PyStr "2196")
    (PyStr "Manchester City") "BEL" "Premier League" (PyStr "31")
    "https://fbref.com/en/players/e46012d4/Kevin-De-Bruyne"
    (report.data aligned_report).

Definition tabbed_record : player.t :=
  player.mk (PyStr "Kevin De Bruyne") ["CB"; "FB"] (PyStr "2196")
    (PyStr "Manchester City") ("be" ++ tab ++ "BEL")%string "League" (PyStr "31")
    "https://fbref.com/en/players/e46012d4/Kevin-De-Bruyne"
    (report.data aligned_report).

(** A row whose link has no slash, a row without a nation, and a second
    row of the player of [sample_row]. *)
Definition linkless_row : row.t :=
  row.mk (LabelStr "3") (PyStr "Ann") (PyStr "900") (PyStr "Club")
         (PyStr "be BEL") (PyStr "eng Premier League") (PyStr "30") "Ann".

Definition nationless_row : row.t :=
  row.mk (LabelStr "2") (PyStr "Erling Haaland") (PyStr "2767")
         (PyStr "Manchester City") PyNaN (PyStr "eng Premier League")
         (PyStr "22") "/en/players/1f44ac21/Erling-Haaland".


Definition other_record : player.t :=
  player.mk (PyStr "Erling Haaland") ["CB"; "FB"] (PyStr "2767")
    (PyStr "Manchester City") "NOR" "Premier League" (PyStr "22")
    "https://fbref.com/en/players/1f44ac21/Erling-Haaland"
    (report.data aligned_report).

(** A frame of the index whose Min column is a column of integers. *)
Definition integer_row : row.t :=
  row.mk (LabelInt 1) (PyStr "Kevin De Bruyne") (NpInt64 2196)
         (PyStr "Manchester City") (PyStr "be BEL") (PyStr "eng Premier League")
         (PyStr "31-123") "/en/players/e46012d4/Kevin-De-Bruyne".

(** ** The index frame (lines 92-101)

    The part of [__main__] that prepares the rows the loop runs over,
    taken from the links of the index table and from the frame that
    [pd.read_html] gives for it.  The cells of the frame are text or
    missing, and its rows carry the labels 0, 1, 2, ... that
    [pd.read_html] gives them, so that dropping the labels of the header
    rows is dropping those rows. *)

(** [l[0:len(l):step]], with [k] elements still to pass over before the
    next one is taken. *)
Fixpoint slice_step {A : Type} (step k : nat) (l : list A) : list A :=
  match l with
  | [] => []
  | a :: rest =>
      match k with
      | 0 => a :: slice_step step (step - 1) rest
      | S k' => slice_step step k' rest
      end
  end.

(** Line 93. *)
Definition hrefs {A : Type} (links : list A) : list A := slice_step 5 0 links.

(** A row of the index frame: the columns that the script reads. *)
Module index.
Record t : Type := mk {
  Rk : cell;
  Player : cell;
  Min : cell;
  Squad : cell;
  Nation : cell;
  Comp : cell;
  Age : cell
}.
End index.

(** Line 98: the rows that repeat the header go. *)
Definition drop_header_rows (df : list index.t) : list index.t :=
  filter (fun r => negb (cell_eqb (index.Rk r) (Some "Rk"))) df.

(** Line 99, [df['href'] = hrefs]: a list of another length than the
    frame raises [ValueError]. *)
Definition set_href (df : list index.t) (column : list string)
  : result (list (index.t * string)) :=
  if Nat.eqb (List.length column) (List.length df) then Ok (combine df column)
  else Raise ValueError.

Definition same_player (a b : index.t * string) : bool :=
  cell_eqb (index.Player (fst a)) (index.Player (fst b))
  && cell_eqb (index.Age (fst a)) (index.Age (fst b)).

(** [drop_duplicates] with the rows compared by [same]: of rows that
    compare equal the first one stays. *)
Fixpoint drop_duplicates_by {A : Type} (same : A -> A -> bool) (l : list A)
  : list A :=
  match l with
  | [] => []
  | r :: rest =>
      r :: filter (fun r' => negb (same r r')) (drop_duplicates_by same rest)
  end.

(** Lines 93-100: the frame that the loop of line 104 runs over. *)
Definition index_frame (links : list string) (df : list index.t)
  : result (list (index.t * string)) :=
  df' <- set_href (drop_header_rows df) (hrefs links) ;;
  Ok (drop_duplicates_by same_player df').

(** The rows of a table that reach [to_json] (lines 66-68). *)
Definition kept_rows {lib : Library} (df : Table) : list indexed.t :=
  filter keep_row (set_index_Statistic (dropna (drop_duplicates (body df)))).

(** The rows that are kept, as a list computed from the rows that
    [drop_duplicates] leaves. *)
Definition kept_of {lib : Library} (r : raw.t) : option indexed.t :=
  match raw.Statistic r with
  | Some s =>
      if notna (raw.Per_90 r) && notna (raw.Percentile r)
         && keep_row (indexed.mk s (raw.Per_90 r) (raw.Percentile r))
      then Some (indexed.mk s (raw.Per_90 r) (raw.Percentile r))
      else None
  | None => None
  end.

(** Whether [json.dump] can write the cells that a record takes from a
    row of the index frame. *)
Definition cells_dumpable (x : row.t) : bool :=
  dumpable (row.Player x) && dumpable (row.Min x)
  && dumpable (row.Squad x) && dumpable (row.Age x).

(** Whether the link of the row [x] ends in the id [k] and a name for
    which [get_scouting_report] returns. *)
Definition returns_for {lib : Library} (fetch : string -> string -> Page)
  (k : string) (x : row.t) : bool :=
  match last_two (split "/" (row.href x)) with
  | [idx; name] =>
      String.eqb idx k
      && match get_scouting_report fetch idx name with
         | Ok _ => true
         | Raise _ => false
         end
  | _ => false
  end.

(** The merged entry of a statistic without any position. *)
Definition without_percentiles (item : string * dict pyval) : string * dict pyval :=
  (fst item, dict_set "Percentile" (PyDict []) (snd item)).

(** Sample data for the index frame. *)
Definition index_row (rk player age : string) : index.t :=
  index.mk (Some rk) (Some player) (Some "900") (Some "Club") (Some "be BEL")
           (Some "eng Premier League") (Some age).

Definition index_header : index.t :=
  index.mk (Some "Rk") (Some "Player") (Some "Min") (Some "Squad")
           (Some "Nation") (Some "Comp") (Some "Age").

Definition sample_links : list string :=
  ["/p/a1/Ann"; "/c/BEL"; "/s/x"; "/l/9"; "/m/a1";
   "/p/b2/Bob"; "/c/NOR"; "/s/y"; "/l/9"; "/m/b2";
   "/p/a1/Ann"; "/c/BEL"; "/s/z"; "/l/9"; "/m/a1"].

Definition sample_index : list index.t :=
  [index_row "1" "Ann" "30"; index_header; index_row "2" "Bob" "22";
   index_row "3" "Ann" "30"].

(** * Facts about the embedding *)

(** ** The result monad *)

Lemma bind_Ok {A B : Type} (m : result A) (k : A -> result B) (b : B) :
  bind m k = Ok b -> exists a, m = Ok a /\ k a = Ok b.
Proof.
  destruct m as [a|e]; simpl; intros H; [eauto | discriminate].
Qed.

Lemma bind_Raise {A B : Type} (m : result A) (k : A -> result B) (e : exn) :
  bind m k = Raise e -> m = Raise e \/ exists a, m = Ok a /\ k a = Raise e.
Proof.
  destruct m as [a|e']; simpl; intros H; [eauto | left; congruence].
Qed.

(** Splits a successful chain of binds into its steps. *)
Ltac bind_inv H :=
  repeat match type of H with
  | bind ?m ?k = Ok ?b =>
      let a := fresh "a" in
      let Ha := fresh "Hstep" in
      apply bind_Ok in H; destruct H as [a [Ha H]]
  end.

(** ** Dictionaries *)

Section DictFacts.

Context {V : Type}.
Implicit Types (d : dict V) (k : string) (v : V).

Lemma dict_get_In k d v : dict_get k d = Some v -> In (k, v) d.
Proof.
  induction d as [|[k' v'] d IH]; simpl; [discriminate|].
  destruct (String.eqb_spec k k') as [->|Hne]; intros H.
  - left; congruence.
  - right; auto.
Qed.

Lemma dict_get_keys k d : dict_get k d <> None <-> In k (keys d).
Proof.
  induction d as [|[k' v'] d IH]; simpl.
  - split; [congruence | tauto].
  - destruct (String.eqb_spec k k') as [->|Hne].
    + split; [auto | discriminate].
    + rewrite IH. split; [auto | intros [H|H]; [congruence | assumption]].
Qed.

Lemma dict_get_Some_keys k d v : dict_get k d = Some v -> In k (keys d).
Proof. intros H. apply dict_get_keys. congruence. Qed.

Lemma keys_dict_get k d : In k (keys d) -> exists v, dict_get k d = Some v.
Proof.
  intros H. apply dict_get_keys in H.
  destruct (dict_get k d) as [v|]; [eauto | congruence].
Qed.

Lemma dict_get_None_keys k d : dict_get k d = None <-> ~ In k (keys d).
Proof.
  rewrite <- dict_get_keys. destruct (dict_get k d); split; try congruence.
  intros H; exfalso; apply H; discriminate.
Qed.

Lemma In_NoDup_dict_get k d v :
  NoDup (keys d) -> In (k, v) d -> dict_get k d = Some v.
Proof.
  induction d as [|[k' v'] d IH]; simpl; [tauto|].
  intros Hnd [Heq|Hin]; inversion Hnd as [|? ? Hnotin Hnd']; subst.
  - inversion Heq; subst. now rewrite String.eqb_refl.
  - destruct (String.eqb_spec k k') as [->|Hne]; [|auto].
    exfalso. apply Hnotin. change k' with (fst (k', v)). now apply in_map.
Qed.

Lemma dict_get_set_same k v d : dict_get k (dict_set k v d) = Some v.
Proof.
  induction d as [|[k' v'] d IH]; simpl.
  - now rewrite String.eqb_refl.
  - destruct (String.eqb_spec k k') as [->|Hne]; simpl.
    + now rewrite String.eqb_refl.
    + destruct (String.eqb_spec k k'); [contradiction | assumption].
Qed.

Lemma dict_get_set_other k k' v d :
  k <> k' -> dict_get k (dict_set k' v d) = dict_get k d.
Proof.
  intros Hne. induction d as [|[k0 v0] d IH]; simpl.
  - destruct (String.eqb_spec k k'); [contradiction | reflexivity].
  - destruct (String.eqb_spec k' k0) as [->|Hne0]; simpl.
    + destruct (String.eqb_spec k k0); [contradiction | reflexivity].
    + destruct (String.eqb_spec k k0); [reflexivity | assumption].
Qed.

Lemma keys_dict_set_old k v d :
  In k (keys d) -> keys (dict_set k v d) = keys d.
Proof.
  induction d as [|[k' v'] d IH]; simpl; [tauto|].
  intros H. destruct (String.eqb_spec k k') as [->|Hne]; simpl; [reflexivity|].
  f_equal. apply IH. destruct H; [congruence | assumption].
Qed.

Lemma keys_dict_set_new k v d :
  ~ In k (keys d) -> keys (dict_set k v d) = keys d ++ [k].
Proof.
  induction d as [|[k' v'] d IH]; simpl; [reflexivity|].
  intros H. destruct (String.eqb_spec k k') as [->|Hne]; simpl.
  - exfalso; auto.
  - f_equal. apply IH. tauto.
Qed.

Lemma In_keys_dict_set x k v d :
  In x (keys (dict_set k v d)) <-> x = k \/ In x (keys d).
Proof.
  destruct (in_dec string_dec k (keys d)) as [Hin|Hnin].
  - rewrite keys_dict_set_old by assumption.
    split; [auto | intros [->|H]; assumption].
  - rewrite keys_dict_set_new by assumption.
    rewrite in_app_iff; simpl. split; [intros [H|[H|[]]]; auto | intros [H|H]; auto].
Qed.

Lemma In_dict_set k v d k' v' :
  In (k', v') (dict_set k v d) -> (k' = k /\ v' = v) \/ In (k', v') d.
Proof.
  induction d as [|[k0 v0] d IH]; simpl.
  - intros [H|[]]. inversion H; auto.
  - destruct (String.eqb_spec k k0) as [->|Hne]; simpl.
    + intros [H|H]; [inversion H; auto | auto].
    + intros [H|H]; [auto | destruct (IH H); auto].
Qed.

Lemma getitem_Ok d k v : getitem d k = Ok v <-> dict_get k d = Some v.
Proof.
  unfold getitem. destruct (dict_get k d); split; congruence.
Qed.

Lemma getitem_Raise d k e :
  getitem d k = Raise e <-> e = KeyError k /\ ~ In k (keys d).
Proof.
  unfold getitem. rewrite <- dict_get_None_keys.
  destruct (dict_get k d); split; try congruence.
  - intros [_ H]; discriminate.
  - intros H; split; congruence.
  - intros [-> _]; reflexivity.
Qed.

End DictFacts.

(** ** [enumerate] *)

Lemma In_enumerate_from {A : Type} (l : list A) (k i : nat) (a : A) :
  In (i, a) (enumerate_from k l) <-> k <= i /\ nth_error l (i - k) = Some a.
Proof.
  revert k. induction l as [|b l IH]; intros k; simpl.
  - split; [tauto|]. intros [_ H]. destruct (i - k); discriminate.
  - rewrite IH. split.
    + intros [Heq|[Hle Hnth]].
      * inversion Heq; subst. rewrite Nat.sub_diag. auto.
      * split; [lia|]. replace (i - k) with (S (i - S k)) by lia. exact Hnth.
    + intros [Hle Hnth]. destruct (i - k) as [|n] eqn:E.
      * left. inversion Hnth. f_equal. lia.
      * right. split; [lia|]. replace (i - S k) with n by lia. exact Hnth.
Qed.

Lemma In_enumerate {A : Type} (l : list A) (i : nat) (a : A) :
  In (i, a) (enumerate l) <-> nth_error l i = Some a.
Proof.
  unfold enumerate. rewrite In_enumerate_from, Nat.sub_0_r.
  split; [tauto | split; [lia | assumption]].
Qed.


Lemma map_snd_enumerate_from {A : Type} (l : list A) (k : nat) :
  map snd (enumerate_from k l) = l.
Proof.
  revert k. induction l as [|a l IH]; intros k; simpl; [reflexivity|].
  now rewrite IH.
Qed.

(** ** Loops that fill a dictionary *)

Section Fill.

Context {X V : Type}.
Variable key : X -> string.
Variable f : X -> result V.

Local Abbreviation fill := (fill_dict key f).

Lemma fill_Ok_each items d d' :
  fill items d = Ok d' -> forall x, In x items -> exists v, f x = Ok v.
Proof.
  revert d. induction items as [|x0 items IH]; simpl; intros d H x Hin.
  - contradiction.
  - bind_inv H. destruct Hin as [->|Hin]; eauto.
Qed.

Lemma fill_Raise items d e :
  fill items d = Raise e -> exists x, In x items /\ f x = Raise e.
Proof.
  revert d. induction items as [|x0 items IH]; simpl; intros d H.
  - discriminate.
  - apply bind_Raise in H. destruct H as [H|[v [Hv H]]].
    + exists x0; auto.
    + destruct (IH _ H) as [x [Hin Hx]]. exists x; auto.
Qed.

Lemma fill_total items d :
  (forall x, In x items -> exists v, f x = Ok v) ->
  exists d', fill items d = Ok d'.
Proof.
  revert d. induction items as [|x0 items IH]; simpl; intros d H.
  - eauto.
  - destruct (H x0 (or_introl eq_refl)) as [v Hv]. rewrite Hv; simpl.
    apply IH. intros x Hin. apply H. auto.
Qed.

Lemma fill_In_keys items d d' k :
  fill items d = Ok d' ->
  In k (keys d') <-> In k (keys d) \/ In k (map key items).
Proof.
  revert d. induction items as [|x0 items IH]; simpl; intros d H.
  - inversion H; subst. tauto.
  - bind_inv H. rewrite (IH _ H), In_keys_dict_set.
    split; intros; intuition congruence.
Qed.

Lemma fill_keys items d d' :
  fill items d = Ok d' ->
  NoDup (keys d ++ map key items) ->
  keys d' = keys d ++ map key items.
Proof.
  revert d. induction items as [|x0 items IH]; simpl; intros d H Hnd.
  - inversion H; subst. now rewrite app_nil_r.
  - bind_inv H.
    assert (Hnew : ~ In (key x0) (keys d)).
    { intros Hin. apply NoDup_remove_2 in Hnd. apply Hnd.
      apply in_or_app; auto. }
    rewrite (IH _ H); rewrite keys_dict_set_new by assumption.
    + now rewrite <- app_assoc.
    + rewrite <- app_assoc. exact Hnd.
Qed.

Lemma fill_get_old items d d' k :
  fill items d = Ok d' ->
  ~ In k (map key items) ->
  dict_get k d' = dict_get k d.
Proof.
  revert d. induction items as [|x0 items IH]; simpl; intros d H Hk.
  - now inversion H.
  - bind_inv H. rewrite (IH _ H) by tauto.
    apply dict_get_set_other. intros ->. tauto.
Qed.

Lemma fill_get items d d' k v :
  fill items d = Ok d' ->
  dict_get k d' = Some v ->
  (exists x, In x items /\ key x = k /\ f x = Ok v)
  \/ (~ In k (map key items) /\ dict_get k d = Some v).
Proof.
  revert d. induction items as [|x0 items IH]; simpl; intros d H Hget.
  - inversion H; subst. tauto.
  - bind_inv H. destruct (IH _ H Hget) as [[x [Hin [Hk Hx]]]|[Hnin Hold]].
    + left. exists x; auto.
    + destruct (string_dec k (key x0)) as [->|Hne].
      * rewrite dict_get_set_same in Hold. left. exists x0.
        repeat split; auto. congruence.
      * rewrite dict_get_set_other in Hold by assumption.
        right. split; [|assumption]. intros [Heq|Hin]; [congruence | tauto].
Qed.

Lemma fill_get_new items d d' x v :
  fill items d = Ok d' ->
  NoDup (map key items) ->
  In x items -> f x = Ok v ->
  dict_get (key x) d' = Some v.
Proof.
  revert d. induction items as [|x0 items IH]; simpl; intros d H Hnd Hin Hx.
  - contradiction.
  - bind_inv H. inversion Hnd as [|? ? Hnotin Hnd']; subst.
    destruct Hin as [->|Hin].
    + rewrite (fill_get_old _ _ _ _ H Hnotin), dict_get_set_same. congruence.
    + eauto.
Qed.

Lemma fill_In items d d' k v :
  fill items d = Ok d' ->
  In (k, v) d' ->
  In (k, v) d \/ exists x, In x items /\ key x = k /\ f x = Ok v.
Proof.
  revert d. induction items as [|x0 items IH]; simpl; intros d H Hin.
  - inversion H; subst. auto.
  - bind_inv H. destruct (IH _ H Hin) as [Hold|[x [Hx Hrest]]].
    + apply In_dict_set in Hold. destruct Hold as [[-> ->]|Hold]; [|auto].
      right. exists x0. auto.
    + right. exists x. auto.
Qed.


End Fill.

Lemma copy_percentiles_fill pdfs stat ips pct :
  copy_percentiles pdfs stat ips pct
  = fill_dict snd (fun ip => percentile_at pdfs (fst ip) stat) ips pct.
Proof.
  revert pct. induction ips as [|[i p] ips IH]; intros pct; simpl; [reflexivity|].
  destruct (percentile_at pdfs i stat); simpl; [apply IH | reflexivity].
Qed.

Lemma merge_loop_fill pdfs positions df stats data :
  merge_loop pdfs positions df stats data
  = fill_dict (fun stat => stat) (merge_stat pdfs positions df) stats data.
Proof.
  revert data. induction stats as [|stat stats IH]; intros data; simpl; [reflexivity|].
  destruct (merge_stat pdfs positions df stat); simpl; [apply IH | reflexivity].
Qed.

Section ProgramFacts.

Context {lib : Library}.

(** ** The position blocks *)

Lemma filter_subsequence {A : Type} (p : A -> bool) (l : list A) :
  subsequence (filter p l) l.
Proof.
  induction l as [|a l IH]; simpl; [constructor|].
  destruct (p a); constructor; assumption.
Qed.

Lemma truthy_find_all_div soup i :
  truthy (find_all_div soup i) = true <-> In i (div_ids soup).
Proof.
  unfold find_all_div. split.
  - destruct (filter (String.eqb i) (div_ids soup)) as [|x l] eqn:E; simpl; [discriminate|].
    intros _. assert (Hx : In x (filter (String.eqb i) (div_ids soup))) by (rewrite E; left; reflexivity).
    apply filter_In in Hx. destruct Hx as [Hin Heq].
    apply String.eqb_eq in Heq. now subst.
  - intros Hin.
    assert (Hx : In i (filter (String.eqb i) (div_ids soup))).
    { apply filter_In. split; [assumption | apply String.eqb_refl]. }
    destruct (filter (String.eqb i) (div_ids soup)); [contradiction | reflexivity].
Qed.

Lemma NoDup_pos_list : NoDup pos_list.
Proof.
  unfold pos_list.
  repeat (constructor; [simpl; intros H; repeat destruct H as [H|H]; try discriminate H; exact H|]).
  constructor.
Qed.

Lemma NoDup_pos soup : NoDup (pos soup).
Proof. apply NoDup_filter, NoDup_pos_list. Qed.

(** ** The extraction *)

Lemma is_unique_NoDup l : is_unique l = true -> NoDup l.
Proof.
  induction l as [|x l IH]; simpl; [constructor|].
  intros H. apply andb_prop in H. destruct H as [Hx Hl].
  constructor; [|auto]. intros Hin.
  apply negb_true_iff in Hx.
  assert (existsb (String.eqb x) l = true); [|congruence].
  apply existsb_exists. exists x. split; [assumption | apply String.eqb_refl].
Qed.

(** After [dropna] every row has its three cells, so indexing by the
    Statistic column loses no row. *)
Lemma set_index_after_dropna l :
  List.length (set_index_Statistic (dropna l)) = List.length (dropna l).
Proof.
  unfold set_index_Statistic, dropna.
  induction l as [|r l IH]; simpl; [reflexivity|].
  destruct (raw.Statistic r) eqn:Es; [|assumption].
  destruct (notna (raw.Per_90 r) && notna (raw.Percentile r)) eqn:E; [|assumption].
  simpl. rewrite Es, E. simpl. now rewrite IH.
Qed.

Lemma dumpable_json_value c : dumpable (json_value c) = true.
Proof. destruct c; reflexivity. Qed.

Lemma keys_to_entry l : keys (map to_entry l) = map indexed.label l.
Proof. unfold keys. rewrite map_map. reflexivity. Qed.

Lemma percentile_df_extracted df t : percentile_df df = Ok t -> extracted t.
Proof.
  unfold percentile_df, T_to_json.
  destruct (is_object (map raw.Percentile (body df))); [|discriminate].
  set (l := filter keep_row _).
  destruct (is_unique (map indexed.label l)) eqn:U; [|discriminate].
  intros H; inversion H; subst t. split.
  - rewrite keys_to_entry. now apply is_unique_NoDup.
  - intros stat e Hin. apply in_map_iff in Hin. destruct Hin as [r [Hr Hin]].
    apply filter_In in Hin. destruct Hin as [_ Hkeep].
    unfold keep_row in Hkeep. apply andb_prop in Hkeep. destruct Hkeep as [Hd Hn].
    inversion Hr; subst. split.
    + apply negb_true_iff in Hn. now apply String.eqb_neq in Hn.
    + destruct (indexed.Percentile r) as [|s| |] eqn:Ep; try discriminate Hd.
      exists (json_value (indexed.Per_90 r)), s.
      split; [reflexivity|]. split; [apply dumpable_json_value | exact Hd].
Qed.

Lemma percentile_dfs_extracted dfs pdfs :
  percentile_dfs dfs = Ok pdfs -> Forall extracted pdfs.
Proof.
  revert pdfs. induction dfs as [|df dfs IH]; simpl; intros pdfs H.
  - inversion H. constructor.
  - destruct (multi_header df); [|auto].
    bind_inv H. inversion H; subst. constructor; [|auto].
    eapply percentile_df_extracted; eassumption.
Qed.

(** ** The merge *)

Lemma merge_stat_Ok pdfs positions df stat e :
  merge_stat pdfs positions df stat = Ok e ->
  exists entry pct,
    dict_get stat df = Some entry
    /\ copy_percentiles pdfs stat (enumerate positions) [] = Ok pct
    /\ e = dict_set "Percentile" (PyDict pct) entry.
Proof.
  unfold merge_stat. intros H. bind_inv H.
  apply getitem_Ok in Hstep. inversion H; subst. eauto.
Qed.

Lemma merge_loop_entry pdfs positions df data stat e :
  merge_loop pdfs positions df (keys df) [] = Ok data ->
  dict_get stat data = Some e ->
  merge_stat pdfs positions df stat = Ok e.
Proof.
  rewrite merge_loop_fill. intros H Hget.
  destruct (fill_get _ _ _ _ _ _ _ H Hget) as [[x [_ [-> Hx]]]|[_ Hold]].
  - exact Hx.
  - discriminate.
Qed.

Lemma merge_loop_keys pdfs positions df data :
  NoDup (keys df) ->
  merge_loop pdfs positions df (keys df) [] = Ok data ->
  keys data = keys df.
Proof.
  rewrite merge_loop_fill. intros Hnd H.
  apply fill_keys in H; rewrite map_id in *; simpl in *; assumption.
Qed.

Lemma copy_percentiles_keys pdfs stat positions pct :
  NoDup positions ->
  copy_percentiles pdfs stat (enumerate positions) [] = Ok pct ->
  keys pct = positions.
Proof.
  rewrite copy_percentiles_fill. intros Hnd H. unfold enumerate in *.
  apply fill_keys in H; rewrite map_snd_enumerate_from in *; simpl in *; assumption.
Qed.

Lemma copy_percentiles_value pdfs stat positions pct i p :
  NoDup positions ->
  copy_percentiles pdfs stat (enumerate positions) [] = Ok pct ->
  nth_error positions i = Some p ->
  exists v, percentile_at pdfs i stat = Ok v /\ dict_get p pct = Some v.
Proof.
  rewrite copy_percentiles_fill. intros Hnd H Hp.
  apply In_enumerate in Hp.
  destruct (fill_Ok_each _ _ _ _ _ H _ Hp) as [v Hv]. exists v. split; [exact Hv|].
  apply (fill_get_new _ _ _ _ _ (i, p) v H); auto.
  unfold enumerate. now rewrite map_snd_enumerate_from.
Qed.

Lemma percentile_at_Ok pdfs i stat v :
  percentile_at pdfs i stat = Ok v <->
  exists t e, nth_error pdfs i = Some t /\ dict_get stat t = Some e
              /\ dict_get "Percentile" e = Some v.
Proof.
  unfold percentile_at, list_index. split.
  - intros H. bind_inv H. apply getitem_Ok in Hstep0, H.
    destruct (nth_error pdfs i) as [t|]; [|discriminate].
    inversion Hstep; subst. eauto.
  - intros [t [e [Ht [He Hv]]]]. rewrite Ht; simpl.
    apply getitem_Ok in He, Hv. rewrite He; simpl. exact Hv.
Qed.

Lemma percentile_at_Raise pdfs i stat e :
  percentile_at pdfs i stat = Raise e ->
  e = IndexError \/ exists k, e = KeyError k.
Proof.
  unfold percentile_at, list_index. intros H.
  destruct (nth_error pdfs i) as [t|]; simpl in H; [|left; congruence].
  right. apply bind_Raise in H. destruct H as [H|[a [_ H]]];
    apply getitem_Raise in H; destruct H as [-> _]; eauto.
Qed.

Lemma percentile_at_extracted pdfs i stat v :
  Forall extracted pdfs ->
  percentile_at pdfs i stat = Ok v ->
  exists s, v = PyStr s /\ isdigit s = true.
Proof.
  intros Hall H. apply percentile_at_Ok in H.
  destruct H as [t [e [Ht [He Hv]]]].
  apply nth_error_In in Ht. rewrite Forall_forall in Hall.
  destruct (Hall _ Ht) as [_ Hrows].
  destruct (Hrows _ _ (dict_get_In _ _ _ He)) as [_ [a [b [-> [_ Hb]]]]].
  simpl in Hv. inversion Hv; subst. eauto.
Qed.

(** ** [get_scouting_report] taken apart *)

Lemma get_scouting_report_Ok fetch idx name r :
  get_scouting_report fetch idx name = Ok r ->
  exists dfs first rest,
    read_html (fetch idx name) = Ok dfs
    /\ percentile_dfs dfs = Ok (first :: rest)
    /\ merge_loop (first :: rest) (pos (fetch idx name)) first (keys first) []
       = Ok (report.data r)
    /\ report.positions r = pos (fetch idx name)
    /\ report.id r = idx.
Proof.
  unfold get_scouting_report, merge. intros H.
  destruct (read_html (fetch idx name)) as [dfs|] eqn:E1; simpl in H; [|discriminate].
  destruct (percentile_dfs dfs) as [[|first rest]|] eqn:E2; simpl in H;
    try discriminate.
  destruct (merge_loop (first :: rest) _ first (keys first) []) as [data|] eqn:E3;
    simpl in H; [|discriminate].
  inversion H; subst; simpl. exists dfs, first, rest. auto.
Qed.

Lemma data_keys_in_first fetch idx name r :
  get_scouting_report fetch idx name = Ok r ->
  exists first, extracted first /\ keys (report.data r) = keys first.
Proof.
  intros H.
  destruct (get_scouting_report_Ok _ _ _ _ H)
    as [dfs [first [rest [_ [Hext [Hloop _]]]]]].
  apply percentile_dfs_extracted in Hext.
  inversion Hext as [|? ? Hfirst _]; subst.
  exists first. split; [assumption|].
  apply merge_loop_keys in Hloop; [assumption | apply Hfirst].
Qed.

(** ** The collecting loop *)

Section Collecting.

Variable fetch : string -> string -> Page.

Lemma collect_raises df reports x idx name e :
  last_two (split "/" (row.href x)) = [idx; name] ->
  get_scouting_report fetch idx name = Raise e ->
  e <> ValueError ->
  collect fetch df reports x
  = Raise (if unique_label df x then e else AttributeError).
Proof.
  intros Hargs Hr Hne. unfold collect, try_body, call_get_scouting_report.
  destruct (unique_label df x); [|reflexivity].
  rewrite Hargs, Hr; simpl. destruct e; try reflexivity. contradiction.
Qed.

Lemma collect_skips df reports x idx name :
  unique_label df x = true ->
  last_two (split "/" (row.href x)) = [idx; name] ->
  get_scouting_report fetch idx name = Raise ValueError ->
  collect fetch df reports x = Ok reports.
Proof.
  intros Hu Hargs Hr. unfold collect, try_body, call_get_scouting_report.
  rewrite Hu, Hargs, Hr; reflexivity.
Qed.

Lemma collect_Ok_unique df reports x reports' :
  collect fetch df reports x = Ok reports' -> unique_label df x = true.
Proof.
  unfold collect. destruct (unique_label df x); [reflexivity | discriminate].
Qed.

Lemma collect_all_app df rows rows' reports :
  collect_all fetch df (rows ++ rows') reports
  = (reports' <- collect_all fetch df rows reports ;;
     collect_all fetch df rows' reports').
Proof.
  revert reports. induction rows as [|x rows IH]; intros reports; simpl; [reflexivity|].
  destruct (collect fetch df reports x); simpl; [apply IH | reflexivity].
Qed.

Lemma try_body_Ok reports x reports' :
  try_body fetch reports x = Ok reports' ->
  exists idx name r nation_text league_text nation,
    last_two (split "/" (row.href x)) = [idx; name]
    /\ get_scouting_report fetch idx name = Ok r
    /\ row.Nation x = PyStr nation_text
    /\ row.Comp x = PyStr league_text
    /\ last_item (split " " nation_text) = Ok nation
    /\ reports'
       = dict_set (report.id r)
           (player.mk (row.Player x) (report.positions r) (row.Min x)
              (row.Squad x) nation (join " " (tl (split " " league_text)))
              (row.Age x) ("https://fbref.com" ++ row.href x)%string
              (report.data r))
           reports.
Proof.
  unfold try_body, call_get_scouting_report. intros H.
  destruct (last_two (split "/" (row.href x))) as [|idx [|name [|? ?]]] eqn:Hargs;
    try discriminate H.
  destruct (get_scouting_report fetch idx name) as [r|] eqn:Hr;
    simpl in H; [|discriminate H].
  destruct (row.Nation x) eqn:Hn; try discriminate H.
  simpl in H.
  destruct (last_item (split " " s)) as [nation|] eqn:Hlast;
    simpl in H; [|discriminate H].
  destruct (row.Comp x) eqn:Hc; try discriminate H.
  simpl in H. inversion H; subst reports'; clear H.
  exists idx, name, r, s, s0, nation. auto 10.
Qed.

(** Every stored record carries the data and the positions of a report
    that [get_scouting_report] returned, under that report's id. *)
Lemma collect_all_records df rows reports final k rec :
  collect_all fetch df rows reports = Ok final ->
  In (k, rec) final ->
  In (k, rec) reports
  \/ exists idx name r,
       get_scouting_report fetch idx name = Ok r
       /\ k = report.id r
       /\ player.data rec = report.data r
       /\ player.positions rec = report.positions r.
Proof.
  revert reports. induction rows as [|x rows IH]; simpl; intros reports H Hin.
  - inversion H; subst. auto.
  - apply bind_Ok in H. destruct H as [reports' [Hx H]].
    destruct (IH _ H Hin) as [Hold|Hnew]; [|auto].
    unfold collect in Hx. destruct (unique_label df x); [|discriminate Hx].
    destruct (try_body fetch reports x) as [reports''|e] eqn:Hbody.
    + inversion Hx; subst reports''.
      destruct (try_body_Ok _ _ _ Hbody)
        as [idx [name [r [nt [lt [n [_ [Hr [_ [_ [_ ->]]]]]]]]]]].
      apply In_dict_set in Hold. destruct Hold as [[-> ->]|Hold]; [|auto].
      right. exists idx, name, r. auto.
    + destruct e; try discriminate Hx. inversion Hx; subst. auto.
Qed.

(** The loop went through when a file is there. *)
Lemma main_Complete df reports :
  outfile (main fetch df) = Some (Complete reports) ->
  collect_all fetch df df [] = Ok reports.
Proof.
  unfold main, json_dump.
  destruct (collect_all fetch df df []) as [final|]; [|discriminate].
  destruct (forallb _ final); simpl; intros H; inversion H. reflexivity.
Qed.

Lemma stored_records_come_from_reports df reports k rec :
  outfile (main fetch df) = Some (Complete reports) ->
  In (k, rec) reports ->
  exists idx name r,
    get_scouting_report fetch idx name = Ok r
    /\ k = report.id r
    /\ player.data rec = report.data r
    /\ player.positions rec = report.positions r.
Proof.
  intros H Hin. apply main_Complete in H.
  destruct (collect_all_records _ _ _ _ _ _ H Hin) as [[]|Hnew]. exact Hnew.
Qed.

(** An exception that leaves the [try] ends the run at that row. *)
Lemma main_stops_at before x after reports e :
  collect_all fetch (before ++ x :: after) before [] = Ok reports ->
  collect fetch (before ++ x :: after) reports x = Raise e ->
  main fetch (before ++ x :: after) = mkOutcome None (Some e).
Proof.
  intros Hbefore Hx. unfold main. rewrite collect_all_app, Hbefore; simpl.
  rewrite Hx; reflexivity.
Qed.

(** A row that cannot be collected leaves the run without a file,
    wherever it stands. *)
Lemma main_writes_nothing df x :
  In x df ->
  (forall reports, exists e, collect fetch df reports x = Raise e) ->
  outfile (main fetch df) = None
  /\ exists e', uncaught (main fetch df) = Some e'.
Proof.
  intros Hin Hx. unfold main.
  assert (H : forall rows reports, In x rows ->
            exists e', collect_all fetch df rows reports = Raise e').
  { induction rows as [|y rows IH]; [contradiction|]. intros reports Hy; simpl.
    destruct Hy as [->|Hy].
    - destruct (Hx reports) as [e ->]; simpl; eauto.
    - destruct (collect fetch df reports y); simpl; eauto. }
  destruct (H df [] Hin) as [e' ->]; simpl; eauto.
Qed.

End Collecting.

(** ** When the merge raises *)

Lemma percentile_at_Raise_cases pdfs i stat e :
  Forall extracted pdfs ->
  percentile_at pdfs i stat = Raise e ->
  (nth_error pdfs i = None /\ e = IndexError)
  \/ (exists t, nth_error pdfs i = Some t /\ ~ In stat (keys t)
                /\ e = KeyError stat).
Proof.
  intros Hall. unfold percentile_at, list_index.
  destruct (nth_error pdfs i) as [t|] eqn:Ht; simpl; intros H.
  - right. exists t. split; [reflexivity|].
    destruct (dict_get stat t) as [e0|] eqn:He0.
    + exfalso. apply getitem_Ok in He0. rewrite He0 in H; simpl in H.
      apply getitem_Ok in He0.
      apply nth_error_In in Ht. rewrite Forall_forall in Hall.
      destruct (Hall _ Ht) as [_ Hrows].
      destruct (Hrows _ _ (dict_get_In _ _ _ He0)) as [_ [a [b [-> _]]]].
      discriminate H.
    + apply dict_get_None_keys in He0. split; [assumption|].
      assert (Hr : getitem t stat = Raise (KeyError stat))
        by (apply getitem_Raise; auto).
      rewrite Hr in H; simpl in H. congruence.
  - left. split; [reflexivity | congruence].
Qed.

Lemma merge_stat_Raise pdfs positions df stat e :
  In stat (keys df) ->
  merge_stat pdfs positions df stat = Raise e ->
  exists i p, nth_error positions i = Some p
              /\ percentile_at pdfs i stat = Raise e.
Proof.
  intros Hin. unfold merge_stat.
  destruct (keys_dict_get _ _ Hin) as [entry Hentry].
  apply getitem_Ok in Hentry. rewrite Hentry; simpl.
  rewrite copy_percentiles_fill.
  destruct (fill_dict _ _ _ _) as [pct|e'] eqn:E; simpl; [discriminate|].
  intros H; inversion H; subst e'.
  apply fill_Raise in E. destruct E as [[i p] [Hip Hat]].
  apply In_enumerate in Hip. exists i, p. auto.
Qed.

Lemma merge_loop_Raise pdfs positions df e :
  merge_loop pdfs positions df (keys df) [] = Raise e ->
  exists stat i p,
    In stat (keys df) /\ nth_error positions i = Some p
    /\ percentile_at pdfs i stat = Raise e.
Proof.
  rewrite merge_loop_fill. intros H.
  apply fill_Raise in H. destruct H as [stat [Hin Hstat]].
  destruct (merge_stat_Raise _ _ _ _ _ Hin Hstat) as [i [p [Hp Hat]]].
  exists stat, i, p. auto.
Qed.

Lemma merge_loop_Ok_all pdfs positions df data :
  merge_loop pdfs positions df (keys df) [] = Ok data ->
  forall stat i p,
    In stat (keys df) -> nth_error positions i = Some p ->
    exists v, percentile_at pdfs i stat = Ok v.
Proof.
  rewrite merge_loop_fill. intros H stat i p Hin Hp.
  destruct (fill_Ok_each _ _ _ _ _ H _ Hin) as [e He].
  destruct (merge_stat_Ok _ _ _ _ _ He) as [_ [pct [_ [Hcopy _]]]].
  rewrite copy_percentiles_fill in Hcopy.
  apply In_enumerate in Hp.
  exact (fill_Ok_each _ _ _ _ _ Hcopy _ Hp).
Qed.

Lemma merge_loop_total pdfs positions df :
  (forall stat i p,
     In stat (keys df) -> nth_error positions i = Some p ->
     exists v, percentile_at pdfs i stat = Ok v) ->
  exists data, merge_loop pdfs positions df (keys df) [] = Ok data.
Proof.
  intros Hall. rewrite merge_loop_fill. apply fill_total.
  intros stat Hin. unfold merge_stat.
  destruct (keys_dict_get _ _ Hin) as [entry Hentry].
  apply getitem_Ok in Hentry. rewrite Hentry; simpl.
  rewrite copy_percentiles_fill.
  destruct (fill_total snd (fun ip => percentile_at pdfs (fst ip) stat)
              (enumerate positions) []) as [pct Hpct].
  - intros [i p] Hip. apply In_enumerate in Hip. simpl. eauto.
  - rewrite Hpct; simpl. eauto.
Qed.

Lemma get_scouting_report_eq fetch idx name dfs first rest :
  read_html (fetch idx name) = Ok dfs ->
  percentile_dfs dfs = Ok (first :: rest) ->
  get_scouting_report fetch idx name
  = (data <- merge_loop (first :: rest) (pos (fetch idx name)) first (keys first) [] ;;
     Ok (report.mk data (pos (fetch idx name)) idx)).
Proof.
  intros Hread Hext. unfold get_scouting_report, merge.
  rewrite Hread; simpl. rewrite Hext; reflexivity.
Qed.

(** Without a percentile table line 74 raises [IndexError]. *)
Lemma empty_extraction_raises fetch idx name dfs :
  read_html (fetch idx name) = Ok dfs ->
  percentile_dfs dfs = Ok [] ->
  get_scouting_report fetch idx name = Raise IndexError.
Proof.
  intros Hread Hext. unfold get_scouting_report, merge.
  rewrite Hread; simpl. rewrite Hext; reflexivity.
Qed.

(** Without any table [pd.read_html] raises [ValueError]. *)
Lemma no_table_raises_ValueError fetch idx name :
  tables (fetch idx name) = [] ->
  get_scouting_report fetch idx name = Raise ValueError.
Proof.
  intros H. unfold get_scouting_report, read_html. rewrite H. reflexivity.
Qed.

(** ** Splitting and joining strings *)

Lemma split_not_nil sep s : split sep s <> [].
Proof.
  destruct s as [|c s]; simpl; [discriminate|].
  destruct (Ascii.eqb c sep); [discriminate|].
  destruct (split sep s); discriminate.
Qed.

Lemma join_split sep s : join (String sep EmptyString) (split sep s) = s.
Proof.
  unfold join. induction s as [|c s IH]; simpl; [reflexivity|].
  destruct (Ascii.eqb_spec c sep) as [->|Hne].
  - pose proof (split_not_nil sep s) as Hnn.
    destruct (split sep s) as [|w ws]; [contradiction|].
    simpl in *. now rewrite IH.
  - pose proof (split_not_nil sep s) as Hnn.
    destruct (split sep s) as [|w ws]; [contradiction|].
    destruct ws as [|w' ws]; simpl in *; now rewrite <- IH.
Qed.

Lemma split_free sep s : Forall (free_of sep) (split sep s).
Proof.
  induction s as [|c s IH]; simpl.
  - constructor; [reflexivity | constructor].
  - destruct (Ascii.eqb c sep) eqn:E.
    + constructor; [reflexivity | assumption].
    + destruct (split sep s) as [|w ws].
      * constructor; [unfold free_of; simpl; now rewrite E | constructor].
      * inversion IH as [|? ? Hw Hws]; subst. constructor; [|assumption].
        unfold free_of in *; simpl. now rewrite E.
Qed.

Lemma append_assoc (a b c : string) :
  ((a ++ b) ++ c = a ++ (b ++ c))%string.
Proof.
  induction a as [|x a IH]; simpl; [reflexivity | now rewrite IH].
Qed.

Lemma concat_snoc sep l w :
  l <> [] ->
  String.concat sep (l ++ [w]) = (String.concat sep l ++ sep ++ w)%string.
Proof.
  induction l as [|a l IH]; [congruence|]. intros _.
  destruct l as [|b l].
  - reflexivity.
  - change (String.concat sep ((a :: b :: l) ++ [w]))
      with (a ++ sep ++ String.concat sep ((b :: l) ++ [w]))%string.
    rewrite IH by discriminate.
    change (String.concat sep (a :: b :: l))
      with (a ++ sep ++ String.concat sep (b :: l))%string.
    now rewrite !append_assoc.
Qed.

(** [s.split(sep)[-1]] is what follows the last separator of [s]. *)
Lemma last_of_split sep s w :
  last_item (split sep s) = Ok w ->
  free_of sep w
  /\ (s = w \/ exists prefix, s = (prefix ++ String sep EmptyString ++ w)%string).
Proof.
  unfold last_item. intros H.
  destruct (rev (split sep s)) as [|w' l] eqn:E; [discriminate|].
  inversion H; subst w'.
  assert (Hsplit : split sep s = rev l ++ [w]).
  { rewrite <- (rev_involutive (split sep s)), E. reflexivity. }
  pose proof (split_free sep s) as Hfree. rewrite Hsplit in Hfree.
  apply Forall_app in Hfree. destruct Hfree as [_ Hw].
  split; [now inversion Hw|].
  pose proof (join_split sep s) as Hjoin. unfold join in Hjoin.
  rewrite Hsplit in Hjoin.
  destruct (rev l) as [|a l'] eqn:El.
  - left. simpl in Hjoin. congruence.
  - right. rewrite concat_snoc in Hjoin by discriminate. eauto.
Qed.

(** [sep.join(s.split(sep)[1:])] is what follows the first separator. *)
Lemma rest_of_split sep s :
  exists first,
    free_of sep first
    /\ ((s = first /\ join (String sep EmptyString) (tl (split sep s)) = EmptyString)
        \/ s = (first ++ String sep EmptyString
                ++ join (String sep EmptyString) (tl (split sep s)))%string).
Proof.
  pose proof (split_free sep s) as Hfree.
  pose proof (join_split sep s) as Hjoin. unfold join in *.
  pose proof (split_not_nil sep s) as Hnn.
  destruct (split sep s) as [|w ws]; [contradiction|].
  exists w. split; [now inversion Hfree|]. simpl.
  destruct ws as [|w' ws]; [left | right]; simpl in *; auto.
Qed.

End ProgramFacts.

(** ** Subsequences *)

Lemma subsequence_refl {A : Type} (l : list A) : subsequence l l.
Proof.
  induction l; [apply subsequence_nil | apply subsequence_keep; assumption].
Qed.

Lemma subsequence_trans {A : Type} (l1 l2 l3 : list A) :
  subsequence l1 l2 -> subsequence l2 l3 -> subsequence l1 l3.
Proof.
  intros H12 H23. revert l1 H12.
  induction H23 as [|a l l' H IH|a l l' H IH]; intros l1 H12.
  - assumption.
  - apply subsequence_skip. auto.
  - inversion H12; subst; [apply subsequence_skip | apply subsequence_keep]; auto.
Qed.

Lemma subsequence_map {A B : Type} (f : A -> B) (l l' : list A) :
  subsequence l l' -> subsequence (map f l) (map f l').
Proof.
  induction 1; simpl;
    [apply subsequence_nil | apply subsequence_skip | apply subsequence_keep];
    assumption.
Qed.

Lemma subsequence_In {A : Type} (l l' : list A) (a : A) :
  subsequence l l' -> In a l -> In a l'.
Proof.
  induction 1 as [|b l l' H IH|b l l' H IH]; simpl; intros Hin; auto.
  destruct Hin; auto.
Qed.

Lemma subsequence_flat_map_option {A B : Type} (f : A -> option B) (l : list A) :
  subsequence
    (map Some (flat_map (fun a => match f a with Some b => [b] | None => [] end) l))
    (map f l).
Proof.
  induction l as [|a l IH]; simpl; [apply subsequence_nil|].
  destruct (f a); simpl; [apply subsequence_keep | apply subsequence_skip]; exact IH.
Qed.

(** ** Dropping duplicates *)

Lemma ForallOrdPairs_filter {A : Type} (R : A -> A -> Prop) (p : A -> bool) l :
  ForallOrdPairs R l -> ForallOrdPairs R (filter p l).
Proof.
  induction 1 as [|a l0 Ha Hl IH]; simpl; [constructor|].
  destruct (p a); [|assumption].
  constructor; [|assumption].
  apply Forall_forall. intros x Hx. apply filter_In in Hx.
  rewrite Forall_forall in Ha. apply Ha. tauto.
Qed.

Lemma ForallOrdPairs_flat_map {A B : Type} (R : A -> A -> Prop) (R' : B -> B -> Prop)
  (f : A -> option B) (l : list A) :
  (forall a a' b b', f a = Some b -> f a' = Some b' -> R a a' -> R' b b') ->
  ForallOrdPairs R l ->
  ForallOrdPairs R'
    (flat_map (fun a => match f a with Some b => [b] | None => [] end) l).
Proof.
  intros Hf. induction 1 as [|a l0 Ha Hl IH]; simpl; [constructor|].
  destruct (f a) as [b|] eqn:E; simpl; [|assumption].
  constructor; [|assumption].
  apply Forall_forall. intros b' Hb'. apply in_flat_map in Hb'.
  destruct Hb' as [a' [Ha' Hb']].
  destruct (f a') as [b''|] eqn:E'; [|contradiction].
  destruct Hb' as [<-|[]].
  rewrite Forall_forall in Ha. eauto.
Qed.

Section DropDuplicates.

Context {A : Type}.
Variable same : A -> A -> bool.

Lemma drop_duplicates_by_subsequence l :
  subsequence (drop_duplicates_by same l) l.
Proof.
  induction l as [|r l IH]; simpl; [apply subsequence_nil|].
  apply subsequence_keep.
  eapply subsequence_trans; [apply filter_subsequence | exact IH].
Qed.

(** No two rows that stay compare equal. *)
Lemma drop_duplicates_by_distinct l :
  ForallOrdPairs (fun a b => same a b = false) (drop_duplicates_by same l).
Proof.
  induction l as [|r l IH]; simpl; constructor.
  - apply Forall_forall. intros x Hx. apply filter_In in Hx.
    destruct Hx as [_ Hx]. now apply negb_true_iff in Hx.
  - now apply ForallOrdPairs_filter.
Qed.

Hypothesis same_refl : forall a, same a a = true.
Hypothesis same_trans :
  forall a b c, same a b = true -> same b c = true -> same a c = true.

(** Every row is stood for by a row that stays. *)
Lemma drop_duplicates_by_represents l x :
  In x l -> exists y, In y (drop_duplicates_by same l) /\ same y x = true.
Proof.
  induction l as [|r l IH]; simpl; [contradiction|].
  intros [->|Hin].
  - exists x. auto.
  - destruct (IH Hin) as [y [Hy Hyx]].
    destruct (same r y) eqn:E.
    + exists r. split; [auto | eauto].
    + exists y. split; [|assumption]. right. apply filter_In.
      split; [assumption | now rewrite E].
Qed.

End DropDuplicates.

Lemma cell_eqb_eq (a b : cell) : cell_eqb a b = true <-> a = b.
Proof.
  destruct a as [x|], b as [y|]; simpl; try (split; congruence).
  rewrite String.eqb_eq. split; congruence.
Qed.

Lemma cell_eqb_refl (a : cell) : cell_eqb a a = true.
Proof. now apply cell_eqb_eq. Qed.

Lemma scalar_eqb_refl (c : scalar) : scalar_eqb c c = true.
Proof.
  destruct c; simpl;
    [reflexivity | apply String.eqb_refl | apply Z.eqb_refl | apply Qeq_bool_refl].
Qed.

Lemma scalar_eqb_sym (a b : scalar) : scalar_eqb a b = scalar_eqb b a.
Proof.
  destruct a, b; simpl; try reflexivity;
    [apply String.eqb_sym | apply Z.eqb_sym | apply Qeq_bool_comm].
Qed.

Lemma scalar_eqb_trans (a b c : scalar) :
  scalar_eqb a b = true -> scalar_eqb b c = true -> scalar_eqb a c = true.
Proof.
  destruct a, b; simpl; try discriminate; destruct c; simpl; try discriminate; auto.
  - rewrite !String.eqb_eq. congruence.
  - rewrite !Z.eqb_eq. congruence.
  - apply Qeq_bool_trans.
Qed.

Lemma scalar_eqb_Text (a : scalar) (s : string) :
  scalar_eqb a (Text s) = true -> a = Text s.
Proof.
  destruct a; simpl; try discriminate. rewrite String.eqb_eq. congruence.
Qed.

Lemma scalar_eqb_notna (a b : scalar) :
  scalar_eqb a b = true -> notna a = notna b.
Proof. destruct a, b; simpl; try discriminate; reflexivity. Qed.

Lemma row_eqb_refl (r : raw.t) : row_eqb r r = true.
Proof. unfold row_eqb. now rewrite cell_eqb_refl, !scalar_eqb_refl. Qed.

Lemma row_eqb_sym (r r' : raw.t) : row_eqb r r' = row_eqb r' r.
Proof.
  unfold row_eqb.
  rewrite (scalar_eqb_sym (raw.Per_90 r)), (scalar_eqb_sym (raw.Percentile r)).
  f_equal. f_equal.
  destruct (raw.Statistic r), (raw.Statistic r'); simpl; try reflexivity.
  apply String.eqb_sym.
Qed.

Lemma row_eqb_trans (a b c : raw.t) :
  row_eqb a b = true -> row_eqb b c = true -> row_eqb a c = true.
Proof.
  unfold row_eqb. rewrite !andb_true_iff, !cell_eqb_eq.
  intros [[-> H1] H2] [[-> H3] H4]. repeat split; eauto using scalar_eqb_trans.
Qed.

Lemma drop_duplicates_is_by l : drop_duplicates l = drop_duplicates_by row_eqb l.
Proof. induction l as [|r l IH]; simpl; [reflexivity | now rewrite IH]. Qed.

Lemma drop_duplicates_subsequence l : subsequence (drop_duplicates l) l.
Proof. rewrite drop_duplicates_is_by. apply drop_duplicates_by_subsequence. Qed.

Lemma drop_duplicates_represents l x :
  In x l -> exists y, In y (drop_duplicates l) /\ row_eqb y x = true.
Proof.
  rewrite drop_duplicates_is_by.
  apply drop_duplicates_by_represents; [apply row_eqb_refl | apply row_eqb_trans].
Qed.

Lemma drop_duplicates_distinct l :
  ForallOrdPairs (fun a b => row_eqb a b = false) (drop_duplicates l).
Proof. rewrite drop_duplicates_is_by. apply drop_duplicates_by_distinct. Qed.

Lemma is_unique_true_iff l : is_unique l = true <-> NoDup l.
Proof.
  split.
  - induction l as [|x l IH]; simpl; intros H; constructor.
    + apply andb_prop in H. destruct H as [H _]. apply negb_true_iff in H.
      intros Hin. assert (existsb (String.eqb x) l = true); [|congruence].
      apply existsb_exists. exists x. split; [assumption | apply String.eqb_refl].
    + apply andb_prop in H. tauto.
  - induction 1 as [|x l Hnotin Hnd IH]; simpl; [reflexivity|].
    rewrite IH, andb_true_r. apply negb_true_iff.
    destruct (existsb (String.eqb x) l) eqn:E; [|reflexivity].
    apply existsb_exists in E. destruct E as [y [Hy Hxy]].
    apply String.eqb_eq in Hxy. now subst.
Qed.

(** A list has a repeated label exactly when two of its members, one
    before the other, carry one label. *)
Lemma repeated_label {X : Type} (f : X -> string) (l : list X) :
  ~ NoDup (map f l)
  <-> exists l1 x l2 y l3, l = l1 ++ x :: l2 ++ y :: l3 /\ f x = f y.
Proof.
  split.
  - induction l as [|a l IH]; simpl; intros Hdup.
    + exfalso. apply Hdup. constructor.
    + destruct (in_dec string_dec (f a) (map f l)) as [Hin|Hnin].
      * apply in_map_iff in Hin. destruct Hin as [y [Hfy Hy]].
        apply in_split in Hy. destruct Hy as [l2 [l3 ->]].
        exists [], a, l2, y, l3. auto.
      * destruct IH as [l1 [x [l2 [y [l3 [-> Hf]]]]]].
        { intros Hnd'. apply Hdup. now constructor. }
        exists (a :: l1), x, l2, y, l3. auto.
  - intros [l1 [x [l2 [y [l3 [-> Hf]]]]]] Hnd.
    rewrite map_app in Hnd. apply NoDup_app_remove_l in Hnd.
    simpl in Hnd. inversion Hnd as [|? ? Hnotin _]; subst.
    apply Hnotin. rewrite Hf, map_app. apply in_or_app. right. now left.
Qed.

Lemma ForallOrdPairs_split {X : Type} (R : X -> X -> Prop) l1 x l2 y l3 :
  ForallOrdPairs R (l1 ++ x :: l2 ++ y :: l3) -> R x y.
Proof.
  induction l1 as [|a l1 IH]; simpl; intros H; inversion H as [|? ? Ha Hl]; subst.
  - rewrite Forall_forall in Ha. apply Ha. apply in_or_app. right. now left.
  - auto.
Qed.

Section Rows.

Context {lib : Library}.

Lemma scalar_eqb_json (a b : scalar) :
  scalar_eqb a b = true -> json_value a = json_value b.
Proof.
  destruct a, b; simpl; try discriminate; try reflexivity.
  - rewrite String.eqb_eq. congruence.
  - rewrite Z.eqb_eq. congruence.
  - intros H. apply Qeq_bool_eq in H. now rewrite (Qred_complete _ _ H).
Qed.

(** ** The rows that the extraction keeps *)

Lemma percentile_df_kept_rows df :
  percentile_df df
  = if is_object (map raw.Percentile (body df)) then T_to_json (kept_rows df)
    else Raise AttributeError.
Proof. reflexivity. Qed.

Lemma In_dropna l r :
  In r (dropna l) <->
  In r l /\ (exists s, raw.Statistic r = Some s)
  /\ notna (raw.Per_90 r) = true /\ notna (raw.Percentile r) = true.
Proof.
  unfold dropna. rewrite filter_In. destruct (raw.Statistic r) as [s|].
  - rewrite andb_true_iff. split; [intros [? [? ?]]; eauto 6 | tauto].
  - split; [intros [_ H]; discriminate H | intros [_ [[s H] _]]; discriminate H].
Qed.

Lemma In_set_index l s a b :
  In (indexed.mk s a b) (set_index_Statistic l)
  <-> In (raw.mk (Some s) a b) l /\ notna a = true /\ notna b = true.
Proof.
  unfold set_index_Statistic. rewrite in_flat_map. split.
  - intros [[[s'|] a' b'] [Hin H]]; simpl in H; [|contradiction].
    destruct (notna a' && notna b') eqn:E; [|contradiction].
    destruct H as [H|[]]. inversion H; subst.
    apply andb_prop in E. tauto.
  - intros [Hin [Ha Hb]]. eexists; split; [exact Hin|]. simpl.
    rewrite Ha, Hb. left; reflexivity.
Qed.

Lemma In_kept_rows df s a b :
  In (indexed.mk s a b) (kept_rows df)
  <-> In (raw.mk (Some s) a b) (drop_duplicates (body df))
      /\ notna a = true
      /\ (exists pct, b = Text pct /\ isdigit pct = true)
      /\ s <> "Passes Blocked".
Proof.
  unfold kept_rows. rewrite filter_In, In_set_index, In_dropna.
  unfold keep_row; simpl. rewrite andb_true_iff, negb_true_iff, String.eqb_neq.
  split.
  - intros [[[Hin _] [Ha Hb]] [Hd Hne]]. repeat split; try assumption.
    destruct b as [|pct| |]; try discriminate Hd. eauto.
  - intros [Hin [Ha [[pct [-> Hd]] Hne]]]. repeat split; eauto.
Qed.

Lemma kept_rows_flat_map df :
  kept_rows df
  = flat_map (fun r => match kept_of r with Some i => [i] | None => [] end)
      (drop_duplicates (body df)).
Proof.
  unfold kept_rows, dropna, set_index_Statistic, kept_of.
  induction (drop_duplicates (body df)) as [|r l IH]; simpl; [reflexivity|].
  destruct (raw.Statistic r) as [s|] eqn:Es; simpl; [|exact IH].
  destruct (notna (raw.Per_90 r) && notna (raw.Percentile r)) eqn:E; simpl;
    [|exact IH].
  rewrite Es, E. simpl.
  destruct (keep_row (indexed.mk s (raw.Per_90 r) (raw.Percentile r)));
    simpl; now rewrite IH.
Qed.

Lemma kept_of_label r i : kept_of r = Some i -> raw.Statistic r = Some (indexed.label i).
Proof.
  unfold kept_of. destruct (raw.Statistic r) as [s|]; [|discriminate].
  destruct (_ && _); [|discriminate]. intros H; inversion H; reflexivity.
Qed.

Lemma kept_of_Some r i :
  kept_of r = Some i ->
  exists s a pct,
    r = raw.mk (Some s) a (Text pct) /\ i = indexed.mk s a (Text pct)
    /\ notna a = true /\ isdigit pct = true /\ s <> "Passes Blocked".
Proof.
  unfold kept_of, keep_row. destruct r as [[s|] a b]; simpl; [|discriminate].
  destruct (notna a) eqn:Ha; simpl; [|discriminate].
  destruct b as [|pct| |]; simpl; try discriminate.
  destruct (isdigit pct) eqn:Hd; simpl; [|discriminate].
  destruct (String.eqb_spec s "Passes Blocked") as [|Hne]; simpl; [discriminate|].
  intros H; inversion H; subst. exists s, a, pct. auto.
Qed.

(** ** What the extraction of one table gives *)

(** When the extraction of a table succeeds, a statistic is in the result
    exactly when the table has a row for it without a missing cell whose
    percentile is text that [isdigit] accepts, unless it is Passes
    Blocked; its fields are what JSON gives for the two cells. *)
Lemma percentile_df_rows df t :
  percentile_df df = Ok t ->
  forall stat e,
    dict_get stat t = Some e
    <-> exists c pct,
          e = [("Per 90", json_value c); ("Percentile", PyStr pct)]
          /\ In (raw.mk (Some stat) c (Text pct)) (body df)
          /\ notna c = true
          /\ isdigit pct = true
          /\ stat <> "Passes Blocked".
Proof.
  intros H stat e.
  pose proof (percentile_df_extracted _ _ H) as [Hnd _].
  rewrite percentile_df_kept_rows in H. unfold T_to_json in H.
  destruct (is_object _); [|discriminate].
  destruct (is_unique (map indexed.label (kept_rows df))); [|discriminate].
  inversion H; subst t; clear H. split.
  - intros Hget. apply dict_get_In, in_map_iff in Hget.
    destruct Hget as [[s a b] [Hentry Hin]]. inversion Hentry; subst.
    apply In_kept_rows in Hin.
    destruct Hin as [Hin [Ha [[pct [-> Hd]] Hne]]].
    exists a, pct. repeat split; auto.
    eapply subsequence_In; [apply drop_duplicates_subsequence | exact Hin].
  - intros [c [pct [-> [Hin [Hc [Hd Hne]]]]]].
    apply In_NoDup_dict_get; [assumption|].
    destruct (drop_duplicates_represents _ _ Hin) as [[s' c' b'] [Hy Hsame]].
    unfold row_eqb in Hsame; simpl in Hsame.
    apply andb_prop in Hsame. destruct Hsame as [Hsame Hb].
    apply andb_prop in Hsame. destruct Hsame as [Hs Hcc].
    apply cell_eqb_eq in Hs. apply scalar_eqb_Text in Hb. subst s' b'.
    apply in_map_iff. exists (indexed.mk stat c' (Text pct)). split.
    + unfold to_entry; simpl. now rewrite (scalar_eqb_json _ _ Hcc).
    + apply In_kept_rows. repeat split; eauto.
      now rewrite (scalar_eqb_notna _ _ Hcc).
Qed.

(** ** Extraction of all tables *)

Lemma percentile_dfs_filter dfs :
  percentile_dfs dfs = percentile_dfs (filter multi_header dfs).
Proof.
  induction dfs as [|df dfs IH]; simpl; [reflexivity|].
  destruct (multi_header df) eqn:E; simpl; [|assumption].
  rewrite E, IH. reflexivity.
Qed.

Lemma percentile_dfs_Forall2 dfs pdfs :
  percentile_dfs dfs = Ok pdfs
  <-> Forall2 (fun df t => percentile_df df = Ok t) (filter multi_header dfs) pdfs.
Proof.
  revert pdfs. induction dfs as [|df dfs IH]; simpl; intros pdfs.
  - split; intros H; inversion H; constructor.
  - destruct (multi_header df); [|apply IH]. split.
    + intros H. bind_inv H. inversion H; subst.
      constructor; [assumption | now apply IH].
    + intros H. inversion H as [|? t ? ts Ht Hts]; subst.
      rewrite Ht; simpl. apply IH in Hts. rewrite Hts. reflexivity.
Qed.

Lemma Forall2_nth_error {X Y : Type} (R : X -> Y -> Prop) l l' i y :
  Forall2 R l l' -> nth_error l' i = Some y ->
  exists x, nth_error l i = Some x /\ R x y.
Proof.
  intros H. revert i. induction H as [|x0 y0 l l' H0 H IH]; intros i Hi.
  - destruct i; discriminate.
  - destruct i as [|i]; simpl in *; [inversion Hi; subst; eauto | auto].
Qed.

(** The extracted table at an index is the extraction of the two-level
    table at that index. *)
Lemma percentile_dfs_nth dfs pdfs i t :
  percentile_dfs dfs = Ok pdfs ->
  nth_error pdfs i = Some t ->
  exists df, nth_error (filter multi_header dfs) i = Some df
             /\ percentile_df df = Ok t.
Proof.
  intros H Ht. apply percentile_dfs_Forall2 in H.
  exact (Forall2_nth_error _ _ _ _ _ H Ht).
Qed.

Lemma percentile_df_Raise df e :
  percentile_df df = Raise e -> e = AttributeError \/ e = ValueError.
Proof.
  unfold percentile_df, T_to_json. destruct (is_object _); [|left; congruence].
  destruct (is_unique _); [discriminate | right; congruence].
Qed.

(** The extraction stops at the first two-level table that cannot be
    extracted. *)
Lemma percentile_dfs_Raise dfs e :
  percentile_dfs dfs = Raise e <->
  exists before df after,
    dfs = before ++ df :: after
    /\ multi_header df = true
    /\ percentile_df df = Raise e
    /\ forall df', In df' before -> multi_header df' = true ->
                   exists t, percentile_df df' = Ok t.
Proof.
  split.
  - induction dfs as [|df dfs IH]; simpl; intros H; [discriminate|].
    destruct (multi_header df) eqn:E.
    + apply bind_Raise in H. destruct H as [H|[t [Ht H]]].
      * exists [], df, dfs. repeat split; auto. intros d [].
      * apply bind_Raise in H. destruct H as [H|[ts [_ H]]]; [|discriminate].
        destruct (IH H) as [before [df' [after [-> [Hm [Hr Hbefore]]]]]].
        exists (df :: before), df', after. repeat split; auto.
        intros d [<-|Hd] Hd'; eauto.
    + destruct (IH H) as [before [df' [after [-> [Hm [Hr Hbefore]]]]]].
      exists (df :: before), df', after. repeat split; auto.
      intros d [<-|Hd] Hd'; [congruence | eauto].
  - intros [before [df [after [-> [Hm [Hr Hbefore]]]]]].
    induction before as [|a before IH]; simpl.
    + rewrite Hm, Hr. reflexivity.
    + rewrite IH by (intros d Hd; apply Hbefore; now right).
      destruct (multi_header a) eqn:E; [|reflexivity].
      destruct (Hbefore a (or_introl eq_refl) E) as [t ->]. reflexivity.
Qed.

Lemma merge_Raise pdfs positions e :
  merge pdfs positions = Raise e ->
  e = IndexError \/ exists k, e = KeyError k.
Proof.
  unfold merge, list_index. destruct pdfs as [|first rest]; simpl.
  - intros H; left; congruence.
  - intros H. destruct (merge_loop_Raise _ _ _ _ H) as [stat [i [p [_ [_ Hat]]]]].
    eapply percentile_at_Raise; eassumption.
Qed.

(** The values of a merged report are values that [json.dump] writes. *)
Lemma report_data_dumpable fetch idx name r :
  get_scouting_report fetch idx name = Ok r ->
  data_dumpable (report.data r) = true.
Proof.
  intros H.
  destruct (get_scouting_report_Ok _ _ _ _ H)
    as [dfs [first [rest [_ [Hext [Hloop _]]]]]].
  pose proof (percentile_dfs_extracted _ _ Hext) as Hall.
  unfold data_dumpable. apply forallb_forall. intros [stat e] Hin. simpl.
  assert (Hm : merge_stat (first :: rest) (pos (fetch idx name)) first stat = Ok e).
  { rewrite merge_loop_fill in Hloop.
    destruct (fill_In _ _ _ _ _ _ _ Hloop Hin) as [[]|[x [_ [Hk Hx]]]].
    simpl in Hk; subst x. exact Hx. }
  destruct (merge_stat_Ok _ _ _ _ _ Hm) as [entry [pct [Hentry [Hcopy ->]]]].
  inversion Hall as [|? ? [_ Hrows] _]; subst.
  destruct (Hrows _ _ (dict_get_In _ _ _ Hentry)) as [_ [v [b [-> [Hv _]]]]].
  simpl. rewrite Hv. simpl. rewrite andb_true_r.
  apply forallb_forall. intros [p w] Hw. simpl.
  rewrite copy_percentiles_fill in Hcopy.
  destruct (fill_In _ _ _ _ _ _ _ Hcopy Hw) as [[]|[[i p'] [_ [_ Hat]]]].
  simpl in Hat.
  destruct (percentile_at_extracted _ _ _ _ Hall Hat) as [s [-> _]]. reflexivity.
Qed.

End Rows.

(** * The claims *)

(** ** Position Detector *)

(** C7: the detected positions are a subsequence of GK, CB, FB, MF, AM, FW
    in that order; a position is among them exactly when it is one of the
    six and the page has a div whose id is div_scout_full_ followed by
    the position; and a page without any such div gives the empty list.
    [pos] is a total function, so there is no exception to raise. *)
Theorem pos_detects_blocks (soup : Page) :
  subsequence (pos soup) ["GK"; "CB"; "FB"; "MF"; "AM"; "FW"]
  /\ (forall p, In p (pos soup)
                <-> In p ["GK"; "CB"; "FB"; "MF"; "AM"; "FW"]
                    /\ In ("div_scout_full_" ++ p)%string (div_ids soup))
  /\ ((forall p, In p ["GK"; "CB"; "FB"; "MF"; "AM"; "FW"] ->
                 ~ In ("div_scout_full_" ++ p)%string (div_ids soup))
      -> pos soup = []).
Proof.
  assert (Hiff : forall p, In p (pos soup)
                 <-> In p ["GK"; "CB"; "FB"; "MF"; "AM"; "FW"]
                     /\ In ("div_scout_full_" ++ p)%string (div_ids soup)).
  { intros p. unfold pos. rewrite filter_In, truthy_find_all_div. reflexivity. }
  split; [apply (filter_subsequence _ pos_list) | split; [exact Hiff|]].
  intros Hnone. destruct (pos soup) as [|p l] eqn:E; [reflexivity|].
  exfalso. assert (Hp : In p (p :: l)) by (left; reflexivity).
  apply Hiff in Hp. destruct Hp as [Hin Hdiv]. exact (Hnone p Hin Hdiv).
Qed.

Lemma pos_detects_blocks_witness :
  pos aligned_page = ["CB"; "FB"]
  /\ subsequence (pos aligned_page) ["GK"; "CB"; "FB"; "MF"; "AM"; "FW"]
  /\ (In "FB" (pos aligned_page)
      <-> In "FB" ["GK"; "CB"; "FB"; "MF"; "AM"; "FW"]
          /\ In "div_scout_full_FB" (div_ids aligned_page))
  /\ (In "GK" (pos aligned_page)
      <-> In "GK" ["GK"; "CB"; "FB"; "MF"; "AM"; "FW"]
          /\ In "div_scout_full_GK" (div_ids aligned_page))
  /\ ~ In "div_scout_full_GK" (div_ids aligned_page)
  /\ pos flat_only_page = [].
Proof.
  split; [reflexivity|].
  split; [exact (proj1 (pos_detects_blocks aligned_page))|].
  split; [exact (proj1 (proj2 (pos_detects_blocks aligned_page)) "FB")|].
  split; [exact (proj1 (proj2 (pos_detects_blocks aligned_page)) "GK")|].
  split.
  - simpl. intros [H|[H|[H|[]]]]; discriminate H.
  - apply (proj2 (proj2 (pos_detects_blocks flat_only_page))).
    intros p Hp Hdiv. simpl in Hp, Hdiv.
    repeat destruct Hp as [Hp|Hp]; try contradiction; subst p;
      destruct Hdiv as [Hdiv|[]]; discriminate Hdiv.
Defined.

(** ** Statistic Merger *)

(** C10: when [get_scouting_report] returns, the Percentile mapping of
    every statistic of the returned data has exactly the detected
    positions as its keys, in their order: no position is left out. *)
Theorem percentile_keys_are_positions {lib : Library} fetch idx name r :
  get_scouting_report fetch idx name = Ok r ->
  forall stat e,
    dict_get stat (report.data r) = Some e ->
    exists pct, dict_get "Percentile" e = Some (PyDict pct)
                /\ keys pct = report.positions r.
Proof.
  intros H stat e He.
  destruct (get_scouting_report_Ok _ _ _ _ H)
    as [dfs [first [rest [_ [_ [Hloop [Hpos _]]]]]]].
  apply (merge_loop_entry _ _ _ _ _ _ Hloop) in He.
  destruct (merge_stat_Ok _ _ _ _ _ He) as [entry [pct [_ [Hcopy ->]]]].
  exists pct. split; [apply dict_get_set_same|].
  rewrite Hpos. eapply copy_percentiles_keys; [apply NoDup_pos | exact Hcopy].
Qed.

Lemma percentile_keys_are_positions_witness :
  get_scouting_report (always aligned_page) "e46012d4" "Kevin-De-Bruyne"
  = Ok aligned_report
  /\ exists pct,
       dict_get "Percentile"
         [("Per 90", PyStr "4.00");
          ("Percentile", PyDict [("CB", PyStr "55"); ("FB", PyStr "48")])]
       = Some (PyDict pct)
       /\ keys pct = report.positions aligned_report.
Proof.
  split; [reflexivity|].
  apply (percentile_keys_are_positions (lib := plain_library) (always aligned_page)
           "e46012d4" "Kevin-De-Bruyne" aligned_report eq_refl "Clearances").
  reflexivity.
Defined.

(** C3: the statistics of the merged data are exactly the statistics of
    the first extracted table, in the same order; a statistic that only
    a later table has is not among them. *)
Theorem data_keys_are_first_table_keys {lib : Library} fetch idx name r :
  get_scouting_report fetch idx name = Ok r ->
  exists dfs first rest,
    read_html (fetch idx name) = Ok dfs
    /\ percentile_dfs dfs = Ok (first :: rest)
    /\ keys (report.data r) = keys first
    /\ (forall stat, In stat (keys (report.data r)) <-> In stat (keys first))
    /\ (forall stat t, In t rest -> In stat (keys t) ->
                       ~ In stat (keys first) ->
                       ~ In stat (keys (report.data r))).
Proof.
  intros H.
  destruct (get_scouting_report_Ok _ _ _ _ H)
    as [dfs [first [rest [Hread [Hext [Hloop _]]]]]].
  exists dfs, first, rest.
  assert (Hkeys : keys (report.data r) = keys first).
  { apply merge_loop_keys in Hloop; [assumption|].
    apply percentile_dfs_extracted in Hext.
    inversion Hext as [|? ? [Hnd _] _]; assumption. }
  repeat split; try assumption; rewrite Hkeys; auto.
Qed.

Lemma data_keys_are_first_table_keys_witness :
  get_scouting_report (always aligned_page) "e46012d4" "Kevin-De-Bruyne"
  = Ok aligned_report
  /\ exists dfs first rest,
       read_html aligned_page = Ok dfs
       /\ percentile_dfs dfs = Ok (first :: rest)
       /\ keys (report.data aligned_report) = keys first
       /\ (forall stat, In stat (keys (report.data aligned_report))
                        <-> In stat (keys first))
       /\ (forall stat t, In t rest -> In stat (keys t) ->
                          ~ In stat (keys first) ->
                          ~ In stat (keys (report.data aligned_report))).
Proof.
  split; [reflexivity|].
  exact (data_keys_are_first_table_keys (lib := plain_library) (always aligned_page)
           "e46012d4" "Kevin-De-Bruyne" aligned_report eq_refl).
Defined.

(** C6: "Passes Blocked" is never a statistic of the merged data,
    whatever the tables of the page hold. *)
Theorem passes_blocked_excluded {lib : Library} fetch idx name r :
  get_scouting_report fetch idx name = Ok r ->
  ~ In "Passes Blocked" (keys (report.data r))
  /\ dict_get "Passes Blocked" (report.data r) = None.
Proof.
  intros H.
  assert (Hnot : ~ In "Passes Blocked" (keys (report.data r))).
  { destruct (data_keys_in_first _ _ _ _ H) as [first [Hfirst Hkeys]].
    rewrite Hkeys. intros Hin.
    destruct (keys_dict_get _ _ Hin) as [e He].
    destruct Hfirst as [_ Hrows].
    destruct (Hrows _ _ (dict_get_In _ _ _ He)) as [Hne _]. now apply Hne. }
  split; [exact Hnot | now apply dict_get_None_keys].
Qed.

Lemma passes_blocked_excluded_witness :
  get_scouting_report (always aligned_page) "e46012d4" "Kevin-De-Bruyne"
  = Ok aligned_report
  /\ In (text_row "Passes Blocked" "1.00" "40") (body CB_table)
  /\ ~ In "Passes Blocked" (keys (report.data aligned_report))
  /\ dict_get "Passes Blocked" (report.data aligned_report) = None.
Proof.
  split; [reflexivity|]. split; [simpl; auto 10|].
  exact (passes_blocked_excluded (lib := plain_library) (always aligned_page)
           "e46012d4" "Kevin-De-Bruyne" aligned_report eq_refl).
Defined.

(** C4, as the code has it: in every returned report, every statistic
    holds under every detected position a string: the text of the
    Percentile cell of a row that the statistic has, with a Per 90 cell
    that is not missing, in the two-level table at the position's index;
    it is a text that [isdigit] accepts.  It is not converted to a
    number, no bound of 100 is checked, and no position is left out. *)
Theorem percentiles_are_cell_texts {lib : Library} fetch idx name r :
  get_scouting_report fetch idx name = Ok r ->
  forall stat e i p,
    dict_get stat (report.data r) = Some e ->
    nth_error (report.positions r) i = Some p ->
    exists pct s dfs df c,
      dict_get "Percentile" e = Some (PyDict pct)
      /\ dict_get p pct = Some (PyStr s)
      /\ isdigit s = true
      /\ read_html (fetch idx name) = Ok dfs
      /\ nth_error (filter multi_header dfs) i = Some df
      /\ In (raw.mk (Some stat) c (Text s)) (body df)
      /\ notna c = true.
Proof.
  intros H stat e i p He Hp.
  destruct (get_scouting_report_Ok _ _ _ _ H)
    as [dfs [first [rest [Hread [Hext [Hloop [Hpos _]]]]]]].
  apply (merge_loop_entry _ _ _ _ _ _ Hloop) in He.
  destruct (merge_stat_Ok _ _ _ _ _ He) as [entry [pct [_ [Hcopy ->]]]].
  rewrite Hpos in Hp.
  destruct (copy_percentiles_value _ _ _ _ _ _ (NoDup_pos _) Hcopy Hp)
    as [v [Hat Hv]].
  apply percentile_at_Ok in Hat. destruct Hat as [t [te [Ht [Hte Hpv]]]].
  destruct (percentile_dfs_nth _ _ _ _ Hext Ht) as [df [Hdf Hextdf]].
  apply (percentile_df_rows _ _ Hextdf) in Hte.
  destruct Hte as [c [s [-> [Hin [Hc [Hs _]]]]]].
  simpl in Hpv. inversion Hpv; subst v.
  exists pct, s, dfs, df, c. split; [apply dict_get_set_same | auto 10].
Qed.

Lemma percentiles_are_cell_texts_witness :
  get_scouting_report (always out_of_range_page) "e46012d4" "Kevin-De-Bruyne"
  = Ok out_of_range_report
  /\ exists pct s dfs df c,
       dict_get "Percentile"
         [("Per 90", PyStr "0.50"); ("Percentile", PyDict [("FW", PyStr "150")])]
       = Some (PyDict pct)
       /\ dict_get "FW" pct = Some (PyStr s)
       /\ isdigit s = true
       /\ read_html out_of_range_page = Ok dfs
       /\ nth_error (filter multi_header dfs) 0 = Some df
       /\ In (raw.mk (Some "Goals") c (Text s)) (body df)
       /\ notna c = true.
Proof.
  split; [reflexivity|].
  exact (percentiles_are_cell_texts (lib := plain_library) (always out_of_range_page)
           "e46012d4" "Kevin-De-Bruyne" out_of_range_report eq_refl
           "Goals" _ 0 "FW" eq_refl eq_refl).
Defined.

(** C4 fails as stated: a table whose Goals percentile cell reads 150
    passes the [isdigit] mask, and the report holds the string "150"
    under FW, which is no integer between 0 and 100. *)
Lemma percentile_above_100_is_kept :
  In (text_row "Goals" "0.50" "150") (body FW_table_150)
  /\ get_scouting_report (always out_of_range_page) "e46012d4" "Kevin-De-Bruyne"
     = Ok out_of_range_report
  /\ (exists e pct,
        dict_get "Goals" (report.data out_of_range_report) = Some e
        /\ dict_get "Percentile" e = Some (PyDict pct)
        /\ dict_get "FW" pct = Some (PyStr "150"))
  /\ ~ percentiles_in_range out_of_range_report.
Proof.
  split; [simpl; auto|]. split; [reflexivity|]. split.
  - do 2 eexists. repeat split; reflexivity.
  - intros H.
    destruct (H "Goals" _ _ "FW" (PyStr "150") eq_refl eq_refl
                (or_introl eq_refl) eq_refl) as [z [Hz Hrange]].
    vm_compute in Hz. inversion Hz; subst z. lia.
Qed.

(** C1, as the code has it: with as many tables as positions the copy of
    line 78 is unconditional.  When every statistic of the first table is
    in every later table, the report is returned and holds, for every
    such statistic and every position, the percentile of that position's
    table.  When a later table lacks a statistic of the first, the lookup
    raises [KeyError] for such a statistic; the [try] of the collecting
    loop does not catch it, so the player's row ends the run and no file
    is written. *)
Theorem copy_is_unconditional {lib : Library} fetch idx name dfs first rest :
  read_html (fetch idx name) = Ok dfs ->
  percentile_dfs dfs = Ok (first :: rest) ->
  List.length (pos (fetch idx name)) = List.length (first :: rest) ->
  ((forall stat t, In stat (keys first) -> In t rest -> In stat (keys t)) ->
   exists r,
     get_scouting_report fetch idx name = Ok r
     /\ forall stat i p t,
          In stat (keys first) ->
          nth_error (pos (fetch idx name)) i = Some p ->
          nth_error (first :: rest) i = Some t ->
          exists e pct te v,
            dict_get stat (report.data r) = Some e
            /\ dict_get "Percentile" e = Some (PyDict pct)
            /\ dict_get stat t = Some te
            /\ dict_get "Percentile" te = Some v
            /\ dict_get p pct = Some v)
  /\ ((exists stat t, In stat (keys first) /\ In t rest /\ ~ In stat (keys t)) ->
      exists stat,
        In stat (keys first)
        /\ (exists t, In t rest /\ ~ In stat (keys t))
        /\ get_scouting_report fetch idx name = Raise (KeyError stat)
        /\ (forall x reports,
              last_two (split "/" (row.href x)) = [idx; name] ->
              try_body fetch reports x = Raise (KeyError stat))
        /\ (forall x df reports,
              last_two (split "/" (row.href x)) = [idx; name] ->
              collect fetch df reports x
              = Raise (if unique_label df x then KeyError stat
                       else AttributeError))
        /\ (forall x df,
              last_two (split "/" (row.href x)) = [idx; name] ->
              In x df ->
              outfile (main fetch df) = None
              /\ exists e, uncaught (main fetch df) = Some e)).
Proof.
  intros Hread Hext Hlen.
  pose proof (percentile_dfs_extracted _ _ Hext) as Hall.
  rewrite (get_scouting_report_eq _ _ _ _ _ _ Hread Hext).
  set (pdfs := first :: rest) in *. set (positions := pos (fetch idx name)) in *.
  assert (Hfirst : extracted first) by (inversion Hall; assumption).
  split.
  - intros Hpresent.
    assert (Hat : forall stat i p, In stat (keys first) ->
              nth_error positions i = Some p ->
              exists t te v, nth_error pdfs i = Some t
                /\ dict_get stat t = Some te
                /\ dict_get "Percentile" te = Some v
                /\ percentile_at pdfs i stat = Ok v).
    { intros stat i p Hstat Hp.
      assert (Hi : i < List.length pdfs).
      { rewrite <- Hlen. apply nth_error_Some. congruence. }
      destruct (nth_error pdfs i) as [t|] eqn:Ht;
        [|apply nth_error_None in Ht; lia].
      assert (Hin : In stat (keys t)).
      { pose proof (nth_error_In _ _ Ht) as Hint.
        destruct Hint as [<-|Hint]; [assumption | now apply Hpresent]. }
      destruct (keys_dict_get _ _ Hin) as [te Hte].
      pose proof (nth_error_In _ _ Ht) as Hint.
      rewrite Forall_forall in Hall. destruct (Hall _ Hint) as [_ Hrows].
      destruct (Hrows _ _ (dict_get_In _ _ _ Hte)) as [_ [a [b [Hte' _]]]].
      exists t, te, (PyStr b). repeat split; try assumption.
      + subst te; reflexivity.
      + apply percentile_at_Ok. exists t, te. subst te; auto. }
    destruct (merge_loop_total pdfs positions first) as [data Hdata].
    { intros stat i p Hstat Hp.
      destruct (Hat stat i p Hstat Hp) as [t [te [v [_ [_ [_ Hv]]]]]]. eauto. }
    rewrite Hdata; simpl. eexists; split; [reflexivity|]; simpl.
    intros stat i p t Hstat Hp Ht.
    destruct (Hat stat i p Hstat Hp) as [t' [te [v [Ht' [Hte [Hv Hpat]]]]]].
    assert (t' = t) by congruence; subst t'.
    pose proof Hdata as Hfill. rewrite merge_loop_fill in Hfill.
    destruct (fill_Ok_each _ _ _ _ _ Hfill _ Hstat) as [e He].
    assert (Hget : dict_get stat data = Some e).
    { apply (fill_get_new _ _ _ _ _ stat e Hfill); auto.
      rewrite map_id. apply Hfirst. }
    destruct (merge_stat_Ok _ _ _ _ _ He) as [entry [pct [_ [Hcopy ->]]]].
    destruct (copy_percentiles_value _ _ _ _ _ _ (NoDup_pos _) Hcopy Hp)
      as [v' [Hv' Hpv]].
    assert (v' = v) by congruence; subst v'.
    exists (dict_set "Percentile" (PyDict pct) entry), pct, te, v.
    repeat split; try assumption. apply dict_get_set_same.
  - intros [stat [t [Hstat [Ht Hmissing]]]].
    destruct (merge_loop pdfs positions first (keys first) []) as [data|e] eqn:E.
    + exfalso. apply In_nth_error in Ht. destruct Ht as [j Hj].
      assert (Hp : exists p, nth_error positions (S j) = Some p).
      { destruct (nth_error positions (S j)) as [p|] eqn:Ep; [eauto|].
        apply nth_error_None in Ep.
        assert (S j < List.length pdfs)
          by (apply nth_error_Some; simpl; congruence).
        lia. }
      destruct Hp as [p Hp].
      destruct (merge_loop_Ok_all _ _ _ _ E stat (S j) p Hstat Hp) as [v Hv].
      apply percentile_at_Ok in Hv. destruct Hv as [t' [te [Ht' [Hte _]]]].
      simpl in Ht'. assert (t' = t) by congruence; subst t'.
      apply Hmissing. eapply dict_get_Some_keys; eassumption.
    + simpl.
      destruct (merge_loop_Raise _ _ _ _ E) as [stat' [i [p [Hstat' [Hp Hpat]]]]].
      destruct (percentile_at_Raise_cases _ _ _ _ Hall Hpat)
        as [[Hnone _]|[t' [Ht' [Hnot ->]]]].
      * exfalso. apply nth_error_None in Hnone.
        assert (i < List.length positions) by (apply nth_error_Some; congruence).
        lia.
      * assert (Hr : get_scouting_report fetch idx name = Raise (KeyError stat')).
        { rewrite (get_scouting_report_eq _ _ _ _ _ _ Hread Hext).
          fold pdfs positions. rewrite E. reflexivity. }
        exists stat'. split; [assumption|]. split.
        { exists t'. split; [|assumption].
          apply nth_error_In in Ht'. destruct Ht' as [<-|Hin]; [contradiction | assumption]. }
        split; [reflexivity|]. split; [|split].
        { intros x reports Hargs. unfold try_body, call_get_scouting_report.
          rewrite Hargs, Hr. reflexivity. }
        { intros x df reports Hargs.
          apply (collect_raises _ _ _ _ idx name); auto. discriminate. }
        { intros x df Hargs Hin. apply (main_writes_nothing fetch df x Hin).
          intros reports. eexists.
          apply (collect_raises _ _ _ _ idx name); [assumption | exact Hr|].
          discriminate. }
Qed.

Lemma copy_is_unconditional_witness :
  (exists r,
     get_scouting_report (always aligned_page) "e46012d4" "Kevin-De-Bruyne" = Ok r
     /\ forall stat i p t,
          In stat (keys CB_extracted) ->
          nth_error (pos aligned_page) i = Some p ->
          nth_error [CB_extracted; FB_extracted] i = Some t ->
          exists e pct te v,
            dict_get stat (report.data r) = Some e
            /\ dict_get "Percentile" e = Some (PyDict pct)
            /\ dict_get stat t = Some te
            /\ dict_get "Percentile" te = Some v
            /\ dict_get p pct = Some v)
  /\ (exists stat,
        In stat (keys CB_extracted)
        /\ (exists t, In t [FB_short_extracted] /\ ~ In stat (keys t))
        /\ get_scouting_report (always missing_stat_page) "e46012d4" "Kevin-De-Bruyne"
           = Raise (KeyError stat)
        /\ (forall x reports,
              last_two (split "/" (row.href x)) = ["e46012d4"; "Kevin-De-Bruyne"] ->
              try_body (always missing_stat_page) reports x = Raise (KeyError stat))
        /\ (forall x df reports,
              last_two (split "/" (row.href x)) = ["e46012d4"; "Kevin-De-Bruyne"] ->
              collect (always missing_stat_page) df reports x
              = Raise (if unique_label df x then KeyError stat
                       else AttributeError))
        /\ (forall x df,
              last_two (split "/" (row.href x)) = ["e46012d4"; "Kevin-De-Bruyne"] ->
              In x df ->
              outfile (main (always missing_stat_page) df) = None
              /\ exists e, uncaught (main (always missing_stat_page) df) = Some e)).
Proof.
  split.
  - apply (proj1 (copy_is_unconditional (lib := plain_library) (always aligned_page)
                    "e46012d4" "Kevin-De-Bruyne"
                    [flat_table; CB_table; FB_table] CB_extracted [FB_extracted]
                    eq_refl eq_refl eq_refl)).
    intros stat t Hstat [<-|[]]. simpl in *.
    destruct Hstat as [<-|[<-|[]]]; auto.
  - apply (proj2 (copy_is_unconditional (lib := plain_library) (always missing_stat_page)
                    "e46012d4" "Kevin-De-Bruyne"
                    [CB_table; FB_table_short] CB_extracted [FB_short_extracted]
                    eq_refl eq_refl eq_refl)).
    exists "Clearances", FB_short_extracted.
    split; [simpl; auto|]. split; [left; reflexivity|].
    simpl. intros [H|[H|[]]]; discriminate H.
Defined.

(** C1 fails as stated: the first table of the page has Clearances, the
    second has not; instead of leaving FB out of the mapping of
    Clearances the merge raises [KeyError], and the run ends without a
    file. *)
Lemma missing_statistic_raises :
  percentile_dfs (tables missing_stat_page) = Ok [CB_extracted; FB_short_extracted]
  /\ pos missing_stat_page = ["CB"; "FB"]
  /\ In "Clearances" (keys CB_extracted)
  /\ ~ In "Clearances" (keys FB_short_extracted)
  /\ ~ merges_conditionally [CB_extracted; FB_short_extracted] ["CB"; "FB"]
  /\ get_scouting_report (always missing_stat_page) "e46012d4" "Kevin-De-Bruyne"
     = Raise (KeyError "Clearances")
  /\ main (always missing_stat_page) [sample_row]
     = mkOutcome None (Some (KeyError "Clearances")).
Proof.
  repeat split; try reflexivity.
  - simpl; auto.
  - simpl. intros [H|[H|[]]]; discriminate H.
  - intros [data [Hdata _]]. discriminate Hdata.
Qed.

(** C5, as the code has it: a page with the blocks of FW and AM and the
    two tables of the example, Table A before Table B, gives the
    positions AM, FW, since the positions come in the order of the fixed
    list.  The merge completes Goals with the percentiles of both tables,
    kept as the strings of the tables, the one of Table A under AM; then
    it raises [KeyError] for Assists, which Table B lacks, and no mapping
    is produced.  With Table B before Table A it raises [KeyError] for
    Key Passes.  Whatever the positions and whichever table comes first,
    the merge of the two tables is not the expected mapping. *)
Theorem example_raises_KeyError :
  pos example_page = ["AM"; "FW"]
  /\ percentile_dfs (tables example_page) = Ok [table_A; table_B]
  /\ merge_stat [table_A; table_B] (pos example_page) table_A "Goals"
     = Ok [("Per 90", PyFloat (1 # 2));
           ("Percentile", PyDict [("AM", PyStr "80"); ("FW", PyStr "70")])]
  /\ merge_stat [table_A; table_B] (pos example_page) table_A "Assists"
     = Raise (KeyError "Assists")
  /\ merge [table_A; table_B] (pos example_page) = Raise (KeyError "Assists")
  /\ get_scouting_report (always example_page) "e46012d4" "Kevin-De-Bruyne"
     = Raise (KeyError "Assists")
  /\ merge [table_B; table_A] (pos example_page) = Raise (KeyError "Key Passes")
  /\ (forall positions, merge [table_A; table_B] positions <> Ok expected_data)
  /\ (forall positions, merge [table_B; table_A] positions <> Ok expected_data).
Proof.
  repeat split.
  - intros [|p [|q [|s positions]]]; discriminate.
  - intros [|p [|q [|s positions]]]; discriminate.
Qed.

(** C5 fails as stated: on the page of the example the merge of the two
    tables is not the expected mapping; it raises [KeyError], and so does
    [get_scouting_report]. *)
Lemma example_is_not_merged :
  pos example_page = ["AM"; "FW"]
  /\ percentile_dfs (tables example_page) = Ok [table_A; table_B]
  /\ merge [table_A; table_B] (pos example_page) <> Ok expected_data
  /\ merge [table_A; table_B] ["FW"; "AM"] <> Ok expected_data
  /\ get_scouting_report (always example_page) "e46012d4" "Kevin-De-Bruyne"
     = Raise (KeyError "Assists").
Proof. repeat split; discriminate. Qed.

(** ** Dataset Assembler *)

(** C2 at the failing input: a page with a one-level-header table only
    has tables, so [pd.read_html] returns; none of them is a percentile
    table, so line 74 raises [IndexError]; the handler catches
    [ValueError] only, and the run ends without a file although the
    other player of the index could be processed. *)
Theorem flat_tables_end_the_run :
  read_html flat_only_page = Ok [flat_table]
  /\ percentile_dfs [flat_table] = Ok []
  /\ get_scouting_report (site "e46012d4" flat_only_page aligned_page)
       "e46012d4" "Kevin-De-Bruyne" = Raise IndexError
  /\ main (site "e46012d4" flat_only_page aligned_page) [other_row; sample_row]
     = mkOutcome None (Some IndexError).
Proof. repeat split. Qed.




(** ** Player Record Builder *)

(** C9, as the code has it: the separator is the single space character.
    The nation field is what follows the last space of the nation cell
    (the whole cell when it has no space); the league field is what
    follows the first space of the league cell (empty when it has none);
    name, minutes, team and age are the cells of the row; the profile is
    the link of the row behind the site's address; positions and data are
    those of the report. *)
Theorem record_is_built_by_spaces {lib : Library} fetch reports x reports' :
  try_body fetch reports x = Ok reports' ->
  exists idx name r rec nation_text league_text,
    last_two (split "/" (row.href x)) = [idx; name]
    /\ get_scouting_report fetch idx name = Ok r
    /\ reports' = dict_set (report.id r) rec reports
    /\ row.Nation x = PyStr nation_text
    /\ row.Comp x = PyStr league_text
    /\ free_of " " (player.nation rec)
    /\ (nation_text = player.nation rec
        \/ exists prefix,
             nation_text = (prefix ++ " " ++ player.nation rec)%string)
    /\ (exists first,
          free_of " " first
          /\ ((league_text = first /\ player.league rec = "")
              \/ league_text = (first ++ " " ++ player.league rec)%string))
    /\ player.name rec = row.Player x
    /\ player.mins rec = row.Min x
    /\ player.team rec = row.Squad x
    /\ player.age rec = row.Age x
    /\ player.profile rec = ("https://fbref.com" ++ row.href x)%string
    /\ player.positions rec = report.positions r
    /\ player.data rec = report.data r.
Proof.
  intros H.
  destruct (try_body_Ok _ _ _ _ H)
    as [idx [name [r [nation_text [league_text [nation
         [Hargs [Hr [Hn [Hc [Hlast ->]]]]]]]]]]].
  destruct (last_of_split _ _ _ Hlast) as [Hfree Hnation].
  do 6 eexists. repeat split; try reflexivity; try eassumption.
  apply (rest_of_split " " league_text).
Qed.

Lemma record_is_built_by_spaces_witness :
  try_body (always aligned_page) [] sample_row = Ok [("e46012d4", sample_record)]
  /\ exists idx name r rec nation_text league_text,
    last_two (split "/" (row.href sample_row)) = [idx; name]
    /\ get_scouting_report (always aligned_page) idx name = Ok r
    /\ [("e46012d4", sample_record)] = dict_set (report.id r) rec []
    /\ row.Nation sample_row = PyStr nation_text
    /\ row.Comp sample_row = PyStr league_text
    /\ free_of " " (player.nation rec)
    /\ (nation_text = player.nation rec
        \/ exists prefix,
             nation_text = (prefix ++ " " ++ player.nation rec)%string)
    /\ (exists first,
          free_of " " first
          /\ ((league_text = first /\ player.league rec = "")
              \/ league_text = (first ++ " " ++ player.league rec)%string))
    /\ player.name rec = row.Player sample_row
    /\ player.mins rec = row.Min sample_row
    /\ player.team rec = row.Squad sample_row
    /\ player.age rec = row.Age sample_row
    /\ player.profile rec = ("https://fbref.com" ++ row.href sample_row)%string
    /\ player.positions rec = report.positions r
    /\ player.data rec = report.data r.
Proof.
  split; [reflexivity|].
  exact (record_is_built_by_spaces (lib := plain_library) (always aligned_page) [] sample_row
           [("e46012d4", sample_record)] eq_refl).
Defined.

(** C9 fails as stated: a tab is whitespace but no separator for the
    code.  With "be<tab>BEL" and "eng<tab>Premier League" in the row the
    stored nation is the whole cell, not its last token BEL, and the
    stored league is "League", not "Premier League". *)
Lemma tab_is_no_separator :
  try_body (always aligned_page) [] tabbed_row = Ok [("e46012d4", tabbed_record)]
  /\ last_token ("be" ++ tab ++ "BEL") = "BEL"
  /\ without_first_token ("eng" ++ tab ++ "Premier League") = "Premier League"
  /\ ~ built_from_tokens tabbed_row
         ("be" ++ tab ++ "BEL") ("eng" ++ tab ++ "Premier League") tabbed_record.
Proof.
  repeat split; try reflexivity.
  intros [Hnation _]. vm_compute in Hnation. discriminate Hnation.
Qed.

(** On cells whose only whitespace is single spaces the two readings
    agree. *)
Lemma single_spaces_agree :
  try_body (always aligned_page) [] sample_row = Ok [("e46012d4", sample_record)]
  /\ built_from_tokens sample_row "be BEL" "eng Premier League" sample_record.
Proof. repeat split; reflexivity. Qed.

(** * Further properties of the code *)

(** ** Extraction of one table and of all tables *)

(** X1: when the extraction of a table succeeds, a statistic is in the
    result exactly when the table has a row with that statistic, a
    Per 90 cell that is not missing and a Percentile cell that is text
    which [isdigit] accepts, and the statistic is not Passes Blocked; its
    two fields are what JSON gives for the Per 90 cell, and the text of
    the Percentile cell. *)
Theorem extracted_statistics {lib : Library} df t :
  percentile_df df = Ok t ->
  forall stat e,
    dict_get stat t = Some e
    <-> exists c pct,
          e = [("Per 90", json_value c); ("Percentile", PyStr pct)]
          /\ In (raw.mk (Some stat) c (Text pct)) (body df)
          /\ notna c = true
          /\ isdigit pct = true
          /\ stat <> "Passes Blocked".
Proof. exact (percentile_df_rows df t). Qed.

Lemma extracted_statistics_witness :
  percentile_df CB_table = Ok CB_extracted
  /\ (dict_get "Clearances" CB_extracted
        = Some [("Per 90", PyStr "4.00"); ("Percentile", PyStr "55")]
      <-> exists c pct,
            [("Per 90", PyStr "4.00"); ("Percentile", PyStr "55")]
            = [("Per 90", json_value c); ("Percentile", PyStr pct)]
            /\ In (raw.mk (Some "Clearances") c (Text pct)) (body CB_table)
            /\ notna c = true
            /\ isdigit pct = true
            /\ "Clearances" <> "Passes Blocked")
  /\ (dict_get "Goals" table_A
        = Some [("Per 90", PyFloat (1 # 2)); ("Percentile", PyStr "80")]
      <-> exists c pct,
            [("Per 90", PyFloat (1 # 2)); ("Percentile", PyStr "80")]
            = [("Per 90", json_value c); ("Percentile", PyStr pct)]
            /\ In (raw.mk (Some "Goals") c (Text pct)) (body example_table_A)
            /\ notna c = true
            /\ isdigit pct = true
            /\ "Goals" <> "Passes Blocked").
Proof.
  split; [reflexivity|]. split.
  - exact (extracted_statistics (lib := plain_library)
             CB_table CB_extracted eq_refl "Clearances" _).
  - exact (extracted_statistics (lib := plain_library)
             example_table_A table_A eq_refl "Goals" _).
Defined.

Lemma map_label_kept {lib : Library} (l : list raw.t) :
  subsequence
    (map Some (map indexed.label
       (flat_map (fun r => match kept_of r with Some i => [i] | None => [] end) l)))
    (map raw.Statistic l).
Proof.
  induction l as [|r l IH]; simpl; [apply subsequence_nil|].
  destruct (kept_of r) as [i|] eqn:E; simpl.
  - rewrite (kept_of_label _ _ E). apply subsequence_keep. exact IH.
  - apply subsequence_skip. exact IH.
Qed.

(** X2: the statistics of an extracted table are distinct and stand in
    the order of the Statistic column of the page's table. *)
Theorem extraction_keeps_order {lib : Library} df t :
  percentile_df df = Ok t ->
  NoDup (keys t)
  /\ subsequence (map Some (keys t)) (map raw.Statistic (body df)).
Proof.
  intros H. split; [apply (percentile_df_extracted _ _ H)|].
  rewrite percentile_df_kept_rows in H. unfold T_to_json in H.
  destruct (is_object _); [|discriminate].
  destruct (is_unique (map indexed.label (kept_rows df))); [|discriminate].
  inversion H; subst t; clear H. rewrite keys_to_entry, kept_rows_flat_map.
  eapply subsequence_trans; [apply map_label_kept|].
  apply subsequence_map, drop_duplicates_subsequence.
Qed.

Lemma extraction_keeps_order_witness :
  NoDup (keys CB_extracted)
  /\ subsequence (map Some (keys CB_extracted)) (map raw.Statistic (body CB_table)).
Proof.
  exact (extraction_keeps_order (lib := plain_library) CB_table CB_extracted eq_refl).
Defined.

Lemma NoDup_map_eq {X Y : Type} (f : X -> Y) (l : list X) (x y : X) :
  NoDup (map f l) -> In x l -> In y l -> f x = f y -> x = y.
Proof.
  induction l as [|a l IH]; simpl; [contradiction|].
  intros Hnd Hx Hy Hf. inversion Hnd as [|? ? Hnotin Hnd']; subst.
  destruct Hx as [->|Hx], Hy as [->|Hy]; auto.
  - exfalso. apply Hnotin. rewrite Hf. now apply in_map.
  - exfalso. apply Hnotin. rewrite <- Hf. now apply in_map.
Qed.

Lemma is_object_false (column : list scalar) :
  is_object column = false
  <-> column <> [] /\ forall c, In c column -> is_text c = false.
Proof.
  unfold is_object. destruct column as [|c0 column].
  - split; [discriminate | intros [H _]; contradiction].
  - split.
    + intros H. split; [discriminate|]. intros c Hc.
      destruct (is_text c) eqn:E; [|reflexivity].
      assert (existsb is_text (c0 :: column) = true); [|congruence].
      apply existsb_exists. eauto.
    + intros [_ H]. destruct (existsb is_text (c0 :: column)) eqn:E; [|reflexivity].
      apply existsb_exists in E. destruct E as [c [Hc Ht]].
      rewrite (H c Hc) in Ht. discriminate.
Qed.

(** X3: the extraction of a table raises nothing but [AttributeError]
    and [ValueError].  It raises [AttributeError] exactly when the table
    has rows and no Percentile cell of it is text: then the column is a
    column of numbers, which has no [.str].  It raises [ValueError]
    exactly when two rows that [drop_duplicates] tells apart carry the
    same statistic and both pass the row mask.  Rows that are equal cell
    by cell do no harm. *)
Theorem extraction_raises {lib : Library} df :
  (forall e, percentile_df df = Raise e -> e = AttributeError \/ e = ValueError)
  /\ (percentile_df df = Raise AttributeError
      <-> body df <> []
          /\ forall r, In r (body df) -> is_text (raw.Percentile r) = false)
  /\ (percentile_df df = Raise ValueError
      <-> exists stat a b a' b',
            In (raw.mk (Some stat) a (Text b)) (body df)
            /\ In (raw.mk (Some stat) a' (Text b')) (body df)
            /\ row_eqb (raw.mk (Some stat) a (Text b))
                       (raw.mk (Some stat) a' (Text b')) = false
            /\ notna a = true /\ notna a' = true
            /\ isdigit b = true /\ isdigit b' = true
            /\ stat <> "Passes Blocked").
Proof.
  split; [apply percentile_df_Raise|]. split.
  - rewrite percentile_df_kept_rows.
    pose proof (is_object_false (map raw.Percentile (body df))) as Hobj.
    assert (Hcol : map raw.Percentile (body df) <> []
                   /\ (forall c, In c (map raw.Percentile (body df)) ->
                                 is_text c = false)
                   <-> body df <> []
                       /\ forall r, In r (body df) ->
                                    is_text (raw.Percentile r) = false).
    { split; intros [Hne Hall]; split.
      - intros Heq. rewrite Heq in Hne. now apply Hne.
      - intros r Hr. apply Hall. now apply in_map.
      - intros Heq. apply map_eq_nil in Heq. contradiction.
      - intros c Hc. apply in_map_iff in Hc. destruct Hc as [r [<- Hr]]. auto. }
    rewrite <- Hcol, <- Hobj.
    destruct (is_object _); unfold T_to_json.
    + destruct (is_unique _); split; discriminate.
    + split; reflexivity.
  - rewrite percentile_df_kept_rows. split.
    + destruct (is_object _); [|discriminate]. unfold T_to_json.
      destruct (is_unique (map indexed.label (kept_rows df))) eqn:U;
        [discriminate|]. intros _.
      assert (Hdup : ~ NoDup (map indexed.label (kept_rows df))).
      { intros Hnd. apply is_unique_true_iff in Hnd. congruence. }
      apply repeated_label in Hdup.
      destruct Hdup as [l1 [[s a b] [l2 [[s' a' b'] [l3 [Hsplit Hf]]]]]].
      simpl in Hf. subst s'.
      assert (Hx : In (indexed.mk s a b) (kept_rows df)).
      { rewrite Hsplit. apply in_or_app. right. now left. }
      assert (Hy : In (indexed.mk s a' b') (kept_rows df)).
      { rewrite Hsplit. apply in_or_app. right. right.
        apply in_or_app. right. now left. }
      assert (Hpairs : ForallOrdPairs
                (fun i i' =>
                   row_eqb
                     (raw.mk (Some (indexed.label i)) (indexed.Per_90 i)
                        (indexed.Percentile i))
                     (raw.mk (Some (indexed.label i')) (indexed.Per_90 i')
                        (indexed.Percentile i')) = false)
                (kept_rows df)).
      { rewrite kept_rows_flat_map.
        apply (ForallOrdPairs_flat_map (fun r r' => row_eqb r r' = false));
          [|apply drop_duplicates_distinct].
        intros r r' i i' Hi Hi' Hr.
        destruct (kept_of_Some _ _ Hi) as [? [? [? [-> [-> _]]]]].
        destruct (kept_of_Some _ _ Hi') as [? [? [? [-> [-> _]]]]].
        exact Hr. }
      rewrite Hsplit in Hpairs. apply ForallOrdPairs_split in Hpairs.
      simpl in Hpairs.
      apply In_kept_rows in Hx, Hy.
      destruct Hx as [Hx [Ha [[pct [-> Hd]] Hne]]].
      destruct Hy as [Hy [Ha' [[pct' [-> Hd']] _]]].
      exists s, a, pct, a', pct'. repeat split; auto;
        eapply subsequence_In; try apply drop_duplicates_subsequence; assumption.
    + intros [stat [a [b [a' [b' [H1 [H2 [Hne [Ha [Ha' [Hb [Hb' Hpb]]]]]]]]]]]].
      assert (Hobj : is_object (map raw.Percentile (body df)) = true).
      { destruct (is_object _) eqn:E; [reflexivity|].
        apply is_object_false in E. destruct E as [_ E].
        specialize (E (Text b) (in_map raw.Percentile _ _ H1)). discriminate E. }
      rewrite Hobj. unfold T_to_json.
      destruct (is_unique (map indexed.label (kept_rows df))) eqn:U;
        [|reflexivity].
      exfalso. apply is_unique_true_iff in U.
      destruct (drop_duplicates_represents _ _ H1) as [[s1 c1 p1] [Hy1 Hs1]].
      destruct (drop_duplicates_represents _ _ H2) as [[s2 c2 p2] [Hy2 Hs2]].
      pose proof Hs1 as Hs1'. pose proof Hs2 as Hs2'.
      unfold row_eqb in Hs1', Hs2'; simpl in Hs1', Hs2'.
      apply andb_prop in Hs1'. destruct Hs1' as [Hs1' Hp1].
      apply andb_prop in Hs1'. destruct Hs1' as [Hst1 Hc1].
      apply andb_prop in Hs2'. destruct Hs2' as [Hs2' Hp2].
      apply andb_prop in Hs2'. destruct Hs2' as [Hst2 Hc2].
      apply cell_eqb_eq in Hst1, Hst2.
      apply scalar_eqb_Text in Hp1, Hp2. subst s1 s2 p1 p2.
      assert (Hk1 : In (indexed.mk stat c1 (Text b)) (kept_rows df)).
      { apply In_kept_rows. repeat split; eauto.
        now rewrite (scalar_eqb_notna _ _ Hc1). }
      assert (Hk2 : In (indexed.mk stat c2 (Text b')) (kept_rows df)).
      { apply In_kept_rows. repeat split; eauto.
        now rewrite (scalar_eqb_notna _ _ Hc2). }
      pose proof (NoDup_map_eq _ _ _ _ U Hk1 Hk2 eq_refl) as Heq.
      inversion Heq; subst c2 b'.
      assert (Hsame : row_eqb (raw.mk (Some stat) a (Text b))
                              (raw.mk (Some stat) a' (Text b)) = true).
      { apply (row_eqb_trans _ (raw.mk (Some stat) c1 (Text b))); [|assumption].
        rewrite row_eqb_sym. assumption. }
      congruence.
Qed.

Lemma extraction_raises_witness :
  percentile_df numeric_table = Raise AttributeError
  /\ percentile_df conflicting_table = Raise ValueError
  /\ percentile_df
       (mkTable true [header_row; text_row "Tackles" "2.10" "70";
                      text_row "Tackles" "2.10" "70"])
     = Ok [("Tackles", [("Per 90", PyStr "2.10"); ("Percentile", PyStr "70")])].
Proof.
  split; [|split; [|reflexivity]].
  - apply (proj2 (proj1 (proj2 (extraction_raises (lib := plain_library)
                                  numeric_table)))).
    split; [discriminate|].
    intros r [<-|[<-|[]]]; reflexivity.
  - apply (proj2 (proj2 (proj2 (extraction_raises (lib := plain_library)
                                  conflicting_table)))).
    exists "Tackles", (Text "2.10"), "70", (Text "1.90"), "64".
    simpl. repeat split; auto; discriminate.
Defined.

(** X4: tables with a one-level header play no part in the extraction;
    it succeeds exactly when every two-level table can be extracted, and
    then gives their extractions in page order. *)
Theorem one_level_tables_are_ignored {lib : Library} dfs :
  percentile_dfs dfs = percentile_dfs (filter multi_header dfs)
  /\ forall pdfs,
       percentile_dfs dfs = Ok pdfs
       <-> Forall2 (fun df t => percentile_df df = Ok t)
                   (filter multi_header dfs) pdfs.
Proof.
  split; [apply percentile_dfs_filter | apply percentile_dfs_Forall2].
Qed.

Lemma one_level_tables_are_ignored_witness :
  percentile_dfs (tables aligned_page) = percentile_dfs [CB_table; FB_table]
  /\ percentile_dfs (tables aligned_page) = Ok [CB_extracted; FB_extracted].
Proof.
  split.
  - exact (proj1 (one_level_tables_are_ignored (lib := plain_library)
                    (tables aligned_page))).
  - apply (proj2 (one_level_tables_are_ignored (lib := plain_library)
                    (tables aligned_page))).
    repeat constructor.
Defined.

(** ** Which exceptions [get_scouting_report] raises *)

(** X5: [get_scouting_report] raises [ValueError], [AttributeError],
    [IndexError] or [KeyError] and nothing else; it raises [ValueError],
    the one exception that the collecting loop takes for a skip, exactly
    when the page has no table, or a two-level table of the page has a
    statistic on two rows that differ and every two-level table before
    it can be extracted. *)
Theorem skip_condition {lib : Library} fetch idx name :
  (forall e, get_scouting_report fetch idx name = Raise e ->
             e = ValueError \/ e = AttributeError \/ e = IndexError
             \/ exists k, e = KeyError k)
  /\ (get_scouting_report fetch idx name = Raise ValueError
      <-> tables (fetch idx name) = []
          \/ exists before df after,
               tables (fetch idx name) = before ++ df :: after
               /\ multi_header df = true
               /\ percentile_df df = Raise ValueError
               /\ forall df', In df' before -> multi_header df' = true ->
                              exists t, percentile_df df' = Ok t).
Proof.
  unfold get_scouting_report, read_html.
  destruct (tables (fetch idx name)) as [|df0 dfs0] eqn:Ht; cbn [bind].
  - split; [intros e H; left; congruence|]. split; [auto | reflexivity].
  - set (dfs := df0 :: dfs0) in *.
    pose proof (percentile_dfs_Raise dfs) as Hraise.
    destruct (percentile_dfs dfs) as [pdfs|e'] eqn:Hext; cbn [bind].
    + destruct (merge pdfs (pos (fetch idx name))) as [data|e''] eqn:Hmerge;
        cbn [bind].
      * split; [intros e H; discriminate H|]. split; [discriminate|].
        intros [H|H]; [discriminate H|].
        apply Hraise in H. discriminate H.
      * apply merge_Raise in Hmerge. split.
        { intros e H; inversion H; subst. tauto. }
        split.
        { intros H. inversion H; subst.
          destruct Hmerge as [?|[k ?]]; discriminate. }
        { intros [H|H]; [discriminate H|].
          apply Hraise in H. discriminate H. }
    + split.
      * intros e H. inversion H; subst e'.
        destruct (proj1 (Hraise e) eq_refl) as [_ [df [_ [_ [_ [Hr _]]]]]].
        apply percentile_df_Raise in Hr. tauto.
      * split.
        { intros H. inversion H; subst e'. right. now apply Hraise. }
        { intros [H|H]; [discriminate H|].
          apply Hraise in H. inversion H; reflexivity. }
Qed.

Lemma skip_condition_witness :
  get_scouting_report (always (mkPage ["div_scout_full_CB"] []))
    "e46012d4" "Kevin-De-Bruyne" = Raise ValueError
  /\ get_scouting_report
       (always (mkPage ["div_scout_full_CB"] [flat_table; conflicting_table]))
       "e46012d4" "Kevin-De-Bruyne" = Raise ValueError
  /\ get_scouting_report
       (always (mkPage ["div_scout_full_CB"] [numeric_table; conflicting_table]))
       "e46012d4" "Kevin-De-Bruyne" = Raise AttributeError.
Proof.
  split; [|split; [|reflexivity]].
  - apply (proj2 (proj2 (skip_condition (lib := plain_library) _ _ _))).
    left. reflexivity.
  - apply (proj2 (proj2 (skip_condition (lib := plain_library) _ _ _))).
    right. exists [flat_table], conflicting_table, [].
    repeat split. intros df' [<-|[]] H. discriminate H.
Defined.

(** ** More on the merge *)

Lemma fill_dict_ext {X V : Type} (key : X -> string) (f g : X -> result V)
  (items : list X) (d : dict V) :
  (forall x, In x items -> f x = g x) ->
  fill_dict key f items d = fill_dict key g items d.
Proof.
  revert d. induction items as [|x items IH]; intros d H; simpl; [reflexivity|].
  rewrite <- (H x (or_introl eq_refl)). destruct (f x); simpl; [|reflexivity].
  apply IH. intros y Hy. apply H. now right.
Qed.

Lemma dict_set_new {V : Type} (k : string) (v : V) (d : dict V) :
  ~ In k (keys d) -> dict_set k v d = d ++ [(k, v)].
Proof.
  induction d as [|[k' v'] d IH]; simpl; [reflexivity|].
  intros H. destruct (String.eqb_spec k k') as [->|Hne]; [tauto|].
  rewrite IH by tauto. reflexivity.
Qed.

Lemma percentile_at_present {lib : Library} pdfs i stat t :
  Forall extracted pdfs ->
  nth_error pdfs i = Some t -> In stat (keys t) ->
  exists v, percentile_at pdfs i stat = Ok v.
Proof.
  intros Hall Ht Hin.
  destruct (keys_dict_get _ _ Hin) as [te Hte].
  pose proof (nth_error_In _ _ Ht) as Hint.
  rewrite Forall_forall in Hall. destruct (Hall _ Hint) as [_ Hrows].
  destruct (Hrows _ _ (dict_get_In _ _ _ Hte)) as [_ [a [b [-> _]]]].
  exists (PyStr b). apply percentile_at_Ok. exists t. eexists.
  repeat split; [exact Ht | exact Hte | reflexivity].
Qed.

(** X6: the fields of a merged statistic are those of the first table
    with the percentile replaced by the mapping: the rate is what JSON
    gives for the Per 90 cell that the statistic has in the first
    two-level table, whatever the later tables hold. *)
Theorem rate_comes_from_first_table {lib : Library} fetch idx name r :
  get_scouting_report fetch idx name = Ok r ->
  forall stat e,
    dict_get stat (report.data r) = Some e ->
    exists dfs first rest df c pct0 pct,
      read_html (fetch idx name) = Ok dfs
      /\ percentile_dfs dfs = Ok (first :: rest)
      /\ nth_error (filter multi_header dfs) 0 = Some df
      /\ In (raw.mk (Some stat) c (Text pct0)) (body df)
      /\ dict_get stat first
         = Some [("Per 90", json_value c); ("Percentile", PyStr pct0)]
      /\ e = [("Per 90", json_value c); ("Percentile", PyDict pct)].
Proof.
  intros H stat e He.
  destruct (get_scouting_report_Ok _ _ _ _ H)
    as [dfs [first [rest [Hread [Hext [Hloop _]]]]]].
  apply (merge_loop_entry _ _ _ _ _ _ Hloop) in He.
  destruct (merge_stat_Ok _ _ _ _ _ He) as [entry [pct [Hentry [_ ->]]]].
  destruct (percentile_dfs_nth dfs (first :: rest) 0 first Hext eq_refl)
    as [df [Hdf Hextdf]].
  pose proof Hentry as Hrow. apply (percentile_df_rows _ _ Hextdf) in Hrow.
  destruct Hrow as [c [pct0 [-> [Hin _]]]].
  exists dfs, first, rest, df, c, pct0, pct. auto 10.
Qed.

Lemma rate_comes_from_first_table_witness :
  get_scouting_report (always (mkPage ["div_scout_full_FW"] (tables example_page)))
    "e46012d4" "Kevin-De-Bruyne"
  = Ok (report.mk
             [("Goals", [("Per 90", PyFloat (1 # 2));
                         ("Percentile", PyDict [("FW", PyStr "80")])]);
              ("Assists", [("Per 90", PyFloat (3 # 10));
                           ("Percentile", PyDict [("FW", PyStr "60")])])]
             ["FW"] "e46012d4")
  /\ exists dfs first rest df c pct0 pct,
       read_html (mkPage ["div_scout_full_FW"] (tables example_page)) = Ok dfs
       /\ percentile_dfs dfs = Ok (first :: rest)
       /\ nth_error (filter multi_header dfs) 0 = Some df
       /\ In (raw.mk (Some "Goals") c (Text pct0)) (body df)
       /\ dict_get "Goals" first
          = Some [("Per 90", json_value c); ("Percentile", PyStr pct0)]
       /\ [("Per 90", PyFloat (1 # 2)); ("Percentile", PyDict [("FW", PyStr "80")])]
          = [("Per 90", json_value c); ("Percentile", PyDict pct)].
Proof.
  split; [reflexivity|].
  exact (rate_comes_from_first_table (lib := plain_library)
           (always (mkPage ["div_scout_full_FW"] (tables example_page)))
           "e46012d4" "Kevin-De-Bruyne" _ eq_refl "Goals" _ eq_refl).
Defined.

(** X7: tables beyond the number of positions are never read: with at
    least as many tables as positions, further tables change neither the
    result nor the exception of the merge. *)
Theorem surplus_tables_are_ignored pdfs extra positions :
  pdfs <> [] ->
  List.length positions <= List.length pdfs ->
  merge (pdfs ++ extra) positions = merge pdfs positions.
Proof.
  intros Hne Hlen. destruct pdfs as [|first rest]; [contradiction|].
  unfold merge; simpl. rewrite !merge_loop_fill.
  apply fill_dict_ext. intros stat _. unfold merge_stat.
  destruct (getitem first stat); simpl; [|reflexivity].
  rewrite !copy_percentiles_fill.
  rewrite (fill_dict_ext snd
             (fun ip => percentile_at ((first :: rest) ++ extra) (fst ip) stat)
             (fun ip => percentile_at (first :: rest) (fst ip) stat));
    [reflexivity|].
  intros [i p] Hip. apply In_enumerate in Hip. simpl fst.
  assert (Hi : i < List.length (first :: rest)).
  { assert (i < List.length positions) by (apply nth_error_Some; congruence). lia. }
  unfold percentile_at, list_index. now rewrite nth_error_app1.
Qed.

Lemma surplus_tables_are_ignored_witness :
  merge ([CB_extracted; FB_extracted] ++ [table_A]) ["CB"; "FB"]
  = merge [CB_extracted; FB_extracted] ["CB"; "FB"].
Proof.
  apply surplus_tables_are_ignored; [discriminate | simpl; lia].
Defined.

Lemma keys_without_percentiles d : keys (map without_percentiles d) = keys d.
Proof. unfold keys. rewrite map_map. reflexivity. Qed.

Lemma merge_loop_no_positions pdfs df done todo :
  NoDup (keys (done ++ todo)) ->
  (forall k v, In (k, v) todo -> dict_get k df = Some v) ->
  merge_loop pdfs [] df (keys todo) (map without_percentiles done)
  = Ok (map without_percentiles (done ++ todo)).
Proof.
  revert done. induction todo as [|[k v] todo IH]; intros done Hnd Hget; simpl.
  - now rewrite app_nil_r.
  - unfold merge_stat. rewrite (proj2 (getitem_Ok df k v)) by (apply Hget; now left).
    simpl. rewrite dict_set_new.
    + change (map without_percentiles done
              ++ [(k, dict_set "Percentile" (PyDict []) v)])
        with (map without_percentiles done ++ map without_percentiles [(k, v)]).
      rewrite <- map_app.
      replace (done ++ (k, v) :: todo) with ((done ++ [(k, v)]) ++ todo)
        by (rewrite <- app_assoc; reflexivity).
      apply IH.
      * rewrite <- app_assoc. exact Hnd.
      * intros k' v' Hin. apply Hget. now right.
    + rewrite keys_without_percentiles. unfold keys in *.
      rewrite map_app in Hnd. simpl in Hnd.
      apply NoDup_remove_2 in Hnd. intros Hin. apply Hnd.
      apply in_or_app. now left.
Qed.

(** X8: a page without any position block but with a percentile table
    is no skip: the report is returned with every statistic of the first
    table and an empty percentile mapping for each, and an empty list of
    positions. *)
Theorem no_position_block_gives_empty_percentiles {lib : Library}
  fetch idx name dfs first rest :
  pos (fetch idx name) = [] ->
  read_html (fetch idx name) = Ok dfs ->
  percentile_dfs dfs = Ok (first :: rest) ->
  get_scouting_report fetch idx name
  = Ok (report.mk (map without_percentiles first) [] idx).
Proof.
  intros Hpos Hread Hext.
  rewrite (get_scouting_report_eq _ _ _ _ _ _ Hread Hext), Hpos.
  pose proof (percentile_dfs_extracted _ _ Hext) as Hall.
  inversion Hall as [|? ? [Hnd _] _]; subst.
  pose proof (merge_loop_no_positions (first :: rest) first [] first) as Hm.
  simpl in Hm. rewrite Hm; [reflexivity | assumption |].
  intros k v Hin. now apply In_NoDup_dict_get.
Qed.

Lemma no_position_block_gives_empty_percentiles_witness :
  get_scouting_report (always (mkPage ["meta"] [CB_table]))
    "e46012d4" "Kevin-De-Bruyne"
  = Ok (report.mk
          [("Tackles", [("Per 90", PyStr "2.10"); ("Percentile", PyDict [])]);
           ("Clearances", [("Per 90", PyStr "4.00"); ("Percentile", PyDict [])])]
          [] "e46012d4").
Proof.
  exact (no_position_block_gives_empty_percentiles (lib := plain_library)
           (always (mkPage ["meta"] [CB_table])) "e46012d4" "Kevin-De-Bruyne"
           [CB_table] CB_extracted [] eq_refl eq_refl eq_refl).
Defined.

(** X9: once the tables are extracted, [get_scouting_report] returns
    exactly when there is a first table and, for every statistic of it
    and every detected position, the table at the position's index
    exists and has the statistic. *)
Theorem report_returns_iff {lib : Library} fetch idx name dfs pdfs :
  read_html (fetch idx name) = Ok dfs ->
  percentile_dfs dfs = Ok pdfs ->
  ((exists r, get_scouting_report fetch idx name = Ok r)
   <-> exists first rest,
         pdfs = first :: rest
         /\ forall stat i p,
              In stat (keys first) ->
              nth_error (pos (fetch idx name)) i = Some p ->
              exists t, nth_error pdfs i = Some t /\ In stat (keys t)).
Proof.
  intros Hread Hext.
  pose proof (percentile_dfs_extracted _ _ Hext) as Hall. split.
  - intros [r Hr].
    destruct (get_scouting_report_Ok _ _ _ _ Hr)
      as [dfs' [first [rest [Hread' [Hext' [Hloop _]]]]]].
    assert (dfs' = dfs) by congruence; subst dfs'.
    assert (pdfs = first :: rest) by congruence; subst pdfs.
    exists first, rest. split; [reflexivity|].
    intros stat i p Hstat Hp.
    destruct (merge_loop_Ok_all _ _ _ _ Hloop stat i p Hstat Hp) as [v Hv].
    apply percentile_at_Ok in Hv. destruct Hv as [t [te [Ht [Hte _]]]].
    exists t. split; [assumption|]. eapply dict_get_Some_keys; eassumption.
  - intros [first [rest [-> Hall_present]]].
    rewrite (get_scouting_report_eq _ _ _ _ _ _ Hread Hext).
    destruct (merge_loop_total (first :: rest) (pos (fetch idx name)) first)
      as [data Hdata].
    + intros stat i p Hstat Hp.
      destruct (Hall_present stat i p Hstat Hp) as [t [Ht Hin]].
      eapply percentile_at_present; eassumption.
    + rewrite Hdata; simpl. eauto.
Qed.

Lemma report_returns_iff_witness :
  (exists r, get_scouting_report (always aligned_page)
               "e46012d4" "Kevin-De-Bruyne" = Ok r)
  <-> exists first rest,
        [CB_extracted; FB_extracted] = first :: rest
        /\ forall stat i p,
             In stat (keys first) ->
             nth_error (pos aligned_page) i = Some p ->
             exists t, nth_error [CB_extracted; FB_extracted] i = Some t
                       /\ In stat (keys t).
Proof.
  exact (report_returns_iff (lib := plain_library)
           (always aligned_page) "e46012d4" "Kevin-De-Bruyne"
           [flat_table; CB_table; FB_table] [CB_extracted; FB_extracted]
           eq_refl eq_refl).
Defined.

(** ** More on the position blocks *)

(** X10: the detected positions depend on nothing but which of the six
    scouting blocks the page has: the order of the divs, their
    repetition, other divs and the tables make no difference. *)
Theorem pos_depends_on_blocks_only (a b : Page) :
  (forall p, In p pos_list ->
             (In (scout_div p) (div_ids a) <-> In (scout_div p) (div_ids b))) ->
  pos a = pos b.
Proof.
  intros H. unfold pos. apply filter_ext_in. intros p Hp.
  specialize (H p Hp). rewrite <- !truthy_find_all_div in H.
  destruct (truthy (find_all_div a (scout_div p))),
           (truthy (find_all_div b (scout_div p))); try reflexivity.
  - symmetry. now apply H.
  - now apply H.
Qed.

Lemma pos_depends_on_blocks_only_witness :
  pos aligned_page
  = pos (mkPage ["div_scout_full_FB"; "x"; "div_scout_full_CB"; "div_scout_full_FB"] []).
Proof.
  apply pos_depends_on_blocks_only. intros p Hp. simpl in Hp.
  destruct Hp as [<-|[<-|[<-|[<-|[<-|[<-|[]]]]]]];
    split; intros H; cbv in H |- *;
    repeat (destruct H as [H|H]; [first [discriminate H | auto 10]|]);
    contradiction.
Defined.

(** ** The link of a row *)

Lemma split_app_sep sep a b :
  split sep (a ++ String sep b) = split sep a ++ split sep b.
Proof.
  induction a as [|c a IH]; simpl.
  - now rewrite Ascii.eqb_refl.
  - destruct (Ascii.eqb c sep); rewrite IH; [reflexivity|].
    pose proof (split_not_nil sep a) as Hnn.
    destruct (split sep a); [contradiction | reflexivity].
Qed.

Lemma split_free_eq sep s : free_of sep s -> split sep s = [s].
Proof.
  unfold free_of. induction s as [|c s IH]; simpl; [reflexivity|].
  intros H. apply andb_prop in H. destruct H as [Hc Hs].
  apply negb_true_iff in Hc. rewrite Hc, IH by assumption. reflexivity.
Qed.

Lemma last_two_app {A : Type} (l : list A) (a b : A) :
  last_two (l ++ [a; b]) = [a; b].
Proof.
  unfold last_two. rewrite length_app; simpl.
  replace (List.length l + 2 - 2) with (List.length l + 0) by lia.
  rewrite skipn_app, Nat.add_0_r, skipn_all.
  replace (List.length l - List.length l) with 0 by lia. reflexivity.
Qed.

Lemma last_item_split sep s : exists w, last_item (split sep s) = Ok w.
Proof.
  unfold last_item. pose proof (split_not_nil sep s) as Hnn.
  destruct (rev (split sep s)) as [|w l] eqn:E; [|eauto].
  exfalso. apply Hnn. rewrite <- (rev_involutive (split sep s)), E. reflexivity.
Qed.

(** X11: for a link that ends in .../idx/name the report is requested
    for that id and that name, whatever stands before them. *)
Theorem report_is_requested_for_link_end {lib : Library} fetch prefix idx name :
  free_of "/" idx -> free_of "/" name ->
  call_get_scouting_report fetch
    (last_two (split "/" (prefix ++ "/" ++ idx ++ "/" ++ name)))
  = get_scouting_report fetch idx name.
Proof.
  intros Hidx Hname.
  change (prefix ++ "/" ++ idx ++ "/" ++ name)%string
    with (prefix ++ String "/" (idx ++ String "/" name))%string.
  rewrite !split_app_sep, (split_free_eq _ _ Hname).
  assert (Hsplit : split "/" idx = [idx]) by now apply split_free_eq.
  rewrite Hsplit. simpl app.
  rewrite last_two_app. reflexivity.
Qed.

Lemma report_is_requested_for_link_end_witness :
  call_get_scouting_report (always aligned_page)
    (last_two (split "/" ("/en/players" ++ "/" ++ "e46012d4" ++ "/" ++ "Kevin-De-Bruyne")))
  = get_scouting_report (always aligned_page) "e46012d4" "Kevin-De-Bruyne".
Proof.
  apply (report_is_requested_for_link_end (lib := plain_library)); reflexivity.
Defined.

(** ** Rows that end the run, rows that are skipped *)

Lemma label_eqb_eq (a b : label) : label_eqb a b = true <-> a = b.
Proof.
  destruct a, b; simpl; try (split; congruence).
  - rewrite String.eqb_eq. split; congruence.
  - rewrite Z.eqb_eq. split; congruence.
Qed.

Lemma label_eqb_refl (a : label) : label_eqb a a = true.
Proof. now apply label_eqb_eq. Qed.

(** A row whose label is the label of no other row can be taken out of
    the frame without a change for the other rows. *)
Lemma unique_label_without before x after y :
  unique_label (before ++ x :: after) x = true ->
  In y (before ++ after) ->
  unique_label (before ++ x :: after) y = unique_label (before ++ after) y.
Proof.
  unfold unique_label, loc. rewrite !filter_app. simpl.
  rewrite label_eqb_refl. intros Hu Hy.
  rewrite length_app in Hu. simpl in Hu. apply Nat.eqb_eq in Hu.
  destruct (label_eqb (row.Rk x) (row.Rk y)) eqn:E; [|reflexivity].
  exfalso. apply label_eqb_eq in E.
  assert (Hin : In y (filter (fun z => label_eqb (row.Rk z) (row.Rk x)) before)
                \/ In y (filter (fun z => label_eqb (row.Rk z) (row.Rk x)) after)).
  { apply in_app_or in Hy. destruct Hy as [Hy|Hy]; [left | right];
      apply filter_In; (split; [assumption | apply label_eqb_eq; congruence]). }
  destruct Hin as [Hin|Hin];
    [destruct (filter _ before) | destruct (filter _ after)];
    simpl in *; try contradiction; lia.
Qed.

Lemma last_true {A : Type} (p : A -> bool) (l : list A) :
  (exists x, In x l /\ p x = true) ->
  exists before y after,
    l = before ++ y :: after /\ p y = true
    /\ forall z, In z after -> p z = false.
Proof.
  induction l as [|a l IH]; intros [x [Hin Hp]]; [contradiction|].
  destruct (existsb p l) eqn:E.
  - apply existsb_exists in E.
    destruct (IH E) as [before [y [after [-> [Hy Hafter]]]]].
    exists (a :: before), y, after. auto.
  - assert (Hall : forall z, In z l -> p z = false).
    { intros z Hz. destruct (p z) eqn:Ez; [|reflexivity].
      assert (existsb p l = true) by (apply existsb_exists; eauto).
      congruence. }
    destruct Hin as [->|Hin]; [|rewrite (Hall _ Hin) in Hp; discriminate].
    exists [], x, l. auto.
Qed.

Section Rows.

Context {lib : Library}.
Variable fetch : string -> string -> Page.

(** The outcome of the [try] body does not depend on the records
    collected so far. *)
Lemma try_body_any x :
  (exists k rec, forall reports,
      try_body fetch reports x = Ok (dict_set k rec reports))
  \/ (exists e, forall reports, try_body fetch reports x = Raise e).
Proof.
  unfold try_body.
  destruct (call_get_scouting_report fetch (last_two (split "/" (row.href x))))
    as [r|e]; simpl; [|right; eauto].
  destruct (str_split (row.Nation x) " ") as [parts|e]; simpl; [|right; eauto].
  destruct (last_item parts) as [nation|e]; simpl; [|right; eauto].
  destruct (str_split (row.Comp x) " ") as [lparts|e]; simpl; [|right; eauto].
  left. eauto.
Qed.

Lemma try_body_Raise reports x e :
  try_body fetch reports x = Raise e ->
  (e = TypeError
   /\ forall idx name, last_two (split "/" (row.href x)) <> [idx; name])
  \/ exists idx name,
       last_two (split "/" (row.href x)) = [idx; name]
       /\ (get_scouting_report fetch idx name = Raise e
           \/ (e = AttributeError
               /\ exists r, get_scouting_report fetch idx name = Ok r)).
Proof.
  unfold try_body, call_get_scouting_report.
  destruct (last_two (split "/" (row.href x))) as [|idx [|name [|? ?]]];
    simpl; try (intros H; inversion H; left; split; [reflexivity | congruence]).
  intros H. right. exists idx, name. split; [reflexivity|].
  destruct (get_scouting_report fetch idx name) as [r|e'];
    simpl in H; [|left; congruence].
  right. split; [|eauto].
  destruct (row.Nation x) eqn:En; simpl in H; try congruence.
  destruct (last_item_split " " s) as [w Hw]. rewrite Hw in H; simpl in H.
  destruct (row.Comp x); simpl in H; congruence.
Qed.

Lemma collect_all_Ok_iff df rows reports :
  (exists final, collect_all fetch df rows reports = Ok final)
  <-> forall x, In x rows ->
        unique_label df x = true
        /\ forall e, try_body fetch [] x = Raise e -> e = ValueError.
Proof.
  revert reports. induction rows as [|x rows IH]; intros reports; simpl.
  - split; [intros _ x [] | eauto].
  - unfold collect at 1. destruct (unique_label df x) eqn:U.
    + destruct (try_body_any x) as [[k [rec Hok]]|[e Hraise]].
      * rewrite Hok; simpl. rewrite IH. split.
        { intros H y [<-|Hy]; [|now apply H]. split; [assumption|].
          intros e He. rewrite Hok in He. discriminate. }
        { intros H y Hy. apply H. now right. }
      * rewrite Hraise. destruct e; simpl;
          try (split; [intros [final Hf]; discriminate Hf
                      | intros H;
                        destruct (H x (or_introl eq_refl)) as [_ H'];
                        specialize (H' _ (Hraise [])); discriminate H']).
        rewrite IH. split.
        { intros H y [<-|Hy]; [|now apply H]. split; [assumption|].
          intros e He. rewrite Hraise in He. congruence. }
        { intros H y Hy. apply H. now right. }
    + simpl. split; [intros [final Hf]; discriminate Hf|].
      intros H. destruct (H x (or_introl eq_refl)) as [H' _]. congruence.
Qed.

Lemma collect_all_ext df df' rows reports :
  (forall y, In y rows -> unique_label df y = unique_label df' y) ->
  collect_all fetch df rows reports = collect_all fetch df' rows reports.
Proof.
  revert reports. induction rows as [|x rows IH]; intros reports H; simpl;
    [reflexivity|].
  unfold collect. rewrite (H x (or_introl eq_refl)).
  destruct (unique_label df' x); [|reflexivity].
  destruct (try_body fetch reports x) as [reports'|e]; simpl.
  - apply IH. intros y Hy. apply H. now right.
  - destruct e; simpl; try reflexivity.
    apply IH. intros y Hy. apply H. now right.
Qed.

(** A row that the loop gets past was either skipped or stored under the
    id of its link. *)
Lemma collect_Ok_cases df reports x reports' :
  collect fetch df reports x = Ok reports' ->
  exists idx name,
    last_two (split "/" (row.href x)) = [idx; name]
    /\ ((get_scouting_report fetch idx name = Raise ValueError
         /\ reports' = reports)
        \/ exists r rec,
             get_scouting_report fetch idx name = Ok r
             /\ reports' = dict_set idx rec reports
             /\ player.name rec = row.Player x
             /\ player.mins rec = row.Min x
             /\ player.team rec = row.Squad x
             /\ player.age rec = row.Age x
             /\ player.profile rec = ("https://fbref.com" ++ row.href x)%string
             /\ player.positions rec = report.positions r
             /\ player.data rec = report.data r).
Proof.
  unfold collect. destruct (unique_label df x); [|discriminate].
  destruct (try_body fetch reports x) as [reports''|e] eqn:Hbody.
  - intros H; inversion H; subst reports''.
    destruct (try_body_Ok _ _ _ _ Hbody)
      as [idx [name [r [nt [lt [n [Hargs [Hr [_ [_ [_ ->]]]]]]]]]]].
    exists idx, name. split; [assumption|]. right.
    destruct (get_scouting_report_Ok _ _ _ _ Hr) as [_ [_ [_ [_ [_ [_ [_ Hid]]]]]]].
    rewrite Hid. do 2 eexists. split; [exact Hr|]. repeat split.
  - destruct e; try discriminate. intros H; inversion H; subst reports'.
    destruct (try_body_Raise _ _ _ Hbody)
      as [[Habs _]|[idx [name [Hargs [Hr|[Habs _]]]]]]; try discriminate Habs.
    exists idx, name. auto.
Qed.

Lemma collect_all_keys df rows reports final :
  collect_all fetch df rows reports = Ok final ->
  (forall k,
     In k (keys final)
     <-> In k (keys reports)
         \/ exists x name r,
              In x rows
              /\ last_two (split "/" (row.href x)) = [k; name]
              /\ get_scouting_report fetch k name = Ok r)
  /\ (NoDup (keys reports) -> NoDup (keys final))
  /\ List.length final <= List.length reports + List.length rows.
Proof.
  revert reports. induction rows as [|x rows IH]; simpl; intros reports H.
  - inversion H; subst. repeat split; try tauto; try lia.
    intros [Hin|[x [name [r [[] _]]]]]. exact Hin.
  - apply bind_Ok in H. destruct H as [reports' [Hx H]].
    destruct (IH _ H) as [IHkeys [IHnd IHlen]]. clear IH.
    destruct (collect_Ok_cases _ _ _ _ Hx)
      as [idx [name [Hargs [[Hr ->]|[r [rec [Hr [-> _]]]]]]]].
    + split; [|split; [assumption | lia]].
      intros k. rewrite IHkeys. split.
      * intros [Hin|[y [name' [r' [Hy Hrest]]]]]; [auto|].
        right. exists y, name', r'. tauto.
      * intros [Hin|[y [name' [r' [[<-|Hy] [Hargs' Hr']]]]]]; [auto| |].
        { rewrite Hargs in Hargs'. inversion Hargs'; subst. congruence. }
        { right. exists y, name', r'. auto. }
    + split; [|split].
      * intros k. rewrite IHkeys, In_keys_dict_set. split.
        { intros [[->|Hin]|[y [name' [r' [Hy Hrest]]]]]; [|auto|].
          - right. exists x, name, r. auto.
          - right. exists y, name', r'. tauto. }
        { intros [Hin|[y [name' [r' [[<-|Hy] [Hargs' Hr']]]]]]; [auto| |].
          - rewrite Hargs in Hargs'. inversion Hargs'; subst. auto.
          - right. exists y, name', r'. auto. }
      * intros Hnd. apply IHnd.
        destruct (in_dec string_dec idx (keys reports)) as [Hin|Hnin].
        { now rewrite keys_dict_set_old. }
        { rewrite keys_dict_set_new by assumption.
          apply NoDup_app; [assumption | constructor; [tauto | constructor] |].
          intros k Hk [<-|[]]. contradiction. }
      * assert (List.length (dict_set idx rec reports) <= S (List.length reports)).
        { clear. induction reports as [|[k v] d IHd]; simpl; [lia|].
          destruct (String.eqb idx k); simpl; lia. }
        lia.
Qed.

(** The record under an id stays as long as no row with that id has its
    report returned. *)
Lemma collect_all_keeps df rows reports final k :
  collect_all fetch df rows reports = Ok final ->
  (forall y name r, In y rows ->
                    last_two (split "/" (row.href y)) = [k; name] ->
                    get_scouting_report fetch k name <> Ok r) ->
  dict_get k final = dict_get k reports.
Proof.
  revert reports. induction rows as [|x rows IH]; simpl; intros reports H Hother.
  - now inversion H.
  - apply bind_Ok in H. destruct H as [reports' [Hx H]].
    rewrite (IH _ H) by (intros y name r Hy; apply Hother; now right).
    destruct (collect_Ok_cases _ _ _ _ Hx)
      as [idx [name [Hargs [[_ ->]|[r [rec [Hr [-> _]]]]]]]]; [reflexivity|].
    apply dict_get_set_other. intros ->.
    exact (Hother x name r (or_introl eq_refl) Hargs Hr).
Qed.

(** Of the rows with one id whose report is returned, the last one is
    the one whose cells are stored. *)
Lemma collect_all_stores df before x after reports idx name r :
  collect_all fetch df (before ++ x :: after) [] = Ok reports ->
  last_two (split "/" (row.href x)) = [idx; name] ->
  get_scouting_report fetch idx name = Ok r ->
  (forall y name' r', In y after ->
                      last_two (split "/" (row.href y)) = [idx; name'] ->
                      get_scouting_report fetch idx name' <> Ok r') ->
  exists rec,
    dict_get idx reports = Some rec
    /\ player.name rec = row.Player x
    /\ player.mins rec = row.Min x
    /\ player.team rec = row.Squad x
    /\ player.age rec = row.Age x
    /\ player.profile rec = ("https://fbref.com" ++ row.href x)%string
    /\ player.positions rec = report.positions r
    /\ player.data rec = report.data r.
Proof.
  intros E Hargs Hr Hafter.
  rewrite collect_all_app in E. apply bind_Ok in E.
  destruct E as [reports1 [_ E]]. simpl in E. apply bind_Ok in E.
  destruct E as [reports2 [Hx E]].
  rewrite (collect_all_keeps _ _ _ _ idx E Hafter).
  destruct (collect_Ok_cases _ _ _ _ Hx)
    as [idx' [name' [Hargs' [[Hr' _]|[r' [rec [Hr' [-> Hrec]]]]]]]];
    rewrite Hargs in Hargs'; inversion Hargs'; subst idx' name'.
  - congruence.
  - assert (r' = r) by congruence; subst r'.
    exists rec. split; [apply dict_get_set_same | exact Hrec].
Qed.

Lemma returns_for_true k x :
  returns_for fetch k x = true
  <-> exists name r, last_two (split "/" (row.href x)) = [k; name]
                     /\ get_scouting_report fetch k name = Ok r.
Proof.
  unfold returns_for.
  destruct (last_two (split "/" (row.href x))) as [|idx [|name [|? ?]]];
    try (split; [discriminate | intros [? [? [H _]]]; discriminate H]).
  destruct (String.eqb_spec idx k) as [->|Hne]; simpl.
  - destruct (get_scouting_report fetch k name) as [r|e] eqn:E.
    + split; [eauto | reflexivity].
    + split; [discriminate|]. intros [name' [r [H Hr]]].
      inversion H; subst. congruence.
  - split; [discriminate|]. intros [name' [r [H _]]]. inversion H; congruence.
Qed.

(** The loop goes through, and [json.dump] writes every record, exactly
    when the cells of every row that is stored can be written. *)
Lemma records_dumpable df reports :
  collect_all fetch df df [] = Ok reports ->
  (forallb (fun kr => record_dumpable (snd kr)) reports = true
   <-> forall before x after idx name r,
         df = before ++ x :: after ->
         last_two (split "/" (row.href x)) = [idx; name] ->
         get_scouting_report fetch idx name = Ok r ->
         (forall y name' r', In y after ->
                             last_two (split "/" (row.href y)) = [idx; name'] ->
                             get_scouting_report fetch idx name' <> Ok r') ->
         cells_dumpable x = true).
Proof.
  intros Hloop. rewrite forallb_forall. split.
  - intros Hall before x after idx name r Hdf Hargs Hr Hafter.
    rewrite Hdf in Hloop at 2.
    destruct (collect_all_stores _ _ _ _ _ _ _ _ Hloop Hargs Hr Hafter)
      as [rec [Hget [Hn [Hm [Ht [Ha _]]]]]].
    specialize (Hall _ (dict_get_In _ _ _ Hget)). simpl in Hall.
    unfold record_dumpable in Hall. rewrite Hn, Hm, Ht, Ha in Hall.
    apply andb_prop in Hall. destruct Hall as [Hall _]. exact Hall.
  - intros Hcells [k rec] Hin. simpl.
    destruct (collect_all_keys _ _ _ _ Hloop) as [Hkeys [Hnd _]].
    specialize (Hnd (NoDup_nil _)).
    assert (Hk : In k (keys reports)) by (apply in_map_iff; exists (k, rec); auto).
    apply Hkeys in Hk. destruct Hk as [[]|[x0 [name0 [r0 [Hx0 [Hargs0 Hr0]]]]]].
    assert (Hp : returns_for fetch k x0 = true)
      by (apply returns_for_true; eauto).
    destruct (last_true _ _ (ex_intro _ x0 (conj Hx0 Hp)))
      as [before [x [after [Hdf [Hpx Hafter]]]]].
    apply returns_for_true in Hpx. destruct Hpx as [name [r [Hargs Hr]]].
    assert (Hlater : forall y name' r', In y after ->
               last_two (split "/" (row.href y)) = [k; name'] ->
               get_scouting_report fetch k name' <> Ok r').
    { intros y name' r' Hy Hargs' Hr'.
      assert (returns_for fetch k y = true) by (apply returns_for_true; eauto).
      rewrite (Hafter y Hy) in H. discriminate. }
    pose proof Hloop as Hloop'. rewrite Hdf in Hloop' at 2.
    destruct (collect_all_stores _ _ _ _ _ _ _ _ Hloop' Hargs Hr Hlater)
      as [rec' [Hget [Hn [Hm [Ht [Ha [_ [_ Hd]]]]]]]].
    assert (rec' = rec).
    { apply (In_NoDup_dict_get _ _ _ Hnd) in Hin. congruence. }
    subst rec'.
    unfold record_dumpable. rewrite Hn, Hm, Ht, Ha, Hd.
    apply andb_true_intro. split.
    + exact (Hcells before x after k name r Hdf Hargs Hr Hlater).
    + eapply report_data_dumpable; eassumption.
Qed.

End Rows.

(** X12: a link without any slash gives one argument where two are
    needed: [TypeError] leaves the [try] and ends the run at that row.
    (When the label of the row is the label of another row too, the run
    ends at that row before: the link is a Series, which has no
    [split].) *)
Theorem link_without_slash_ends_run {lib : Library} fetch before x after reports :
  free_of "/" (row.href x) ->
  collect_all fetch (before ++ x :: after) before [] = Ok reports ->
  main fetch (before ++ x :: after)
  = mkOutcome None
      (Some (if unique_label (before ++ x :: after) x then TypeError
             else AttributeError)).
Proof.
  intros Hfree Hbefore. apply (main_stops_at _ _ _ _ reports); [assumption|].
  unfold collect, try_body. destruct (unique_label _ x); [|reflexivity].
  rewrite (split_free_eq _ _ Hfree). reflexivity.
Qed.

Lemma link_without_slash_ends_run_witness :
  main (always aligned_page) ([sample_row] ++ linkless_row :: [other_row])
  = mkOutcome None (Some TypeError).
Proof.
  exact (link_without_slash_ends_run (lib := plain_library)
           (always aligned_page) [sample_row] linkless_row [other_row]
           [("e46012d4", sample_record)] eq_refl eq_refl).
Defined.

(** X13: a Nation or Comp cell that is no text (a missing cell is a
    float) has no [split]: when the player's report is returned, the
    [AttributeError] ends the run at that row. *)
Theorem cell_without_text_ends_run {lib : Library}
  fetch before x after reports idx name r :
  last_two (split "/" (row.href x)) = [idx; name] ->
  get_scouting_report fetch idx name = Ok r ->
  (forall s, row.Nation x <> PyStr s) \/ (forall s, row.Comp x <> PyStr s) ->
  collect_all fetch (before ++ x :: after) before [] = Ok reports ->
  main fetch (before ++ x :: after) = mkOutcome None (Some AttributeError).
Proof.
  intros Hargs Hr Hcell Hbefore.
  apply (main_stops_at _ _ _ _ reports); [assumption|].
  unfold collect, try_body, call_get_scouting_report.
  destruct (unique_label _ x); [|reflexivity].
  rewrite Hargs, Hr; simpl.
  destruct (row.Nation x) eqn:Hn; simpl; try reflexivity.
  destruct (last_item_split " " s) as [w Hw]. rewrite Hw; simpl.
  destruct (row.Comp x) eqn:Hc; simpl; try reflexivity.
  exfalso. destruct Hcell as [H|H]; [apply (H s) | apply (H s0)]; reflexivity.
Qed.

Lemma cell_without_text_ends_run_witness :
  main (always aligned_page) ([sample_row] ++ nationless_row :: [])
  = mkOutcome None (Some AttributeError).
Proof.
  apply (cell_without_text_ends_run (lib := plain_library)
           (always aligned_page) [sample_row] nationless_row []
           [("e46012d4", sample_record)] "1f44ac21" "Erling-Haaland"
           (report.mk (report.data aligned_report) ["CB"; "FB"] "1f44ac21"));
    try reflexivity.
  left. intros s. discriminate.
Defined.

(** X14: a row whose report raises [ValueError] is passed over: when its
    label is the label of no other row, the run goes on as if the row
    were not in the index, whatever its other cells hold. *)
Theorem skipped_row_leaves_no_trace {lib : Library} fetch before x after idx name :
  unique_label (before ++ x :: after) x = true ->
  last_two (split "/" (row.href x)) = [idx; name] ->
  get_scouting_report fetch idx name = Raise ValueError ->
  main fetch (before ++ x :: after) = main fetch (before ++ after).
Proof.
  intros Hu Hargs Hr. unfold main.
  set (df := before ++ x :: after). set (df' := before ++ after).
  assert (Hext : forall rows reports,
            (forall y, In y rows -> In y df') ->
            collect_all fetch df rows reports = collect_all fetch df' rows reports).
  { intros rows reports Hsub. apply collect_all_ext.
    intros y Hy. apply unique_label_without; auto. }
  unfold df at 2. unfold df' at 2. rewrite !collect_all_app.
  rewrite (Hext before) by (intros y Hy; apply in_or_app; now left).
  destruct (collect_all fetch df' before []) as [reports|e]; simpl; [|reflexivity].
  rewrite (collect_skips fetch df reports x idx name Hu Hargs Hr). simpl.
  rewrite (Hext after) by (intros y Hy; apply in_or_app; now right).
  reflexivity.
Qed.

Lemma skipped_row_leaves_no_trace_witness :
  main (site "e46012d4" (mkPage [] []) aligned_page)
    ([other_row] ++ sample_row :: [])
  = main (site "e46012d4" (mkPage [] []) aligned_page) ([other_row] ++ []).
Proof.
  apply (skipped_row_leaves_no_trace (lib := plain_library) _
           [other_row] sample_row [] "e46012d4" "Kevin-De-Bruyne"); reflexivity.
Defined.

(** X15: the run reaches the end and writes the whole file exactly when
    every row has a label of its own and raises nothing but [ValueError]
    in the [try], and [json.dump] can write the cells of every row that
    is stored: a row whose report is returned and after which no row with
    the same id has its report returned. *)
Theorem run_completes_iff {lib : Library} fetch df :
  (exists reports, main fetch df = mkOutcome (Some (Complete reports)) None)
  <-> (forall x, In x df ->
         unique_label df x = true
         /\ forall e, try_body fetch [] x = Raise e -> e = ValueError)
      /\ (forall before x after idx name r,
            df = before ++ x :: after ->
            last_two (split "/" (row.href x)) = [idx; name] ->
            get_scouting_report fetch idx name = Ok r ->
            (forall y name' r', In y after ->
                                last_two (split "/" (row.href y)) = [idx; name'] ->
                                get_scouting_report fetch idx name' <> Ok r') ->
            cells_dumpable x = true).
Proof.
  rewrite <- (collect_all_Ok_iff fetch df df []). unfold main, json_dump.
  destruct (collect_all fetch df df []) as [final|e] eqn:E.
  - rewrite <- (records_dumpable fetch df final E).
    destruct (forallb _ final); split.
    + eauto.
    + eauto.
    + intros [reports H]. discriminate H.
    + intros [_ H]. discriminate H.
  - split.
    + intros [reports H]. discriminate H.
    + intros [[final H] _]. discriminate H.
Qed.

Lemma run_completes_iff_witness :
  (exists reports,
     main (site "e46012d4" (mkPage [] []) aligned_page) [other_row; sample_row]
     = mkOutcome (Some (Complete reports)) None)
  /\ ~ (exists reports,
          main (site "e46012d4" flat_only_page aligned_page) [other_row; sample_row]
          = mkOutcome (Some (Complete reports)) None)
  /\ ~ (exists reports,
          main (always aligned_page) [integer_row]
          = mkOutcome (Some (Complete reports)) None).
Proof.
  split; [|split].
  - apply (proj2 (run_completes_iff (lib := plain_library) _ _)). split.
    + intros x [<-|[<-|[]]]; (split; [reflexivity|]);
        intros e H; vm_compute in H; inversion H; reflexivity.
    + intros [|a [|b [|c before]]] x after idx name r Hdf Hargs Hr _;
        inversion Hdf; subst; reflexivity.
  - intros H.
    pose proof (proj1 (proj1 (run_completes_iff (lib := plain_library) _ _) H)) as H'.
    destruct (H' sample_row (or_intror (or_introl eq_refl))) as [_ H''].
    specialize (H'' IndexError eq_refl). discriminate H''.
  - intros H.
    pose proof (proj2 (proj1 (run_completes_iff (lib := plain_library) _ _) H)) as H'.
    specialize (H' [] integer_row [] "e46012d4" "Kevin-De-Bruyne" aligned_report
                  eq_refl eq_refl eq_refl
                  (fun y name' r' (Hy : In y []) => False_ind _ Hy)).
    discriminate H'.
Defined.

(** ** The written dataset *)

(** X16: when the run completes, the ids under which records are written
    are exactly the ids of the rows whose report was returned; no id
    appears twice and there are at most as many records as rows. *)
Theorem dataset_keys {lib : Library} fetch rows reports :
  outfile (main fetch rows) = Some (Complete reports) ->
  (forall k,
     In k (keys reports)
     <-> exists x name r,
           In x rows
           /\ last_two (split "/" (row.href x)) = [k; name]
           /\ get_scouting_report fetch k name = Ok r)
  /\ NoDup (keys reports)
  /\ List.length reports <= List.length rows.
Proof.
  intros H. apply main_Complete in H.
  destruct (collect_all_keys _ _ _ _ _ H) as [Hkeys [Hnd Hlen]].
  split; [|split; [apply Hnd; constructor | simpl in Hlen; lia]].
  intros k. rewrite Hkeys. simpl. tauto.
Qed.

Lemma dataset_keys_witness :
  (forall k,
     In k (keys [("1f44ac21", other_record)])
     <-> exists x name r,
           In x [other_row; sample_row]
           /\ last_two (split "/" (row.href x)) = [k; name]
           /\ get_scouting_report (site "e46012d4" (mkPage [] []) aligned_page)
                k name = Ok r)
  /\ NoDup (keys [("1f44ac21", other_record)])
  /\ 1 <= 2.
Proof.
  exact (dataset_keys (lib := plain_library)
           (site "e46012d4" (mkPage [] []) aligned_page)
           [other_row; sample_row] _ eq_refl).
Defined.



(** X21: a player whose page has tables, none of them a percentile
    table, ends the run: line 74 raises [IndexError], which the handler
    does not catch, and no file is written.  (When the label of the row
    is the label of another row too, the run ends at that row before the
    page is fetched.) *)
Theorem player_without_percentile_tables_ends_run {lib : Library}
  fetch before x after idx name dfs reports :
  last_two (split "/" (row.href x)) = [idx; name] ->
  read_html (fetch idx name) = Ok dfs ->
  percentile_dfs dfs = Ok [] ->
  collect_all fetch (before ++ x :: after) before [] = Ok reports ->
  main fetch (before ++ x :: after)
  = mkOutcome None
      (Some (if unique_label (before ++ x :: after) x then IndexError
             else AttributeError)).
Proof.
  intros Hargs Hread Hext Hbefore.
  apply (main_stops_at _ _ _ _ reports); [assumption|].
  apply (collect_raises _ _ _ _ idx name); [assumption | | discriminate].
  eapply empty_extraction_raises; eassumption.
Qed.

Lemma player_without_percentile_tables_ends_run_witness :
  main (site "e46012d4" flat_only_page aligned_page)
       ([other_row] ++ sample_row :: [])
  = mkOutcome None (Some IndexError).
Proof.
  exact (player_without_percentile_tables_ends_run (lib := plain_library)
           (site "e46012d4" flat_only_page aligned_page)
           [other_row] sample_row [] "e46012d4" "Kevin-De-Bruyne" [flat_table]
           [("1f44ac21", other_record)] eq_refl eq_refl eq_refl eq_refl).
Defined.

(** X22: no record of the written file has Passes Blocked among the
    statistics of its data. *)
Theorem stored_data_excludes_passes_blocked {lib : Library}
  fetch rows reports k rec :
  outfile (main fetch rows) = Some (Complete reports) ->
  In (k, rec) reports ->
  ~ In "Passes Blocked" (keys (player.data rec)).
Proof.
  intros Hout Hin.
  destruct (stored_records_come_from_reports _ _ _ _ _ Hout Hin)
    as [idx [name [r [Hr [_ [Hdata _]]]]]].
  rewrite Hdata.
  destruct (data_keys_in_first _ _ _ _ Hr) as [first [[_ Hrows] Hkeys]].
  rewrite Hkeys. intros Hpb.
  destruct (keys_dict_get _ _ Hpb) as [e He].
  destruct (Hrows _ _ (dict_get_In _ _ _ He)) as [Hne _]. now apply Hne.
Qed.

Lemma stored_data_excludes_passes_blocked_witness :
  ~ In "Passes Blocked" (keys (player.data sample_record)).
Proof.
  apply (stored_data_excludes_passes_blocked (lib := plain_library)
           (always aligned_page) [sample_row]
           [("e46012d4", sample_record)] "e46012d4" sample_record eq_refl).
  left. reflexivity.
Defined.

(** X23: a row whose label is the label of another row of the frame
    ends the run: [df.loc] gives a Series for its link, which has no
    [split]; the [AttributeError] is not caught, and no file is
    written. *)
Theorem repeated_label_ends_run {lib : Library} fetch before x after :
  unique_label (before ++ x :: after) x = false ->
  outfile (main fetch (before ++ x :: after)) = None
  /\ (forall reports,
        collect_all fetch (before ++ x :: after) before [] = Ok reports ->
        main fetch (before ++ x :: after) = mkOutcome None (Some AttributeError)).
Proof.
  intros Hu.
  assert (Hx : forall reports,
            collect fetch (before ++ x :: after) reports x = Raise AttributeError).
  { intros reports. unfold collect. rewrite Hu. reflexivity. }
  split.
  - apply (main_writes_nothing fetch _ x).
    + apply in_or_app. right. now left.
    + intros reports. eauto.
  - intros reports Hbefore. apply (main_stops_at _ _ _ _ reports); auto.
Qed.

Lemma repeated_label_ends_run_witness :
  outfile (main (always aligned_page) ([] ++ sample_row :: [tabbed_row])) = None
  /\ main (always aligned_page) ([] ++ sample_row :: [tabbed_row])
     = mkOutcome None (Some AttributeError).
Proof.
  destruct (repeated_label_ends_run (lib := plain_library) (always aligned_page)
              [] sample_row [tabbed_row] eq_refl) as [H1 H2].
  split; [exact H1 | exact (H2 [] eq_refl)].
Defined.

(** X24: when the loop goes through and a row that is stored has an
    integer of the frame in its Player, Min, Squad or Age cell,
    [json.dump] raises [TypeError] and leaves a file that breaks off in
    the middle. *)
Theorem integer_cell_breaks_file {lib : Library}
  fetch before x after idx name r reports :
  collect_all fetch (before ++ x :: after) (before ++ x :: after) [] = Ok reports ->
  last_two (split "/" (row.href x)) = [idx; name] ->
  get_scouting_report fetch idx name = Ok r ->
  (forall y name' r', In y after ->
                      last_two (split "/" (row.href y)) = [idx; name'] ->
                      get_scouting_report fetch idx name' <> Ok r') ->
  cells_dumpable x = false ->
  main fetch (before ++ x :: after) = mkOutcome (Some Truncated) (Some TypeError).
Proof.
  intros Hloop Hargs Hr Hafter Hcells. unfold main, json_dump. rewrite Hloop.
  destruct (forallb _ reports) eqn:E; [|reflexivity].
  exfalso.
  pose proof (proj1 (records_dumpable fetch _ _ Hloop) E
                before x after idx name r eq_refl Hargs Hr Hafter) as H.
  congruence.
Qed.

Lemma integer_cell_breaks_file_witness :
  main (always aligned_page) ([] ++ integer_row :: [])
  = mkOutcome (Some Truncated) (Some TypeError).
Proof.
  apply (integer_cell_breaks_file (lib := plain_library) (always aligned_page)
           [] integer_row [] "e46012d4" "Kevin-De-Bruyne" aligned_report
           _ eq_refl eq_refl eq_refl
           (fun y name' r' (Hy : In y []) => False_ind _ Hy) eq_refl).
Defined.

(** ** The index frame *)

Lemma nth_error_slice_step {A : Type} (step k i : nat) (l : list A) :
  0 < step ->
  nth_error (slice_step step k l) i = nth_error l (k + step * i).
Proof.
  intros Hstep. revert k i. induction l as [|a l IH]; intros k i; simpl.
  - now rewrite !nth_error_nil.
  - destruct k as [|k]; simpl.
    + destruct i as [|i]; simpl.
      * now rewrite Nat.mul_0_r.
      * rewrite IH. replace (step * S i) with (S (step - 1 + step * i)) by lia.
        reflexivity.
    + apply IH.
Qed.

Lemma length_slice_step {A : Type} (step k : nat) (l : list A) :
  0 < step -> k < step ->
  List.length (slice_step step k l) = (List.length l + (step - 1 - k)) / step.
Proof.
  intros Hstep. revert k. induction l as [|a l IH]; intros k Hk; simpl.
  - symmetry. apply Nat.div_small. lia.
  - destruct k as [|k]; simpl.
    + rewrite IH by lia.
      replace (step - 1 - (step - 1)) with 0 by lia.
      replace (S (List.length l + (step - 1 - 0)))
        with (List.length l + 0 + 1 * step) by lia.
      rewrite Nat.div_add by lia. lia.
    + rewrite IH by lia. f_equal. lia.
Qed.

Lemma nth_error_hrefs {A : Type} (links : list A) (i : nat) :
  nth_error (hrefs links) i = nth_error links (5 * i).
Proof. unfold hrefs. rewrite nth_error_slice_step by lia. reflexivity. Qed.

Lemma length_hrefs {A : Type} (links : list A) :
  List.length (hrefs links) = (List.length links + 4) / 5.
Proof. unfold hrefs. rewrite length_slice_step by lia. reflexivity. Qed.

(** X18: line 93 takes the links at the indices 0, 5, 10, ...: the i-th
    href is the link at index 5 i, and there is one href for every
    started group of five links. *)
Theorem hrefs_are_every_fifth_link {A : Type} (links : list A) :
  (forall i, nth_error (hrefs links) i = nth_error links (5 * i))
  /\ List.length (hrefs links) = (List.length links + 4) / 5.
Proof.
  unfold hrefs. split.
  - intros i. rewrite nth_error_slice_step by lia. reflexivity.
  - rewrite length_slice_step by lia. reflexivity.
Qed.

Lemma same_player_refl a : same_player a a = true.
Proof. unfold same_player. now rewrite !cell_eqb_refl. Qed.

Lemma same_player_trans a b c :
  same_player a b = true -> same_player b c = true -> same_player a c = true.
Proof.
  unfold same_player. rewrite !andb_true_iff, !cell_eqb_eq.
  intros [-> ->] [-> ->]. auto.
Qed.

Lemma In_combine_nth {A B : Type} (l : list A) (l' : list B) a b :
  In (a, b) (combine l l') ->
  exists j, nth_error l j = Some a /\ nth_error l' j = Some b.
Proof.
  revert l'. induction l as [|x l IH]; intros [|y l']; simpl; try contradiction.
  intros [H|H].
  - inversion H; subst. exists 0. auto.
  - destruct (IH _ H) as [j Hj]. exists (S j). exact Hj.
Qed.

(** X19: line 99 raises [ValueError], outside the [try], exactly when
    the number of hrefs differs from the number of rows left after the
    header rows are dropped; otherwise the frame is built. *)
Theorem index_frame_raises_iff links df :
  (forall e, index_frame links df = Raise e -> e = ValueError)
  /\ (index_frame links df = Raise ValueError
      <-> (List.length links + 4) / 5 <> List.length (drop_header_rows df)).
Proof.
  unfold index_frame, set_href.
  rewrite length_hrefs.
  destruct (Nat.eqb_spec ((List.length links + 4) / 5)
                         (List.length (drop_header_rows df))) as [Heq|Hne]; simpl.
  - split; [intros e H; discriminate H|]. split; [intros H; discriminate H | tauto].
  - split; [intros e H; congruence | tauto].
Qed.

(** X20: the rows of the built frame stand in the order of the page;
    none repeats the header; each carries the link at index 5 j, where j
    is its place among the rows that are no header; no two agree in both
    Player and Age; and every row that is no header agrees in Player and
    Age with a row of the frame. *)
Theorem index_frame_rows links df rows :
  index_frame links df = Ok rows ->
  subsequence (map fst rows) df
  /\ (forall r h, In (r, h) rows ->
        index.Rk r <> Some "Rk"
        /\ exists j, nth_error (drop_header_rows df) j = Some r
                     /\ nth_error links (5 * j) = Some h)
  /\ ForallOrdPairs (fun a b => same_player a b = false) rows
  /\ (forall r, In r df -> index.Rk r <> Some "Rk" ->
        exists r' h, In (r', h) rows
                     /\ index.Player r' = index.Player r
                     /\ index.Age r' = index.Age r).
Proof.
  unfold index_frame, set_href. intros H.
  destruct (Nat.eqb_spec (List.length (hrefs links))
                         (List.length (drop_header_rows df))) as [Hlen|];
    [|discriminate H].
  simpl in H. inversion H; subst rows; clear H.
  set (zipped := combine (drop_header_rows df) (hrefs links)).
  pose proof (drop_duplicates_by_subsequence same_player zipped) as Hsub.
  assert (Hfst : map fst zipped = drop_header_rows df).
  { unfold zipped. clear -Hlen. revert Hlen.
    generalize (hrefs links) as hs. generalize (drop_header_rows df) as l.
    induction l as [|a l IH]; intros [|h hs] Hlen; simpl in *;
      try discriminate; [reflexivity|].
    f_equal. apply IH. lia. }
  split; [|split; [|split]].
  - eapply subsequence_trans; [apply subsequence_map, Hsub|].
    rewrite Hfst. apply filter_subsequence.
  - intros r h Hin. apply (subsequence_In _ _ _ Hsub) in Hin.
    destruct (In_combine_nth _ _ _ _ Hin) as [j [Hr Hh]].
    split.
    + apply nth_error_In in Hr. apply filter_In in Hr. destruct Hr as [_ Hr].
      apply negb_true_iff in Hr. intros Heq. rewrite Heq in Hr. discriminate.
    + exists j. split; [assumption|].
      now rewrite <- nth_error_hrefs.
  - apply drop_duplicates_by_distinct.
  - intros r Hr Hrk.
    assert (Hin : In r (map fst zipped)).
    { rewrite Hfst. apply filter_In. split; [assumption|].
      apply negb_true_iff. destruct (cell_eqb (index.Rk r) (Some "Rk")) eqn:E;
        [|reflexivity]. apply cell_eqb_eq in E. contradiction. }
    apply in_map_iff in Hin. destruct Hin as [[r0 h0] [Heq Hin]].
    simpl in Heq; subst r0.
    destruct (drop_duplicates_by_represents same_player same_player_refl
                same_player_trans zipped _ Hin) as [[r' h'] [Hy Hsame]].
    exists r', h'. split; [assumption|].
    unfold same_player in Hsame; simpl in Hsame.
    apply andb_prop in Hsame. destruct Hsame as [Hp Ha].
    apply cell_eqb_eq in Hp, Ha. auto.
Qed.

Lemma index_frame_rows_witness :
  index_frame sample_links sample_index
  = Ok [(index_row "1" "Ann" "30", "/p/a1/Ann");
        (index_row "2" "Bob" "22", "/p/b2/Bob")]
  /\ subsequence
       (map fst [(index_row "1" "Ann" "30", "/p/a1/Ann");
                 (index_row "2" "Bob" "22", "/p/b2/Bob")])
       sample_index.
Proof.
  split; [reflexivity|].
  exact (proj1 (index_frame_rows sample_links sample_index _ eq_refl)).
Defined.

Lemma index_frame_raises_iff_witness :
  index_frame (firstn 10 sample_links) sample_index = Raise ValueError.
Proof.
  apply (proj2 (index_frame_raises_iff _ _)). vm_compute. discriminate.
Defined.

Lemma hrefs_are_every_fifth_link_witness :
  nth_error (hrefs sample_links) 1 = nth_error sample_links 5
  /\ List.length (hrefs sample_links) = 3.
Proof.
  split.
  - exact (proj1 (hrefs_are_every_fifth_link sample_links) 1).
  - exact (proj2 (hrefs_are_every_fifth_link sample_links)).
Defined.
